(** * NYC Yellow Taxi cleaning pipeline: a shallow embedding

    This development embeds [datacleaning.py] (the Loader, the Rule Engine,
    the Zone Joiner, the Type Finalizer and the Reporter of [clean]) and
    [scripts/verify_cleaning.py] (the Verifier), and settles the properties
    of the specification against them.

    Modelling conventions.
    - A DataFrame is the list of its rows, in index order.  Every cell is
      nullable: [None] stands for [pd.NA], [NaN] and [NaT] alike.
    - A float cell holds a rational ([Q]): the value of a finite binary64
      number.  The sums and the difference of the total reconciliation round
      their result to binary64 ([NP.add], [NP.sub]), and the tolerance is the
      binary64 number that the literal [0.01] denotes; comparisons with 0,
      200, 1440 and the like are comparisons of values, and the duration in
      minutes is the quotient itself.  Infinities are not
      represented: [NP.float64] has no largest number, so the model follows
      binary64 only while no sum overflows, and the theorems that depend on
      it bound the amounts.
    - Timestamps ([datetime64[ns]]) are integers: nanoseconds since the epoch;
      a timestamp that is missing in the raw file is NaT.
    - Boolean masks over nullable columns are three-valued (Kleene logic), as
      in pandas; indexing with such a mask treats NA as False.
    - The frame handed to the Rule Engine is the frame read by
      [_read_inputs] after the numeric coercion of step 1: a cell that
      [pd.to_numeric(errors="coerce")] could not parse is already [None]. *)

From Stdlib Require Import ZArith QArith Qround Qabs Bool String Ascii List Lia Lqa.
Import ListNotations.

Open Scope Q_scope.

(** ** Nullable values and three-valued masks *)

Module NA.

Definition isna {A} (v : option A) : bool :=
    match v with None => true | Some _ => false end.

Definition notna {A} (v : option A) : bool := negb (isna v).

Definition fillna {A} (d : A) (v : option A) : A :=
    match v with Some x => x | None => d end.

  (** [a | b] on nullable booleans. *)
Definition or (a b : option bool) : option bool :=
    match a, b with
    | Some true, _ | _, Some true => Some true
    | Some false, Some false => Some false
    | _, _ => None
    end.

  (** [a & b] on nullable booleans. *)
Definition and (a b : option bool) : option bool :=
    match a, b with
    | Some false, _ | _, Some false => Some false
    | Some true, Some true => Some true
    | _, _ => None
    end.

  (** [~a] on nullable booleans. *)
Definition not (a : option bool) : option bool := option_map negb a.

  (** A nullable mask used as an indexer: NA selects nothing. *)
Definition as_mask (a : option bool) : bool := fillna false a.

  (** Comparisons on masked ([Float64]) cells propagate NA. *)
Definition lt (v : option Q) (c : Q) : option bool :=
    option_map (fun x => negb (Qle_bool c x)) v.
Definition gt (v : option Q) (c : Q) : option bool :=
    option_map (fun x => negb (Qle_bool x c)) v.
Definition ge (v : option Q) (c : Q) : option bool :=
    option_map (fun x => Qle_bool c x) v.
Definition le (v : option Q) (c : Q) : option bool :=
    option_map (fun x => Qle_bool x c) v.

  (** [Series.eq(c)] on a masked integer column. *)
Definition eqZ (v : option Z) (c : Z) : option bool :=
    option_map (fun x => Z.eqb x c) v.

  (** [Series.isin(values)]: NA is never a member, and the result has no NA. *)
Definition isinZ (v : option Z) (values : list Z) : bool :=
    match v with Some x => existsb (Z.eqb x) values | None => false end.
Definition isinQ (v : option Q) (values : list Z) : bool :=
    match v with
    | Some x => existsb (fun c => Qeq_bool x (inject_Z c)) values
    | None => false
    end.
Definition isinS (v : option string) (values : list string) : bool :=
    match v with Some x => existsb (String.eqb x) values | None => false end.

End NA.

(** Comparisons on plain numpy [float64] / [datetime64] cells: any comparison
    with NaN or NaT is False. *)
Module NP.

Definition le (v : option Q) (c : Q) : bool :=
    match v with Some x => Qle_bool x c | None => false end.
Definition ge (v : option Q) (c : Q) : bool :=
    match v with Some x => Qle_bool c x | None => false end.
Definition gt (v : option Q) (c : Q) : bool :=
    match v with Some x => negb (Qle_bool x c) | None => false end.
Definition eq (v : option Q) (c : Q) : bool :=
    match v with Some x => Qeq_bool x c | None => false end.

Definition ltZ (a b : option Z) : bool :=
    match a, b with Some x, Some y => Z.ltb x y | _, _ => false end.
Definition geZ (a b : option Z) : bool :=
    match a, b with Some x, Some y => Z.leb y x | _, _ => false end.

  (** [np.rint]: round to the nearest integer, ties to the even one. *)
Definition rint (q : Q) : Z :=
    let f := Qfloor q in
    match Qcompare (q - inject_Z f) (1 # 2) with
    | Lt => f
    | Gt => (f + 1)%Z
    | Eq => if Z.even f then f else (f + 1)%Z
    end.

  (** [x.round(5)]: scale by [10^5], round, scale back. *)
Definition round5 (q : Q) : Q := inject_Z (rint (q * 100000)) / 100000.

  (** [2^e], for any integer exponent. *)
Definition pow2 (e : Z) : Q :=
    match e with
    | Z0 => 1
    | Zpos p => inject_Z (2 ^ Zpos p)
    | Zneg p => 1 # (2 ^ p)
    end.

  (** The binary64 number nearest to a rational: the significand is rounded
      to 53 bits, ties to even.  With [2^k <= |x| < 2^(k+1)] the result is a
      multiple of [2^(k-52)].  A decimal literal and the text of a CSV cell
      denote the binary64 number nearest to them.  The exponent is not
      bounded here: binary64 overflows to an infinity beyond [2^1024], and
      below [2^-1022] a sum or difference of binary64 numbers is exact. *)
Definition float64 (x : Q) : Q :=
    if Qeq_bool x 0 then 0
    else
      let a := Qabs x in
      let k := (Z.log2 (Z.abs (Qnum x)) - Z.log2 (Zpos (Qden x)))%Z in
      let e := if Qle_bool (pow2 k) a then (k - 52)%Z else (k - 53)%Z in
      let r := Qred (inject_Z (rint (a / pow2 e)) * pow2 e) in
      if Qle_bool 0 x then r else - r.

  (** [x + y] and [x - y] on [float64] operands: the exact result, rounded. *)
Definition add (x y : Q) : Q := float64 (x + y).
Definition sub (x y : Q) : Q := float64 (x - y).

End NP.

Arguments NP.float64 : simpl never.
Arguments NP.add : simpl never.
Arguments NP.sub : simpl never.

(** ** The data model *)

(** One trip record.  The first nineteen fields are the columns of the raw
    file; [trip_duration_min] and the six zone columns are added by the
    pipeline and are [None] until the stage that assigns them. *)
Record Row := mkRow {
  VendorID : option Z;
  tpep_pickup_datetime : option Z;
  tpep_dropoff_datetime : option Z;
  passenger_count : option Q;
  trip_distance : option Q;
  RatecodeID : option Q;
  store_and_fwd_flag : option string;
  PULocationID : option Z;
  DOLocationID : option Z;
  payment_type : option Z;
  fare_amount : option Q;
  extra : option Q;
  mta_tax : option Q;
  tip_amount : option Q;
  tolls_amount : option Q;
  improvement_surcharge : option Q;
  total_amount : option Q;
  congestion_surcharge : option Q;
  airport_fee : option Q;
  trip_duration_min : option Q;
  PU_Borough : option string;
  PU_Zone : option string;
  PU_service_zone : option string;
  DO_Borough : option string;
  DO_Zone : option string;
  DO_service_zone : option string
}.

Definition DataFrame := list Row.

(** One record of the zone reference table. *)
Record ZoneRec := mkZone {
  LocationID : option Z;
  Borough : option string;
  Zone : option string;
  service_zone : option string
}.

(** *** Column assignment *)

Definition set_passenger_count (v : option Q) (r : Row) : Row :=
  mkRow
    (VendorID r) (tpep_pickup_datetime r) (tpep_dropoff_datetime r) v
    (trip_distance r) (RatecodeID r) (store_and_fwd_flag r) (PULocationID r)
    (DOLocationID r) (payment_type r) (fare_amount r) (extra r) (mta_tax r)
    (tip_amount r) (tolls_amount r) (improvement_surcharge r) (total_amount r)
    (congestion_surcharge r) (airport_fee r) (trip_duration_min r)
    (PU_Borough r) (PU_Zone r) (PU_service_zone r) (DO_Borough r) (DO_Zone r)
    (DO_service_zone r).

Definition set_trip_distance (v : option Q) (r : Row) : Row :=
  mkRow
    (VendorID r) (tpep_pickup_datetime r) (tpep_dropoff_datetime r)
    (passenger_count r) v (RatecodeID r) (store_and_fwd_flag r)
    (PULocationID r) (DOLocationID r) (payment_type r) (fare_amount r)
    (extra r) (mta_tax r) (tip_amount r) (tolls_amount r)
    (improvement_surcharge r) (total_amount r) (congestion_surcharge r)
    (airport_fee r) (trip_duration_min r) (PU_Borough r) (PU_Zone r)
    (PU_service_zone r) (DO_Borough r) (DO_Zone r) (DO_service_zone r).

Definition set_RatecodeID (v : option Q) (r : Row) : Row :=
  mkRow
    (VendorID r) (tpep_pickup_datetime r) (tpep_dropoff_datetime r)
    (passenger_count r) (trip_distance r) v (store_and_fwd_flag r)
    (PULocationID r) (DOLocationID r) (payment_type r) (fare_amount r)
    (extra r) (mta_tax r) (tip_amount r) (tolls_amount r)
    (improvement_surcharge r) (total_amount r) (congestion_surcharge r)
    (airport_fee r) (trip_duration_min r) (PU_Borough r) (PU_Zone r)
    (PU_service_zone r) (DO_Borough r) (DO_Zone r) (DO_service_zone r).

Definition set_store_and_fwd_flag (v : option string) (r : Row) : Row :=
  mkRow
    (VendorID r) (tpep_pickup_datetime r) (tpep_dropoff_datetime r)
    (passenger_count r) (trip_distance r) (RatecodeID r) v (PULocationID r)
    (DOLocationID r) (payment_type r) (fare_amount r) (extra r) (mta_tax r)
    (tip_amount r) (tolls_amount r) (improvement_surcharge r) (total_amount r)
    (congestion_surcharge r) (airport_fee r) (trip_duration_min r)
    (PU_Borough r) (PU_Zone r) (PU_service_zone r) (DO_Borough r) (DO_Zone r)
    (DO_service_zone r).

Definition set_payment_type (v : option Z) (r : Row) : Row :=
  mkRow
    (VendorID r) (tpep_pickup_datetime r) (tpep_dropoff_datetime r)
    (passenger_count r) (trip_distance r) (RatecodeID r)
    (store_and_fwd_flag r) (PULocationID r) (DOLocationID r) v (fare_amount r)
    (extra r) (mta_tax r) (tip_amount r) (tolls_amount r)
    (improvement_surcharge r) (total_amount r) (congestion_surcharge r)
    (airport_fee r) (trip_duration_min r) (PU_Borough r) (PU_Zone r)
    (PU_service_zone r) (DO_Borough r) (DO_Zone r) (DO_service_zone r).

Definition set_fare_amount (v : option Q) (r : Row) : Row :=
  mkRow
    (VendorID r) (tpep_pickup_datetime r) (tpep_dropoff_datetime r)
    (passenger_count r) (trip_distance r) (RatecodeID r)
    (store_and_fwd_flag r) (PULocationID r) (DOLocationID r) (payment_type r)
    v (extra r) (mta_tax r) (tip_amount r) (tolls_amount r)
    (improvement_surcharge r) (total_amount r) (congestion_surcharge r)
    (airport_fee r) (trip_duration_min r) (PU_Borough r) (PU_Zone r)
    (PU_service_zone r) (DO_Borough r) (DO_Zone r) (DO_service_zone r).

Definition set_extra (v : option Q) (r : Row) : Row :=
  mkRow
    (VendorID r) (tpep_pickup_datetime r) (tpep_dropoff_datetime r)
    (passenger_count r) (trip_distance r) (RatecodeID r)
    (store_and_fwd_flag r) (PULocationID r) (DOLocationID r) (payment_type r)
    (fare_amount r) v (mta_tax r) (tip_amount r) (tolls_amount r)
    (improvement_surcharge r) (total_amount r) (congestion_surcharge r)
    (airport_fee r) (trip_duration_min r) (PU_Borough r) (PU_Zone r)
    (PU_service_zone r) (DO_Borough r) (DO_Zone r) (DO_service_zone r).

Definition set_mta_tax (v : option Q) (r : Row) : Row :=
  mkRow
    (VendorID r) (tpep_pickup_datetime r) (tpep_dropoff_datetime r)
    (passenger_count r) (trip_distance r) (RatecodeID r)
    (store_and_fwd_flag r) (PULocationID r) (DOLocationID r) (payment_type r)
    (fare_amount r) (extra r) v (tip_amount r) (tolls_amount r)
    (improvement_surcharge r) (total_amount r) (congestion_surcharge r)
    (airport_fee r) (trip_duration_min r) (PU_Borough r) (PU_Zone r)
    (PU_service_zone r) (DO_Borough r) (DO_Zone r) (DO_service_zone r).

Definition set_tip_amount (v : option Q) (r : Row) : Row :=
  mkRow
    (VendorID r) (tpep_pickup_datetime r) (tpep_dropoff_datetime r)
    (passenger_count r) (trip_distance r) (RatecodeID r)
    (store_and_fwd_flag r) (PULocationID r) (DOLocationID r) (payment_type r)
    (fare_amount r) (extra r) (mta_tax r) v (tolls_amount r)
    (improvement_surcharge r) (total_amount r) (congestion_surcharge r)
    (airport_fee r) (trip_duration_min r) (PU_Borough r) (PU_Zone r)
    (PU_service_zone r) (DO_Borough r) (DO_Zone r) (DO_service_zone r).

Definition set_tolls_amount (v : option Q) (r : Row) : Row :=
  mkRow
    (VendorID r) (tpep_pickup_datetime r) (tpep_dropoff_datetime r)
    (passenger_count r) (trip_distance r) (RatecodeID r)
    (store_and_fwd_flag r) (PULocationID r) (DOLocationID r) (payment_type r)
    (fare_amount r) (extra r) (mta_tax r) (tip_amount r) v
    (improvement_surcharge r) (total_amount r) (congestion_surcharge r)
    (airport_fee r) (trip_duration_min r) (PU_Borough r) (PU_Zone r)
    (PU_service_zone r) (DO_Borough r) (DO_Zone r) (DO_service_zone r).

Definition set_improvement_surcharge (v : option Q) (r : Row) : Row :=
  mkRow
    (VendorID r) (tpep_pickup_datetime r) (tpep_dropoff_datetime r)
    (passenger_count r) (trip_distance r) (RatecodeID r)
    (store_and_fwd_flag r) (PULocationID r) (DOLocationID r) (payment_type r)
    (fare_amount r) (extra r) (mta_tax r) (tip_amount r) (tolls_amount r) v
    (total_amount r) (congestion_surcharge r) (airport_fee r)
    (trip_duration_min r) (PU_Borough r) (PU_Zone r) (PU_service_zone r)
    (DO_Borough r) (DO_Zone r) (DO_service_zone r).

Definition set_total_amount (v : option Q) (r : Row) : Row :=
  mkRow
    (VendorID r) (tpep_pickup_datetime r) (tpep_dropoff_datetime r)
    (passenger_count r) (trip_distance r) (RatecodeID r)
    (store_and_fwd_flag r) (PULocationID r) (DOLocationID r) (payment_type r)
    (fare_amount r) (extra r) (mta_tax r) (tip_amount r) (tolls_amount r)
    (improvement_surcharge r) v (congestion_surcharge r) (airport_fee r)
    (trip_duration_min r) (PU_Borough r) (PU_Zone r) (PU_service_zone r)
    (DO_Borough r) (DO_Zone r) (DO_service_zone r).

Definition set_congestion_surcharge (v : option Q) (r : Row) : Row :=
  mkRow
    (VendorID r) (tpep_pickup_datetime r) (tpep_dropoff_datetime r)
    (passenger_count r) (trip_distance r) (RatecodeID r)
    (store_and_fwd_flag r) (PULocationID r) (DOLocationID r) (payment_type r)
    (fare_amount r) (extra r) (mta_tax r) (tip_amount r) (tolls_amount r)
    (improvement_surcharge r) (total_amount r) v (airport_fee r)
    (trip_duration_min r) (PU_Borough r) (PU_Zone r) (PU_service_zone r)
    (DO_Borough r) (DO_Zone r) (DO_service_zone r).

Definition set_airport_fee (v : option Q) (r : Row) : Row :=
  mkRow
    (VendorID r) (tpep_pickup_datetime r) (tpep_dropoff_datetime r)
    (passenger_count r) (trip_distance r) (RatecodeID r)
    (store_and_fwd_flag r) (PULocationID r) (DOLocationID r) (payment_type r)
    (fare_amount r) (extra r) (mta_tax r) (tip_amount r) (tolls_amount r)
    (improvement_surcharge r) (total_amount r) (congestion_surcharge r) v
    (trip_duration_min r) (PU_Borough r) (PU_Zone r) (PU_service_zone r)
    (DO_Borough r) (DO_Zone r) (DO_service_zone r).

Definition set_trip_duration_min (v : option Q) (r : Row) : Row :=
  mkRow
    (VendorID r) (tpep_pickup_datetime r) (tpep_dropoff_datetime r)
    (passenger_count r) (trip_distance r) (RatecodeID r)
    (store_and_fwd_flag r) (PULocationID r) (DOLocationID r) (payment_type r)
    (fare_amount r) (extra r) (mta_tax r) (tip_amount r) (tolls_amount r)
    (improvement_surcharge r) (total_amount r) (congestion_surcharge r)
    (airport_fee r) v (PU_Borough r) (PU_Zone r) (PU_service_zone r)
    (DO_Borough r) (DO_Zone r) (DO_service_zone r).

Definition set_PU (b z s : option string) (r : Row) : Row :=
  mkRow
    (VendorID r) (tpep_pickup_datetime r) (tpep_dropoff_datetime r)
    (passenger_count r) (trip_distance r) (RatecodeID r)
    (store_and_fwd_flag r) (PULocationID r) (DOLocationID r) (payment_type r)
    (fare_amount r) (extra r) (mta_tax r) (tip_amount r) (tolls_amount r)
    (improvement_surcharge r) (total_amount r) (congestion_surcharge r)
    (airport_fee r) (trip_duration_min r) b z s (DO_Borough r) (DO_Zone r)
    (DO_service_zone r).

Definition set_DO (b z s : option string) (r : Row) : Row :=
  mkRow
    (VendorID r) (tpep_pickup_datetime r) (tpep_dropoff_datetime r)
    (passenger_count r) (trip_distance r) (RatecodeID r)
    (store_and_fwd_flag r) (PULocationID r) (DOLocationID r) (payment_type r)
    (fare_amount r) (extra r) (mta_tax r) (tip_amount r) (tolls_amount r)
    (improvement_surcharge r) (total_amount r) (congestion_surcharge r)
    (airport_fee r) (trip_duration_min r) (PU_Borough r) (PU_Zone r)
    (PU_service_zone r) b z s.


(** The ten [Float64] columns of step 1, addressed by name. *)
Inductive FloatCol :=
| col_fare_amount | col_extra | col_mta_tax | col_tip_amount
| col_tolls_amount | col_improvement_surcharge | col_total_amount
| col_congestion_surcharge | col_airport_fee | col_trip_distance.

Definition getcol (c : FloatCol) (r : Row) : option Q :=
  match c with
  | col_fare_amount => fare_amount r
  | col_extra => extra r
  | col_mta_tax => mta_tax r
  | col_tip_amount => tip_amount r
  | col_tolls_amount => tolls_amount r
  | col_improvement_surcharge => improvement_surcharge r
  | col_total_amount => total_amount r
  | col_congestion_surcharge => congestion_surcharge r
  | col_airport_fee => airport_fee r
  | col_trip_distance => trip_distance r
  end.

Definition setcol (c : FloatCol) (v : option Q) (r : Row) : Row :=
  match c with
  | col_fare_amount => set_fare_amount v r
  | col_extra => set_extra v r
  | col_mta_tax => set_mta_tax v r
  | col_tip_amount => set_tip_amount v r
  | col_tolls_amount => set_tolls_amount v r
  | col_improvement_surcharge => set_improvement_surcharge v r
  | col_total_amount => set_total_amount v r
  | col_congestion_surcharge => set_congestion_surcharge v r
  | col_airport_fee => set_airport_fee v r
  | col_trip_distance => set_trip_distance v r
  end.

(** *** Indexing a frame with masks *)

(** [df[mask]]: the rows whose mask entry is True, in order. *)
Definition boolean_index {A} (df : list A) (mask : list bool) : list A :=
  map fst (filter snd (combine df mask)).

(** [df.loc[mask, col] = ...]: the rows selected by a nullable mask are
    rewritten by [f], the others are left alone; NA selects nothing. *)
Definition loc_assign (df : DataFrame) (mask : list (option bool))
    (f : Row -> Row) : DataFrame :=
  map (fun rm => if NA.as_mask (snd rm) then f (fst rm) else fst rm)
      (combine df mask).

(** [int(mask.sum())]: the number of True entries (NA is skipped). *)
Definition mask_sum (mask : list (option bool)) : Z :=
  Z.of_nat (length (filter NA.as_mask mask)).

(** ** The Reporter *)

(** One line of the cleaning report: the description and the count that the
    source renders as [f"{description}: {count:,}"]. *)
Definition ReportLine := (string * Z)%type.

Definition _log (report : list ReportLine) (description : string)
    (count : Z) : list ReportLine :=
  report ++ [(description, count)].

Definition len (df : DataFrame) : Z := Z.of_nat (length df).

(** ** The Rule Engine, stage by stage

    Every stage is written the way [clean] writes it: a mask is computed
    from the current frame, then the frame is indexed or assigned with it. *)

(** *** 1) Column types and normalization *)

Definition upper_ascii (c : ascii) : ascii :=
  let n := nat_of_ascii c in
  if (97 <=? n)%nat && (n <=? 122)%nat then ascii_of_nat (n - 32) else c.

(** [str.upper()], on the ASCII letters. *)
Fixpoint str_upper (s : string) : string :=
  match s with
  | EmptyString => EmptyString
  | String c t => String (upper_ascii c) (str_upper t)
  end.

Definition normalize_store_and_fwd_flag (df : DataFrame) : DataFrame :=
  let df :=
    map (fun r =>
           set_store_and_fwd_flag
             (option_map str_upper (store_and_fwd_flag r)) r) df in
  loc_assign df
    (map (fun r =>
            Some (negb (NA.isinS (store_and_fwd_flag r) ["Y"; "N"]%string)))
         df)
    (set_store_and_fwd_flag None).

(** *** 2) Valid domains *)

Definition vendor_mask (df : DataFrame) : list bool :=
  map (fun r => NA.isinZ (VendorID r) [1; 2]%Z || NA.isna (VendorID r)) df.

Definition drop_invalid_vendor (df : DataFrame) : DataFrame :=
  boolean_index df (vendor_mask df).

(** Ratecode: keep nulls, set invalid to null.  The cast back to [Int64] is
    the identity on the values that remain (1..6). *)
Definition null_invalid_ratecode (df : DataFrame) : DataFrame :=
  loc_assign df
    (map (fun r =>
            Some (negb (NA.isinQ (RatecodeID r) [1; 2; 3; 4; 5; 6]%Z)
                  && NA.notna (RatecodeID r))) df)
    (set_RatecodeID None).

(** payment_type: 0 -> NA. *)
Definition null_zero_payment (df : DataFrame) : DataFrame :=
  loc_assign df (map (fun r => NA.eqZ (payment_type r) 0%Z) df)
    (set_payment_type None).

(** *** 3) Datetime sanity *)

Definition bad_order (df : DataFrame) : list bool :=
  map (fun r => NP.ltZ (tpep_dropoff_datetime r) (tpep_pickup_datetime r)) df.

Definition drop_bad_order (df : DataFrame) : DataFrame :=
  boolean_index df (map negb (bad_order df)).

(** [(dropoff - pickup).dt.total_seconds() / 60.0]; NaT on either side
    gives NaN. *)
Definition duration_minutes (r : Row) : option Q :=
  match tpep_dropoff_datetime r, tpep_pickup_datetime r with
  | Some d, Some p => Some (inject_Z (d - p) / 1000000000 / 60)
  | _, _ => None
  end.

Definition add_trip_duration (df : DataFrame) : DataFrame :=
  map (fun r => set_trip_duration_min (duration_minutes r) r) df.

Definition drop_over_24h (df : DataFrame) : DataFrame :=
  boolean_index df (map (fun r => NP.le (trip_duration_min r) (24 * 60)) df).

Definition zero_minute (df : DataFrame) : list bool :=
  map (fun r =>
         Qeq_bool (NP.round5 (NA.fillna 0 (trip_duration_min r))) 0) df.

Definition zero_distance (df : DataFrame) : list bool :=
  map (fun r => Qeq_bool (NP.round5 (NA.fillna 0 (trip_distance r))) 0) df.

Definition drop_zero_minute_zero_distance (df : DataFrame) : DataFrame :=
  boolean_index df
    (map (fun zz => negb (fst zz && snd zz))
         (combine (zero_minute df) (zero_distance df))).

(** *** 4) Distance sanity *)

Definition drop_negative_distance (df : DataFrame) : DataFrame :=
  boolean_index df
    (map (fun r =>
            NA.as_mask (NA.or (Some (NA.isna (trip_distance r)))
                              (NA.ge (trip_distance r) 0))) df).

Definition drop_extreme_distance (df : DataFrame) : DataFrame :=
  boolean_index df
    (map (fun r =>
            NA.as_mask (NA.or (Some (NA.isna (trip_distance r)))
                              (NA.le (trip_distance r) 200))) df).

(** *** 5) Monetary fields and totals *)

(** The columns of the negative-nulling loop, in the order of the source. *)
Definition component_fee_columns : list FloatCol :=
  [col_extra; col_mta_tax; col_tip_amount; col_tolls_amount;
   col_improvement_surcharge; col_congestion_surcharge; col_airport_fee].

Definition column_label (c : FloatCol) : string :=
  match c with
  | col_fare_amount => "fare_amount"
  | col_extra => "extra"
  | col_mta_tax => "mta_tax"
  | col_tip_amount => "tip_amount"
  | col_tolls_amount => "tolls_amount"
  | col_improvement_surcharge => "improvement_surcharge"
  | col_total_amount => "total_amount"
  | col_congestion_surcharge => "congestion_surcharge"
  | col_airport_fee => "airport_fee"
  | col_trip_distance => "trip_distance"
  end.

Definition neg_mask (col : FloatCol) (df : DataFrame) : list (option bool) :=
  map (fun r => NA.lt (getcol col r) 0) df.

(** One iteration of the loop body, on the frame. *)
Definition null_negative (col : FloatCol) (df : DataFrame) : DataFrame :=
  loc_assign df (neg_mask col df) (setcol col None).

(** One iteration of the loop body, with its report line. *)
Definition null_negative_step (st : DataFrame * list ReportLine)
    (col : FloatCol) : DataFrame * list ReportLine :=
  let df := fst st in
  let report := snd st in
  let nneg := mask_sum (neg_mask col df) in
  let df' := null_negative col df in
  (df', if (nneg =? 0)%Z then report
        else _log report ("Set negatives to NA for " ++ column_label col) nneg).

Definition null_negative_components (df : DataFrame) : DataFrame :=
  fold_left (fun d col => null_negative col d) component_fee_columns df.

(** [(~df["payment_type"].isin([4, 6])).fillna(False)] *)
Definition non_adj (r : Row) : bool :=
  NA.fillna false (NA.not (Some (NA.isinZ (payment_type r) [4; 6]%Z))).

Definition nonneg_or_exempt (v : option Q) (r : Row) : option bool :=
  NA.or (NA.or (Some (NA.isna v)) (NA.ge v 0)) (Some (negb (non_adj r))).

Definition drop_negative_fare (df : DataFrame) : DataFrame :=
  boolean_index df
    (map (fun r => NA.as_mask (nonneg_or_exempt (fare_amount r) r)) df).

Definition drop_negative_total (df : DataFrame) : DataFrame :=
  boolean_index df
    (map (fun r => NA.as_mask (nonneg_or_exempt (total_amount r) r)) df).

(** **** Total reconciliation, on columns *)

Definition Series := list (option Q).

Definition column (c : FloatCol) (df : DataFrame) : Series := map (getcol c) df.

Definition series_fillna (v : Q) (s : Series) : Series :=
  map (fun x => Some (NA.fillna v x)) s.

(** [a.add(b, fill_value=fill)] at one position: a side that is missing
    alone is replaced by [fill]; missing on both sides stays missing.  The
    addition is that of [float64] columns. *)
Definition add_fill (fill : Q) (a b : option Q) : option Q :=
  match a, b with
  | Some x, Some y => Some (NP.add x y)
  | None, Some y => Some (NP.add fill y)
  | Some x, None => Some (NP.add x fill)
  | None, None => None
  end.

Definition series_add_fill (fill : Q) (a b : Series) : Series :=
  map (fun xy => add_fill fill (fst xy) (snd xy)) (combine a b).

(** [_coalesce_sum]: the loop is a left fold whose accumulator starts as
    Python's [None]; the final [assert] fails exactly when [None] is
    returned here. *)
Definition _coalesce_sum (values : list Series) : option Series :=
  fold_left
    (fun result s =>
       match result with
       | None => Some s
       | Some acc => Some (series_add_fill 0 acc (series_fillna 0 s))
       end)
    values None.

Definition money_columns : list FloatCol :=
  [col_fare_amount; col_extra; col_mta_tax; col_tip_amount; col_tolls_amount;
   col_improvement_surcharge; col_congestion_surcharge; col_airport_fee].

Definition computed_total (df : DataFrame) : Series :=
  match _coalesce_sum (map (fun c => column c df) money_columns) with
  | Some s => s
  | None => []
  end.

(** [(a - b).abs() > 0.01] at one position: the difference is rounded, and
    [0.01] is the [float64] number nearest to 1/100. *)
Definition mismatch_cell (total computed : option Q) : option bool :=
  match total, computed with
  | Some t, Some c => NA.gt (Some (Qabs (NP.sub t c))) (NP.float64 (1 # 100))
  | _, _ => None
  end.

Definition mismatch (df : DataFrame) : list (option bool) :=
  map (fun tc => mismatch_cell (fst tc) (snd tc))
      (combine (column col_total_amount df) (computed_total df)).

(** [df.loc[mismatch, "total_amount"] = computed_total[mismatch]] *)
Definition replace_mismatched_total (df : DataFrame) : DataFrame :=
  map (fun x =>
         let r := fst x in
         let m := fst (snd x) in
         let c := snd (snd x) in
         if NA.as_mask m then set_total_amount c r else r)
      (combine df (combine (mismatch df) (computed_total df))).

(** *** 6) Passenger count capping *)

(** [astype("Int64")] on a masked float column: the numpy cast, which
    discards the fractional part. *)
Definition astype_Int64 (v : option Q) : option Q :=
  option_map (fun q => inject_Z (Z.quot (Qnum q) (Zpos (Qden q)))) v.

Definition cap_passenger_count (df : DataFrame) : DataFrame :=
  let df :=
    loc_assign df (map (fun r => NA.lt (passenger_count r) 0) df)
      (set_passenger_count None) in
  let df :=
    loc_assign df (map (fun r => NA.gt (passenger_count r) 6) df)
      (set_passenger_count None) in
  map (fun r => set_passenger_count (astype_Int64 (passenger_count r)) r) df.

(** *** 7) Deduplicate *)

Definition optZ_eqb (a b : option Z) : bool :=
  match a, b with
  | Some x, Some y => Z.eqb x y
  | None, None => true
  | _, _ => false
  end.

Definition optQ_eqb (a b : option Q) : bool :=
  match a, b with
  | Some x, Some y => Qeq_bool x y
  | None, None => true
  | _, _ => false
  end.

(** Agreement of two rows on the [subset] columns; missing values compare
    equal to each other, as in [DataFrame.duplicated]. *)
Definition same_key (a b : Row) : bool :=
  optZ_eqb (VendorID a) (VendorID b)
  && optZ_eqb (tpep_pickup_datetime a) (tpep_pickup_datetime b)
  && optZ_eqb (tpep_dropoff_datetime a) (tpep_dropoff_datetime b)
  && optZ_eqb (PULocationID a) (PULocationID b)
  && optZ_eqb (DOLocationID a) (DOLocationID b)
  && optQ_eqb (trip_distance a) (trip_distance b)
  && optQ_eqb (fare_amount a) (fare_amount b)
  && optZ_eqb (payment_type a) (payment_type b).

(** [df.duplicated(subset, keep="first")]: a row is marked when an earlier
    row has the same key. *)
Fixpoint duplicated_from (seen : list Row) (df : DataFrame) : list bool :=
  match df with
  | [] => []
  | r :: t => existsb (fun s => same_key s r) seen
              :: duplicated_from (seen ++ [r]) t
  end.

Definition duplicated (df : DataFrame) : list bool := duplicated_from [] df.

Definition drop_duplicates (df : DataFrame) : DataFrame :=
  boolean_index df (map negb (duplicated df)).

(** ** The Zone Joiner *)

(** [df.merge(right, on=key, how="left")]: every left row, in order, once
    per matching right row (in the order of the right table), or once with
    missing right columns when nothing matches.  Missing keys match each
    other. *)
Definition merge_left (key : Row -> option Z)
    (attach : option string -> option string -> option string -> Row -> Row)
    (df : DataFrame) (right : list ZoneRec) : DataFrame :=
  flat_map
    (fun r =>
       match filter (fun z => optZ_eqb (key r) (LocationID z)) right with
       | [] => [attach None None None r]
       | matches =>
           map (fun z => attach (Borough z) (Zone z) (service_zone z) r)
               matches
       end) df.

Definition merge_PU (zones : list ZoneRec) (df : DataFrame) : DataFrame :=
  merge_left PULocationID set_PU df zones.

Definition merge_DO (zones : list ZoneRec) (df : DataFrame) : DataFrame :=
  merge_left DOLocationID set_DO df zones.

Definition unmapped (df : DataFrame) : list bool :=
  map (fun r => NA.isna (PU_Zone r) || NA.isna (DO_Zone r)) df.

Definition drop_unmapped (df : DataFrame) : DataFrame :=
  boolean_index df (map negb (unmapped df)).

(** ** The Type Finalizer *)

(** Every cell already has its nullable representation, so the final
    [astype] calls do not change any value. *)
Definition final_types (df : DataFrame) : DataFrame := df.

(** ** [clean], on the frames read by the Loader

    The body of [clean] between [_read_inputs] and [to_csv]: the frame and
    the report are threaded through the stages in the order of the source. *)

Definition log_if_nonzero (report : list ReportLine) (description : string)
    (count : Z) : list ReportLine :=
  if (count =? 0)%Z then report else _log report description count.

Definition clean_frame (zones : list ZoneRec) (df : DataFrame)
    : DataFrame * list ReportLine :=
  let report := [] in
  let report := _log report "Loaded raw rows" (len df) in
  (* 1) Column types and normalization *)
  let df := normalize_store_and_fwd_flag df in
  (* 2) Valid domains *)
  let before := len df in
  let df := drop_invalid_vendor df in
  let report := _log report "Dropped invalid VendorID rows" (before - len df) in
  let df := null_invalid_ratecode df in
  let df := null_zero_payment df in
  (* 3) Datetime sanity *)
  let before := len df in
  let df := drop_bad_order df in
  let report := _log report "Dropped dropoff<pickup" (before - len df) in
  let df := add_trip_duration df in
  let before := len df in
  let df := drop_over_24h df in
  let report := _log report "Dropped >24h duration" (before - len df) in
  let before := len df in
  let df := drop_zero_minute_zero_distance df in
  let report :=
    _log report "Dropped zero-minute with zero-distance" (before - len df) in
  (* 4) Distance sanity *)
  let before := len df in
  let df := drop_negative_distance df in
  let report := _log report "Dropped negative distance" (before - len df) in
  let before := len df in
  let df := drop_extreme_distance df in
  let report :=
    _log report "Dropped extreme distance >200mi" (before - len df) in
  (* 5) Monetary fields and totals *)
  let st := fold_left null_negative_step component_fee_columns (df, report) in
  let df := fst st in
  let report := snd st in
  let before := len df in
  let df := drop_negative_fare df in
  let report :=
    log_if_nonzero report "Dropped negative fare for non-adjustment payments"
      (before - len df) in
  let before := len df in
  let df := drop_negative_total df in
  let report :=
    log_if_nonzero report "Dropped negative total for non-adjustment payments"
      (before - len df) in
  let nmismatch := mask_sum (mismatch df) in
  let df := replace_mismatched_total df in
  let report := _log report "Replaced mismatched total_amount" nmismatch in
  (* 6) Passenger count capping *)
  let df := cap_passenger_count df in
  (* 7) Deduplicate *)
  let before := len df in
  let df := drop_duplicates df in
  let report := _log report "Dropped exact duplicates" (before - len df) in
  (* 8) Zone mapping *)
  let df := merge_PU zones df in
  let df := merge_DO zones df in
  let before := len df in
  let df := drop_unmapped df in
  let report :=
    _log report "Dropped rows with unmapped PU/DO zones" (before - len df) in
  (* 9) Final types *)
  let df := final_types df in
  (df, report).

(** The clean dataset. *)
Definition clean_output (zones : list ZoneRec) (df : DataFrame) : DataFrame :=
  fst (clean_frame zones df).

(** *** The stages by name *)

Inductive Stage :=
| NormalizeFlag | VendorDomain | RatecodeDomain | PaymentZero
| DropoffBeforePickup | TripDuration | DurationOver24h | ZeroMinuteZeroDistance
| NegativeDistance | ExtremeDistance | NullNegative (col : FloatCol)
| NegativeFare | NegativeTotal | ReconcileTotal | PassengerCap | Deduplicate
| MergePickupZone | MergeDropoffZone | DropUnmapped | FinalTypes.

Definition run_stage (zones : list ZoneRec) (s : Stage) (df : DataFrame)
    : DataFrame :=
  match s with
  | NormalizeFlag => normalize_store_and_fwd_flag df
  | VendorDomain => drop_invalid_vendor df
  | RatecodeDomain => null_invalid_ratecode df
  | PaymentZero => null_zero_payment df
  | DropoffBeforePickup => drop_bad_order df
  | TripDuration => add_trip_duration df
  | DurationOver24h => drop_over_24h df
  | ZeroMinuteZeroDistance => drop_zero_minute_zero_distance df
  | NegativeDistance => drop_negative_distance df
  | ExtremeDistance => drop_extreme_distance df
  | NullNegative col => null_negative col df
  | NegativeFare => drop_negative_fare df
  | NegativeTotal => drop_negative_total df
  | ReconcileTotal => replace_mismatched_total df
  | PassengerCap => cap_passenger_count df
  | Deduplicate => drop_duplicates df
  | MergePickupZone => merge_PU zones df
  | MergeDropoffZone => merge_DO zones df
  | DropUnmapped => drop_unmapped df
  | FinalTypes => final_types df
  end.

Definition run_stages (zones : list ZoneRec) (ss : list Stage)
    (df : DataFrame) : DataFrame :=
  fold_left (fun d s => run_stage zones s d) ss df.

(** The order in which [clean] runs them. *)
Definition pipeline : list Stage :=
  [NormalizeFlag; VendorDomain; RatecodeDomain; PaymentZero;
   DropoffBeforePickup; TripDuration; DurationOver24h;
   ZeroMinuteZeroDistance; NegativeDistance; ExtremeDistance]
  ++ map NullNegative component_fee_columns
  ++ [NegativeFare; NegativeTotal; ReconcileTotal; PassengerCap; Deduplicate;
      MergePickupZone; MergeDropoffZone; DropUnmapped; FinalTypes].

(** ** The Verifier *)

Module Verifier.

  (** The Verifier reads the clean file back with plain numpy columns: a
      missing cell is NaN, and every comparison with it is False. *)

Definition all (mask : list bool) : bool := forallb (fun b => b) mask.

Definition non_adj (r : Row) : bool :=
    negb (NA.isinZ (payment_type r) [4; 6]%Z).

  (** The eight [fillna(0)] columns, added from left to right. *)
Definition comp (r : Row) : Q :=
    NP.add (NP.add (NP.add (NP.add (NP.add (NP.add (NP.add
      (NA.fillna 0 (fare_amount r))
      (NA.fillna 0 (extra r)))
      (NA.fillna 0 (mta_tax r)))
      (NA.fillna 0 (tip_amount r)))
      (NA.fillna 0 (tolls_amount r)))
      (NA.fillna 0 (improvement_surcharge r)))
      (NA.fillna 0 (congestion_surcharge r)))
      (NA.fillna 0 (airport_fee r)).

Definition zero_minute (r : Row) : bool :=
    match trip_duration_min r with
    | Some d => Qeq_bool (NP.round5 d) 0
    | None => false
    end.

Definition distance_rounds_positive (r : Row) : bool :=
    match trip_distance r with
    | Some d => NP.gt (Some (NP.round5 d)) 0
    | None => false
    end.

Definition vendor_valid (df : DataFrame) : bool :=
    all (map (fun r => NA.isinZ (VendorID r) [1; 2]%Z) df).

Definition ratecode_valid (df : DataFrame) : bool :=
    all (map (fun r => NA.isna (RatecodeID r)
                       || NA.isinQ (RatecodeID r) [1; 2; 3; 4; 5; 6]%Z) df).

Definition payment_valid (df : DataFrame) : bool :=
    all (map (fun r => NA.isna (payment_type r)
                       || NA.isinZ (payment_type r) [1; 2; 3; 4; 5; 6]%Z) df).

Definition saf_valid (df : DataFrame) : bool :=
    all (map (fun r => NA.isna (store_and_fwd_flag r)
                       || NA.isinS (store_and_fwd_flag r) ["Y"; "N"]%string)
             df).

Definition distance_range (df : DataFrame) : bool :=
    all (map (fun r => NP.ge (trip_distance r) 0
                       && NP.le (trip_distance r) 200) df).

Definition drop_ge_pick (df : DataFrame) : bool :=
    all (map (fun r => NP.geZ (tpep_dropoff_datetime r)
                              (tpep_pickup_datetime r)) df).

Definition dur_le_24h (df : DataFrame) : bool :=
    all (map (fun r => NP.le (trip_duration_min r) (24 * 60)) df).

Definition zero_min_distance_positive (df : DataFrame) : bool :=
    all (map (fun r => negb (zero_minute r) || distance_rounds_positive r) df).

Definition fare_nonneg_when_not_adjust (df : DataFrame) : bool :=
    all (map (fun r => NP.ge (fare_amount r) 0)
             (boolean_index df (map non_adj df))).

Definition total_nonneg_when_not_adjust (df : DataFrame) : bool :=
    all (map (fun r => NP.ge (total_amount r) 0)
             (boolean_index df (map non_adj df))).

Definition total_matches_components (df : DataFrame) : bool :=
    all (map (fun r =>
                Qle_bool
                  (Qabs (NP.sub (NA.fillna 0 (total_amount r)) (comp r)))
                  (NP.float64 (1 # 100))) df).

Definition pu_zone_present (df : DataFrame) : bool :=
    all (map (fun r => NA.notna (PU_Zone r)) df).

Definition do_zone_present (df : DataFrame) : bool :=
    all (map (fun r => NA.notna (DO_Zone r)) df).

  (** The [checks] dictionary, in insertion order. *)
Definition checks (df : DataFrame) : list (string * bool) :=
    [("vendor_valid", vendor_valid df);
     ("ratecode_valid", ratecode_valid df);
     ("payment_valid", payment_valid df);
     ("saf_valid", saf_valid df);
     ("distance_range", distance_range df);
     ("drop_ge_pick", drop_ge_pick df);
     ("dur_le_24h", dur_le_24h df);
     ("zero_min_distance_positive", zero_min_distance_positive df);
     ("fare_nonneg_when_not_adjust", fare_nonneg_when_not_adjust df);
     ("total_nonneg_when_not_adjust", total_nonneg_when_not_adjust df);
     ("total_matches_components", total_matches_components df);
     ("pu_zone_present", pu_zone_present df);
     ("do_zone_present", do_zone_present df)]%string.

  (** The lines of the verification report. *)
Definition verdict (ok : bool) : string :=
    if ok then "PASS"%string else "FAIL"%string.

Definition report (df : DataFrame) : list (string * string) :=
    map (fun c => (fst c, verdict (snd c))) (checks df).

Definition all_pass (df : DataFrame) : bool :=
    forallb (fun c => snd c) (checks df).

End Verifier.

(** ** The Loader and the run of [clean]

    Files are a partial map from paths to contents; a computation either
    raises a Python exception or returns, and may rewrite files. *)

Inductive Exception := Raise (class detail : string).

Definition exception_class (e : Exception) : string :=
  match e with Raise class _ => class end.

Definition FileSystem := string -> option string.

Definition IO (A : Type) : Type := FileSystem -> (Exception + A) * FileSystem.

Definition ret {A} (x : A) : IO A := fun fs => (inr x, fs).

Definition raise {A} (e : Exception) : IO A := fun fs => (inl e, fs).

Definition bind {A B} (m : IO A) (k : A -> IO B) : IO B :=
  fun fs =>
    match m fs with
    | (inl e, fs') => (inl e, fs')
    | (inr x, fs') => k x fs'
    end.

Notation "x <- m ;; k" := (bind m (fun x => k))
  (at level 61, m at next level, right associativity).

(** [open(path, "w")] followed by the writes: the file is replaced. *)
Definition write_file (path text : string) : IO unit :=
  fun fs => (inr tt, fun p => if String.eqb p path then Some text else fs p).

Definition WORKSPACE_ROOT : string := "/Users/harish/FDM_EDA".
Definition RAW_CSV : string := WORKSPACE_ROOT ++ "/NYC_YELLOW_TAXI_RAW.csv".
Definition ZONES_CSV : string := WORKSPACE_ROOT ++ "/Docs/taxi_zone_lookup.csv".
Definition CLEAN_CSV : string := WORKSPACE_ROOT ++ "/NYC_YELLOW_TAXI_CLEAN.csv".
Definition REPORT_MD : string := WORKSPACE_ROOT ++ "/Docs/cleaning_report.md".

(** The [.dt] accessor of the duration stage.  [read_csv] fixes the dtype of
    the two timestamp columns: with at least one data row they are
    [datetime64[ns]] (a missing timestamp is NaT), and filtering keeps the
    dtype; a raw file without data rows gives two [object] columns, their
    difference is an [object] column too, and the accessor raises. *)
Definition dt_accessor (raw : DataFrame) : IO unit :=
  match raw with
  | [] =>
      raise (Raise "AttributeError"
               "Can only use .dt accessor with datetimelike values")
  | _ :: _ => ret tt
  end.

Section Loader.

  (** The text formats belong to pandas: how the text of the raw file is
      parsed into typed rows (with the coercions of step 1), how the zone
      table is parsed, and how the outputs are rendered. *)
Variable parse_trips : string -> Exception + DataFrame.
Variable parse_zones : string -> Exception + list ZoneRec.
Variable to_csv : DataFrame -> string.
Variable render_report : list ReportLine -> Z -> string.

  (** [pd.read_csv(path, ...)]: a missing file raises [FileNotFoundError]
      from [open]; a parse error raises whatever the parser raises. *)
Definition read_csv {A} (parse : string -> Exception + A) (path : string)
      : IO A :=
    fun fs =>
      match fs path with
      | None => (inl (Raise "FileNotFoundError" path), fs)
      | Some text => (parse text, fs)
      end.

Definition _read_inputs : IO (DataFrame * list ZoneRec) :=
    df <- read_csv parse_trips RAW_CSV ;;
    zones <- read_csv parse_zones ZONES_CSV ;;
    ret (df, zones).

  (** What [clean] does once the inputs are loaded.  Nothing is written
      before the last stage, so the exception of the duration stage leaves
      the files as they were. *)
Definition clean_and_write (inputs : DataFrame * list ZoneRec) : IO unit :=
    _ <- dt_accessor (fst inputs) ;;
    let result := clean_frame (snd inputs) (fst inputs) in
    _ <- write_file CLEAN_CSV (to_csv (fst result)) ;;
    write_file REPORT_MD (render_report (snd result) (len (fst result))).

Definition clean : IO unit :=
    inputs <- _read_inputs ;;
    clean_and_write inputs.

End Loader.

(** ** Row-level reading of the stages

    What each stage does to one row: whether the row is kept, and what is
    written into it.  [run_stage_rowwise] below proves that the mask-based
    stages above act row by row in exactly this way. *)

Definition keeps (s : Stage) (r : Row) : bool :=
  match s with
  | VendorDomain => NA.isinZ (VendorID r) [1; 2]%Z || NA.isna (VendorID r)
  | DropoffBeforePickup =>
      negb (NP.ltZ (tpep_dropoff_datetime r) (tpep_pickup_datetime r))
  | DurationOver24h => NP.le (trip_duration_min r) (24 * 60)
  | ZeroMinuteZeroDistance =>
      negb (Qeq_bool (NP.round5 (NA.fillna 0 (trip_duration_min r))) 0
            && Qeq_bool (NP.round5 (NA.fillna 0 (trip_distance r))) 0)
  | NegativeDistance =>
      NA.as_mask (NA.or (Some (NA.isna (trip_distance r)))
                        (NA.ge (trip_distance r) 0))
  | ExtremeDistance =>
      NA.as_mask (NA.or (Some (NA.isna (trip_distance r)))
                        (NA.le (trip_distance r) 200))
  | NegativeFare => NA.as_mask (nonneg_or_exempt (fare_amount r) r)
  | NegativeTotal => NA.as_mask (nonneg_or_exempt (total_amount r) r)
  | DropUnmapped => negb (NA.isna (PU_Zone r) || NA.isna (DO_Zone r))
  | _ => true
  end.

Definition assign_if (m : option bool) (f : Row -> Row) (r : Row) : Row :=
  if NA.as_mask m then f r else r.

Definition normalize_flag_row (r : Row) : Row :=
  let r1 :=
    set_store_and_fwd_flag (option_map str_upper (store_and_fwd_flag r)) r in
  assign_if (Some (negb (NA.isinS (store_and_fwd_flag r1) ["Y"; "N"]%string)))
    (set_store_and_fwd_flag None) r1.

Definition cap_passenger_row (r : Row) : Row :=
  let r1 := assign_if (NA.lt (passenger_count r) 0) (set_passenger_count None) r in
  let r2 := assign_if (NA.gt (passenger_count r1) 6) (set_passenger_count None) r1 in
  set_passenger_count (astype_Int64 (passenger_count r2)) r2.

(** The reconciliation of one row: the stored total is replaced by the sum
    of the components when both differ by more than 0.01. *)
Definition reconcile_row (r : Row) : Row :=
  assign_if (mismatch_cell (total_amount r) (Some (Verifier.comp r)))
    (set_total_amount (Some (Verifier.comp r))) r.

Definition rewrites (s : Stage) (r : Row) : Row :=
  match s with
  | NormalizeFlag => normalize_flag_row r
  | RatecodeDomain =>
      assign_if (Some (negb (NA.isinQ (RatecodeID r) [1; 2; 3; 4; 5; 6]%Z)
                       && NA.notna (RatecodeID r)))
        (set_RatecodeID None) r
  | PaymentZero =>
      assign_if (NA.eqZ (payment_type r) 0%Z) (set_payment_type None) r
  | TripDuration => set_trip_duration_min (duration_minutes r) r
  | NullNegative col => assign_if (NA.lt (getcol col r) 0) (setcol col None) r
  | ReconcileTotal => reconcile_row r
  | PassengerCap => cap_passenger_row r
  | _ => r
  end.

(** The rows that a left merge produces from one left row. *)
Definition join_row (key : Row -> option Z)
    (attach : option string -> option string -> option string -> Row -> Row)
    (right : list ZoneRec) (r : Row) : list Row :=
  match filter (fun z => optZ_eqb (key r) (LocationID z)) right with
  | [] => [attach None None None r]
  | matches =>
      map (fun z => attach (Borough z) (Zone z) (service_zone z) r) matches
  end.

Definition row_results (zones : list ZoneRec) (s : Stage) (r : Row)
    : list Row :=
  match s with
  | MergePickupZone => join_row PULocationID set_PU zones r
  | MergeDropoffZone => join_row DOLocationID set_DO zones r
  | _ => if keeps s r then [rewrites s r] else []
  end.

(** The stages that only remove rows. *)
Definition drop_stage (s : Stage) : bool :=
  match s with
  | VendorDomain | DropoffBeforePickup | DurationOver24h
  | ZeroMinuteZeroDistance | NegativeDistance | ExtremeDistance
  | NegativeFare | NegativeTotal | Deduplicate | DropUnmapped => true
  | _ => false
  end.

(** The two left joins of the Zone Joiner. *)
Definition merge_stage (s : Stage) : bool :=
  match s with
  | MergePickupZone | MergeDropoffZone => true
  | _ => false
  end.

(** ** Vocabulary of the properties *)

Definition nonneg_or_null (v : option Q) : Prop :=
  match v with Some x => 0 <= x | None => True end.

(** The columns that the temporal rules read. *)
Definition time_view (r : Row) : option Z * option Z * option Q :=
  (tpep_pickup_datetime r, tpep_dropoff_datetime r, trip_duration_min r).

(** The payment type, the fare and the seven fee columns. *)
Definition fee_view (r : Row) :=
  (payment_type r, fare_amount r,
   (extra r, mta_tax r, tip_amount r, tolls_amount r),
   (improvement_surcharge r, congestion_surcharge r, airport_fee r)).

(** The eight columns of the deduplication key. *)
Definition key_view (r : Row) :=
  (VendorID r, tpep_pickup_datetime r, tpep_dropoff_datetime r,
   (PULocationID r, DOLocationID r, trip_distance r),
   (fare_amount r, payment_type r)).

(** A stage leaves a view of the rows alone. *)
Definition unchanged_by {V} (view : Row -> V) (zones : list ZoneRec)
    (s : Stage) : Prop :=
  forall r r', In r' (row_results zones s r) -> view r' = view r.

(** No two rows at different positions agree on the deduplication key. *)
Definition duplicate_free (df : DataFrame) : Prop :=
  ForallOrdPairs (fun a b => same_key a b = false) df.

(** Timestamps present and a duration between 0 and 1440 minutes. *)
Definition time_sane (r : Row) : Prop :=
  exists p d q,
    tpep_pickup_datetime r = Some p /\ tpep_dropoff_datetime r = Some d /\
    trip_duration_min r = Some q /\ 0 <= q /\ q <= 24 * 60.

(** The seven fee columns hold no negative number. *)
Definition fees_nonneg (r : Row) : Prop :=
  Forall (fun c => nonneg_or_null (getcol c r)) component_fee_columns.

(** A non-adjustment row holds no negative fare. *)
Definition fare_nonneg_unless_adjustment (r : Row) : Prop :=
  non_adj r = true -> nonneg_or_null (fare_amount r).

(** A stored total is within the tolerance of the sum of the components,
    in the arithmetic of the code. *)
Definition total_reconciled (r : Row) : Prop :=
  match total_amount r with
  | Some t => Qabs (NP.sub t (Verifier.comp r)) <= NP.float64 (1 # 100)
  | None => True
  end.

(** An amount of at most 10^300 in magnitude, or a null: nine such amounts
    are added and subtracted in binary64 without overflow. *)
Definition within_float_range (v : option Q) : Prop :=
  match v with
  | Some x => Qabs x <= inject_Z (10 ^ 300)
  | None => True
  end.

Definition amounts_in_range (r : Row) : Prop :=
  Forall (fun c => within_float_range (getcol c r))
    (col_total_amount :: money_columns).

(** The stages that run after another one in [clean]. *)
Definition stages_after_duration_filter : list Stage :=
  [ZeroMinuteZeroDistance; NegativeDistance; ExtremeDistance]
  ++ map NullNegative component_fee_columns
  ++ [NegativeFare; NegativeTotal; ReconcileTotal; PassengerCap; Deduplicate;
      MergePickupZone; MergeDropoffZone; DropUnmapped; FinalTypes].

Definition stages_before_datetime : list Stage :=
  [NormalizeFlag; VendorDomain; RatecodeDomain; PaymentZero].

Definition stages_before_fees : list Stage :=
  [NormalizeFlag; VendorDomain; RatecodeDomain; PaymentZero;
   DropoffBeforePickup; TripDuration; DurationOver24h;
   ZeroMinuteZeroDistance; NegativeDistance; ExtremeDistance].

Definition fee_stages : list Stage := map NullNegative component_fee_columns.

Definition stages_before_reconcile : list Stage :=
  stages_before_fees ++ fee_stages ++ [NegativeFare; NegativeTotal].

Definition stages_after_negative_fare : list Stage :=
  [NegativeTotal; ReconcileTotal; PassengerCap; Deduplicate;
   MergePickupZone; MergeDropoffZone; DropUnmapped; FinalTypes].

Definition stages_after_reconcile : list Stage :=
  [PassengerCap; Deduplicate; MergePickupZone; MergeDropoffZone;
   DropUnmapped; FinalTypes].

Definition stages_before_dedup : list Stage :=
  stages_before_reconcile ++ [ReconcileTotal; PassengerCap].

Definition stages_after_dedup : list Stage :=
  [MergePickupZone; MergeDropoffZone; DropUnmapped; FinalTypes].

(** ** Sample data *)

(** The amount that a decimal cell of the raw file is read as. *)
Definition amount (decimal : Q) : option Q := Some (NP.float64 decimal).

(** A trip between two mapped zones with a passenger, a standard rate code
    and fees of 1 + 0.5 + 2 + 0 + 0.3 + 2.5 + 0 = 6.3; the remaining columns
    are the arguments. *)
Definition make_trip (vendor pickup dropoff : option Z) (distance : option Q)
    (payment : option Z) (fare total : option Q) : Row :=
  mkRow vendor pickup dropoff
    (Some 1) distance (Some 1) (Some "N"%string)
    (Some 142%Z) (Some 236%Z) payment
    fare (Some 1) (Some (1 # 2)) (Some 2) (Some 0) (amount (3 # 10))
    total (Some (5 # 2)) (Some 0)
    None None None None None None None.

Definition noon : Z := 1700000000000000000.
Definition ten_past_noon : Z := 1700000600000000000.

(** An ordinary trip: ten minutes, 2.5 miles, paid by card, with a total
    that matches its components. *)
Definition sample_trip : Row :=
  make_trip (Some 1%Z) (Some noon) (Some ten_past_noon) (Some (5 # 2))
    (Some 1%Z) (Some 10) (amount (163 # 10)).

Definition sample_zones : list ZoneRec :=
  [mkZone (Some 142%Z) (Some "Manhattan"%string)
     (Some "Lincoln Square East"%string) (Some "Yellow Zone"%string);
   mkZone (Some 236%Z) (Some "Manhattan"%string)
     (Some "Upper East Side North"%string) (Some "Yellow Zone"%string)].

(** The same trip as the pipeline writes it. *)
Definition sample_trip_clean : Row :=
  set_DO (Some "Manhattan"%string) (Some "Upper East Side North"%string)
    (Some "Yellow Zone"%string)
    (set_PU (Some "Manhattan"%string) (Some "Lincoln Square East"%string)
       (Some "Yellow Zone"%string)
       (set_trip_duration_min (duration_minutes sample_trip) sample_trip)).

(** The sample trip with one cell missing. *)
Definition null_vendor_trip : Row :=
  make_trip None (Some noon) (Some ten_past_noon) (Some (5 # 2))
    (Some 1%Z) (Some 10) (amount (163 # 10)).

Definition null_distance_trip : Row :=
  make_trip (Some 1%Z) (Some noon) (Some ten_past_noon) None
    (Some 1%Z) (Some 10) (amount (163 # 10)).

Definition null_fare_trip : Row :=
  make_trip (Some 1%Z) (Some noon) (Some ten_past_noon) (Some (5 # 2))
    (Some 1%Z) None (amount (63 # 10)).

Definition null_total_trip : Row :=
  make_trip (Some 1%Z) (Some noon) (Some ten_past_noon) (Some (5 # 2))
    (Some 1%Z) (Some 10) None.

Definition null_pickup_trip : Row :=
  make_trip (Some 1%Z) None (Some ten_past_noon) (Some (5 # 2))
    (Some 1%Z) (Some 10) (amount (163 # 10)).

Definition null_payment_trip : Row :=
  make_trip (Some 1%Z) (Some noon) (Some ten_past_noon) (Some (5 # 2))
    None (Some (-10)) (amount (-37 # 10)).

(** The trip without pickup time, as the duration stage receives it. *)
Definition untimed_trip : Row :=
  set_trip_duration_min (duration_minutes null_pickup_trip) null_pickup_trip.

(** A trip that ends when it starts, with no recorded distance. *)
Definition instant_trip : Row :=
  set_trip_duration_min (Some 0)
    (make_trip (Some 1%Z) (Some noon) (Some noon) None
       (Some 1%Z) (Some 10) (amount (163 # 10))).

(** A trip whose stored total, 16.29, is one cent below the 16.3 of its
    components. *)
Definition cent_off_trip : Row :=
  make_trip (Some 1%Z) (Some noon) (Some ten_past_noon) (Some (5 # 2))
    (Some 1%Z) (Some 10) (amount (1629 # 100)).

(** A disputed trip (payment type 4) with its fare reversed. *)
Definition disputed_trip : Row :=
  make_trip (Some 1%Z) (Some noon) (Some ten_past_noon) (Some (5 # 2))
    (Some 4%Z) (Some (-10)) (amount (-37 # 10)).

(** A trip none of whose eight monetary components is present. *)
Definition blank_fees_trip : Row :=
  mkRow (Some 1%Z) (Some noon) (Some ten_past_noon)
    (Some 1) (Some (5 # 2)) (Some 1) (Some "N"%string)
    (Some 142%Z) (Some 236%Z) (Some 1%Z)
    None None None None None None
    None None None
    None None None None None None None.

(** A zone table that lists location 142 twice. *)
Definition doubled_zones : list ZoneRec :=
  sample_zones
  ++ [mkZone (Some 142%Z) (Some "Manhattan"%string)
        (Some "Lincoln Square"%string) (Some "Yellow Zone"%string)].

(** Stand-ins for the text formats, and two file systems. *)
Definition parse_no_trips (text : string) : Exception + DataFrame := inr [].
Definition parse_sample_trip (text : string) : Exception + DataFrame :=
  inr [sample_trip].
Definition parse_sample_zones (text : string) : Exception + list ZoneRec :=
  inr sample_zones.
Definition parse_no_zones (text : string) : Exception + list ZoneRec := inr [].
Definition parse_garbled (text : string) : Exception + DataFrame :=
  inl (Raise "ParserError" "Error tokenizing data").
Definition to_csv_blank (df : DataFrame) : string := "".
Definition render_report_blank (report : list ReportLine) (final : Z)
    : string := "".

Definition empty_disk : FileSystem := fun _ => None.

Definition disk_with_inputs : FileSystem :=
  fun p =>
    if String.eqb p RAW_CSV then Some "VendorID"%string
    else if String.eqb p ZONES_CSV then Some "LocationID"%string
    else None.

(** ** Vocabulary of the further properties *)

(** The columns that no stage of [clean] assigns. *)
Definition identity_view (r : Row) :=
  (VendorID r, tpep_pickup_datetime r, tpep_dropoff_datetime r,
   (PULocationID r, DOLocationID r), (trip_distance r, fare_amount r)).

(** A value of an enumerated integer column: null or one of [values]. *)
Definition null_or_among (values : list Z) (v : option Z) : Prop :=
  match v with Some x => In x values | None => True end.

(** A rate code: null or a number equal to one of 1..6. *)
Definition ratecode_in_domain (v : option Q) : Prop :=
  match v with
  | Some q => exists k, (1 <= k <= 6)%Z /\ q == inject_Z k
  | None => True
  end.

(** A number between two bounds, or null. *)
Definition null_or_between (lo hi : Q) (v : option Q) : Prop :=
  match v with Some x => lo <= x /\ x <= hi | None => True end.

(** The store-and-forward flag: null, Y or N. *)
Definition flag_in_domain (v : option string) : Prop :=
  v = None \/ v = Some "Y"%string \/ v = Some "N"%string.

(** The three names [b], [z], [s] are those of a record of the zone table
    whose location id is [id]. *)
Definition zone_attached (zones : list ZoneRec) (id : option Z)
    (b z s : option string) : Prop :=
  exists rec,
    In rec zones /\ LocationID rec = id /\
    Borough rec = b /\ Zone rec = z /\ service_zone rec = s.

(** A non-adjustment row holds no negative total. *)
Definition total_nonneg_unless_adjustment (r : Row) : Prop :=
  non_adj r = true -> nonneg_or_null (total_amount r).

Definition money_sane (r : Row) : Prop :=
  fees_nonneg r /\ fare_nonneg_unless_adjustment r
  /\ total_nonneg_unless_adjustment r.

(** A raw row whose vendor id, distance, fare and total are recorded and
    whose payment type is null or one of 0..6. *)
Definition well_recorded (r : Row) : Prop :=
  VendorID r <> None /\ trip_distance r <> None /\ fare_amount r <> None
  /\ total_amount r <> None
  /\ null_or_among [0; 1; 2; 3; 4; 5; 6]%Z (payment_type r).

(** The rows that a cleaning report accounts for as removed: the sum of the
    counts of its "Dropped ..." lines. *)
Definition dropped_rows (report : list ReportLine) : Z :=
  fold_right
    (fun line acc =>
       if String.prefix "Dropped" (fst line) then (snd line + acc)%Z else acc)
    0%Z report.

(** ** The Verifier's run ([scripts/verify_cleaning.py], [main]) *)

Definition VERIFICATION_REPORT_MD : string :=
  WORKSPACE_ROOT ++ "/Docs/verification_report.md".

Definition newline : string := String (ascii_of_nat 10) EmptyString.

Section VerifierRun.

(** How pandas parses the clean file, and how Python renders [f"{n:,}"]. *)
Variable parse_clean : string -> Exception + DataFrame.
Variable format_count : Z -> string.

(** The text written to the verification report. *)
Definition verification_text (df : DataFrame) : string :=
  ("# Cleaning verification" ++ newline ++ newline
   ++ "Total rows: " ++ format_count (len df) ++ newline ++ newline
   ++ String.concat ""
        (map (fun c => "- " ++ fst c ++ ": " ++ Verifier.verdict (snd c)
                       ++ newline)
             (Verifier.checks df)))%string.

Definition verify_main : IO unit :=
  df <- read_csv parse_clean CLEAN_CSV ;;
  write_file VERIFICATION_REPORT_MD (verification_text df).

End VerifierRun.

(** ** Preparing the training data ([datamodeling.py],
       [load_and_prepare_data]) *)

Module Modeling.

(** [dt.hour] of a timestamp given in nanoseconds. *)
Definition hour_of (t : Z) : Z := ((t / 3600000000000) mod 24)%Z.

Definition pickup_hour (r : Row) : option Z :=
  option_map hour_of (tpep_pickup_datetime r).

(** A row of [X]: the four feature columns, in the order of [features]. *)
Record FeatureRow := mkFeatures {
  x_trip_distance : option Q;
  x_passenger_count : option Q;
  x_trip_duration_min : option Q;
  x_pickup_hour : option Z
}.

Definition features_of (r : Row) : FeatureRow :=
  mkFeatures (trip_distance r) (passenger_count r) (trip_duration_min r)
    (pickup_hour r).

(** [df.dropna(subset=features + ["fare_amount", "tip_amount"])] keeps the
    rows with a value in each of the six columns. *)
Definition has_all_values (r : Row) : bool :=
  NA.notna (trip_distance r) && NA.notna (passenger_count r)
  && NA.notna (trip_duration_min r) && NA.notna (pickup_hour r)
  && NA.notna (fare_amount r) && NA.notna (tip_amount r).

Definition dropna (df : DataFrame) : DataFrame := filter has_all_values df.

(** [(tip_amount > 2).astype(int)] *)
Definition tip_class (r : Row) : Z :=
  if NP.gt (tip_amount r) 2 then 1%Z else 0%Z.

(** The triple [(X, y_fare, y_tip)] returned for the frame read from the
    clean file. *)
Definition load_and_prepare_data (df : DataFrame)
    : list FeatureRow * list (option Q) * list Z :=
  let df_clean := dropna df in
  (map features_of df_clean, map fare_amount df_clean, map tip_class df_clean).

(** A feature row with all four values, each in the range the cleaner
    guarantees. *)
Definition in_training_range (x : FeatureRow) : Prop :=
  exists d p t h,
    x_trip_distance x = Some d /\ x_passenger_count x = Some p /\
    x_trip_duration_min x = Some t /\ x_pickup_hour x = Some h /\
    0 <= d /\ d <= 200 /\ 0 <= p /\ p <= 6 /\ 0 <= t /\ t <= 1440 /\
    (0 <= h <= 23)%Z.

End Modeling.

(** ** The Rule Engine as one function *)

(** Steps 1 to 7 of [clean]: every stage up to the deduplication.  The zone
    table plays no part in them. *)
Definition rule_engine_stages : list Stage :=
  stages_before_dedup ++ [Deduplicate].

Definition rule_engine (df : DataFrame) : DataFrame :=
  run_stages [] rule_engine_stages df.

(** A passenger count as the capping stage leaves it: null or a whole
    number between 0 and 6. *)
Definition whole_passenger_count (v : option Q) : Prop :=
  match v with
  | Some q => exists k, (0 <= k <= 6)%Z /\ q = inject_Z k
  | None => True
  end.

(** A mask applied to the rows selected by another mask, as one mask over
    the original rows. *)
Fixpoint compose_masks (outer inner : list bool) : list bool :=
  match outer with
  | [] => []
  | false :: t => false :: compose_masks t inner
  | true :: t =>
      match inner with
      | [] => []
      | b :: inner' => b :: compose_masks t inner'
      end
  end.

(** * Properties *)

(** ** Masks and indexing *)

Section Indexing.

Context {A : Type}.

Lemma boolean_index_map (p : A -> bool) (df : list A) :
    boolean_index df (map p df) = filter p df.
  Proof.
    unfold boolean_index.
    induction df as [|r t IH]; simpl; [reflexivity|].
    destruct (p r); simpl; rewrite IH; reflexivity.
  Qed.

Lemma boolean_index_length (df : list A) (mask : list bool) :
    (length (boolean_index df mask) <= length df)%nat.
  Proof.
    unfold boolean_index. rewrite length_map.
    etransitivity; [apply filter_length_le|].
    rewrite length_combine. apply Nat.le_min_l.
  Qed.

Lemma boolean_index_In (df : list A) (mask : list bool) (r : A) :
    In r (boolean_index df mask) -> In r df.
  Proof.
    unfold boolean_index. rewrite in_map_iff.
    intros [[x b] [<- H]]. apply filter_In in H as [H _].
    apply in_combine_l in H. exact H.
  Qed.

Lemma combine_map_map {B C} (f : A -> B) (g : A -> C) (l : list A) :
    combine (map f l) (map g l) = map (fun x => (f x, g x)) l.
  Proof. induction l; simpl; congruence. Qed.

Lemma combine_self_map {B} (g : A -> B) (l : list A) :
    combine l (map g l) = map (fun x => (x, g x)) l.
  Proof. induction l; simpl; congruence. Qed.

Lemma filter_as_flat_map (p : A -> bool) (f : A -> A) (l : list A) :
    map f (filter p l) = flat_map (fun x => if p x then [f x] else []) l.
  Proof.
    induction l as [|x t IH]; simpl; [reflexivity|].
    destruct (p x); simpl; rewrite IH; reflexivity.
  Qed.

End Indexing.

Lemma loc_assign_map (m : Row -> option bool) (f : Row -> Row) (df : DataFrame) :
  loc_assign df (map m df) f = map (fun r => assign_if (m r) f r) df.
Proof.
  unfold loc_assign. rewrite combine_self_map, map_map. reflexivity.
Qed.

(** ** Rounded arithmetic *)

Lemma float64_zero (x : Q) : x == 0 -> NP.float64 x = 0.
Proof.
  intros H. unfold NP.float64.
  apply Qeq_bool_iff in H. rewrite H. reflexivity.
Qed.

Lemma sub_same (x : Q) : NP.sub x x = 0.
Proof. unfold NP.sub. apply float64_zero. ring. Qed.

Lemma tolerance_nonneg : 0 <= NP.float64 (1 # 100).
Proof. vm_compute. discriminate. Qed.

(** ** The recomputed total *)

Lemma coalesce_sum_row (r : Row) :
  add_fill 0
    (add_fill 0
       (add_fill 0
          (add_fill 0
             (add_fill 0
                (add_fill 0
                   (add_fill 0 (fare_amount r)
                      (Some (NA.fillna 0 (extra r))))
                   (Some (NA.fillna 0 (mta_tax r))))
                (Some (NA.fillna 0 (tip_amount r))))
             (Some (NA.fillna 0 (tolls_amount r))))
          (Some (NA.fillna 0 (improvement_surcharge r))))
       (Some (NA.fillna 0 (congestion_surcharge r))))
    (Some (NA.fillna 0 (airport_fee r)))
  = Some (Verifier.comp r).
Proof.
  unfold Verifier.comp. destruct (fare_amount r); reflexivity.
Qed.

Lemma series_add_fill_map (f : Row -> option Q) (g : Row -> option Q)
    (df : DataFrame) :
  series_add_fill 0 (map f df) (series_fillna 0 (map g df))
  = map (fun r => add_fill 0 (f r) (Some (NA.fillna 0 (g r)))) df.
Proof.
  unfold series_add_fill, series_fillna.
  rewrite map_map, combine_map_map, map_map. reflexivity.
Qed.

Lemma computed_total_rowwise (df : DataFrame) :
  computed_total df = map (fun r => Some (Verifier.comp r)) df.
Proof.
  unfold computed_total, _coalesce_sum, money_columns, column. simpl.
  repeat rewrite series_add_fill_map.
  apply map_ext. intros r. apply coalesce_sum_row.
Qed.

Lemma coalesce_sum_nonempty (s : Series) (values : list Series) :
  exists total, _coalesce_sum (s :: values) = Some total.
Proof.
  unfold _coalesce_sum. simpl.
  generalize s. induction values as [|v t IH]; intros acc; simpl.
  - eauto.
  - apply IH.
Qed.

Lemma mismatch_rowwise (df : DataFrame) :
  mismatch df
  = map (fun r => mismatch_cell (total_amount r) (Some (Verifier.comp r))) df.
Proof.
  unfold mismatch, column. rewrite computed_total_rowwise.
  rewrite combine_map_map, map_map. reflexivity.
Qed.

Lemma replace_mismatched_total_rowwise (df : DataFrame) :
  replace_mismatched_total df = map reconcile_row df.
Proof.
  unfold replace_mismatched_total.
  rewrite mismatch_rowwise, computed_total_rowwise.
  rewrite combine_map_map, combine_self_map, map_map. reflexivity.
Qed.

(** ** Every stage but the deduplication acts row by row *)

Lemma cap_passenger_count_rowwise (df : DataFrame) :
  cap_passenger_count df = map cap_passenger_row df.
Proof.
  unfold cap_passenger_count.
  rewrite (loc_assign_map (fun r => NA.lt (passenger_count r) 0)).
  set (df1 := map _ df).
  rewrite (loc_assign_map (fun r => NA.gt (passenger_count r) 6)).
  subst df1. rewrite !map_map. reflexivity.
Qed.

Lemma normalize_flag_rowwise (df : DataFrame) :
  normalize_store_and_fwd_flag df = map normalize_flag_row df.
Proof.
  unfold normalize_store_and_fwd_flag.
  set (df1 := map _ df).
  rewrite (loc_assign_map
             (fun r => Some (negb (NA.isinS (store_and_fwd_flag r)
                                            ["Y"; "N"]%string)))).
  subst df1. rewrite map_map. reflexivity.
Qed.

Lemma zero_stage_rowwise (df : DataFrame) :
  drop_zero_minute_zero_distance df = filter (keeps ZeroMinuteZeroDistance) df.
Proof.
  unfold drop_zero_minute_zero_distance, zero_minute, zero_distance.
  rewrite combine_map_map, map_map. apply boolean_index_map.
Qed.

Lemma merge_left_rowwise key attach df right :
  merge_left key attach df right = flat_map (join_row key attach right) df.
Proof. reflexivity. Qed.

Lemma flat_map_singleton {A B} (f : A -> B) (l : list A) :
  flat_map (fun x => [f x]) l = map f l.
Proof. induction l; simpl; congruence. Qed.

Lemma filter_rowwise (s : Stage) (df : DataFrame) :
  (forall r, rewrites s r = r) ->
  filter (keeps s) df
  = flat_map (fun r => if keeps s r then [rewrites s r] else []) df.
Proof.
  intros H. rewrite <- filter_as_flat_map.
  rewrite (map_ext _ (fun r => r)) by exact H. symmetry. apply map_id.
Qed.

Lemma map_rowwise (s : Stage) (df : DataFrame) :
  (forall r, keeps s r = true) ->
  map (rewrites s) df
  = flat_map (fun r => if keeps s r then [rewrites s r] else []) df.
Proof.
  intros H. rewrite <- flat_map_singleton.
  apply flat_map_ext. intros r. rewrite H. reflexivity.
Qed.

Lemma run_stage_rowwise (zones : list ZoneRec) (s : Stage) (df : DataFrame) :
  s <> Deduplicate ->
  run_stage zones s df = flat_map (row_results zones s) df.
Proof.
  intros Hs. destruct s; try congruence; clear Hs;
    unfold run_stage, row_results.
  - rewrite normalize_flag_rowwise. apply (map_rowwise NormalizeFlag); reflexivity.
  - unfold drop_invalid_vendor, vendor_mask. rewrite boolean_index_map.
    apply (filter_rowwise VendorDomain); reflexivity.
  - unfold null_invalid_ratecode.
    rewrite (loc_assign_map
               (fun r => Some (negb (NA.isinQ (RatecodeID r) [1; 2; 3; 4; 5; 6]%Z)
                               && NA.notna (RatecodeID r)))).
    apply (map_rowwise RatecodeDomain); reflexivity.
  - unfold null_zero_payment.
    rewrite (loc_assign_map (fun r => NA.eqZ (payment_type r) 0%Z)).
    apply (map_rowwise PaymentZero); reflexivity.
  - unfold drop_bad_order, bad_order. rewrite map_map, boolean_index_map.
    apply (filter_rowwise DropoffBeforePickup); reflexivity.
  - apply (map_rowwise TripDuration); reflexivity.
  - unfold drop_over_24h. rewrite boolean_index_map.
    apply (filter_rowwise DurationOver24h); reflexivity.
  - rewrite zero_stage_rowwise.
    apply (filter_rowwise ZeroMinuteZeroDistance); reflexivity.
  - unfold drop_negative_distance. rewrite boolean_index_map.
    apply (filter_rowwise NegativeDistance); reflexivity.
  - unfold drop_extreme_distance. rewrite boolean_index_map.
    apply (filter_rowwise ExtremeDistance); reflexivity.
  - unfold null_negative, neg_mask.
    rewrite (loc_assign_map (fun r => NA.lt (getcol col r) 0)).
    apply (map_rowwise (NullNegative col)); reflexivity.
  - unfold drop_negative_fare. rewrite boolean_index_map.
    apply (filter_rowwise NegativeFare); reflexivity.
  - unfold drop_negative_total. rewrite boolean_index_map.
    apply (filter_rowwise NegativeTotal); reflexivity.
  - rewrite replace_mismatched_total_rowwise.
    apply (map_rowwise ReconcileTotal); reflexivity.
  - rewrite cap_passenger_count_rowwise.
    apply (map_rowwise PassengerCap); reflexivity.
  - reflexivity.
  - reflexivity.
  - unfold drop_unmapped, unmapped. rewrite map_map, boolean_index_map.
    apply (filter_rowwise DropUnmapped); reflexivity.
  - unfold final_types. rewrite <- (map_id df) at 1.
    apply (map_rowwise FinalTypes); reflexivity.
Qed.

(** ** Soundness of the row-level reading *)

Lemma null_negative_steps_frame (cols : list FloatCol)
    (st : DataFrame * list ReportLine) :
  fst (fold_left null_negative_step cols st)
  = fold_left (fun d col => null_negative col d) cols (fst st).
Proof.
  revert st. induction cols as [|c t IH]; intros st; simpl; [reflexivity|].
  rewrite IH. reflexivity.
Qed.

Lemma run_stages_pipeline (zones : list ZoneRec) (df : DataFrame) :
  clean_output zones df = run_stages zones pipeline df.
Proof.
  unfold clean_output, clean_frame. cbv beta zeta. cbn [fst].
  rewrite null_negative_steps_frame. cbn [fst].
  unfold run_stages, pipeline, component_fee_columns.
  cbn [app map fold_left run_stage]. reflexivity.
Qed.

Lemma run_stages_app zones (a b : list Stage) (df : DataFrame) :
  run_stages zones (a ++ b) df = run_stages zones b (run_stages zones a df).
Proof. unfold run_stages. apply fold_left_app. Qed.

Lemma Stage_eq_dedup (s : Stage) : s = Deduplicate \/ s <> Deduplicate.
Proof. destruct s; (left; reflexivity) || (right; discriminate). Qed.

Lemma stage_sound zones (s : Stage) (df : DataFrame) (r' : Row) :
  In r' (run_stage zones s df) ->
  exists r, In r df /\ In r' (row_results zones s r).
Proof.
  destruct (Stage_eq_dedup s) as [-> | Hs].
  - intros H. apply boolean_index_In in H. exists r'. split; [exact H|].
    simpl. auto.
  - rewrite run_stage_rowwise by exact Hs. apply in_flat_map.
Qed.

Example sample_run :
  clean_output sample_zones [sample_trip] = [sample_trip_clean].
Proof. vm_compute. reflexivity. Qed.

Example sample_verified :
  Verifier.all_pass (clean_output sample_zones [sample_trip]) = true.
Proof. vm_compute. reflexivity. Qed.

Example sample_report :
  map snd (snd (clean_frame sample_zones [sample_trip; sample_trip]))
  = [2; 0; 0; 0; 0; 0; 0; 0; 1; 0]%Z.
Proof. vm_compute. reflexivity. Qed.

Lemma join_row_In key attach right (r r' : Row) :
  In r' (join_row key attach right r) ->
  exists b z s, r' = attach b z s r.
Proof.
  unfold join_row.
  destruct (filter _ right) as [|z0 ms] eqn:E.
  - intros [<- | []]. eauto.
  - intros H. apply in_map_iff in H as (z & <- & _). eauto.
Qed.

(** Reduces membership in the results of one stage to the shape of the
    resulting row. *)
Ltac row_shape H :=
  lazymatch type of H with
  | In _ (join_row _ _ _ _) =>
      let b := fresh "b" in
      let z := fresh "z" in
      let sz := fresh "sz" in
      apply join_row_In in H; destruct H as (b & z & sz & ->)
  | In _ (if ?k then _ else _) =>
      let K := fresh "Hkeep" in
      destruct k eqn:K; [destruct H as [<- | []] | destruct H]
  | In _ [_] => destruct H as [<- | []]
  end.

Ltac split_masks :=
  repeat match goal with
         | |- context [if ?c then _ else _] => destruct c
         end.

Ltac frame :=
  let r := fresh "r" in
  let r' := fresh "r'" in
  let H := fresh "H" in
  intros r r' H; cbn [row_results] in H; row_shape H;
  cbn [rewrites]; unfold normalize_flag_row, cap_passenger_row, reconcile_row,
                    assign_if;
  split_masks; reflexivity.

Lemma time_view_unchanged zones (s : Stage) :
  s <> TripDuration -> unchanged_by time_view zones s.
Proof.
  intros Hs. destruct s as [| | | | | | | | | |c| | | | | | | | |];
    try congruence; try destruct c; frame.
Qed.

Lemma fee_view_unchanged zones (s : Stage) :
  (forall c, s <> NullNegative c) -> s <> PaymentZero ->
  unchanged_by fee_view zones s.
Proof.
  intros Hc Hs. destruct s as [| | | | | | | | | |c| | | | | | | | |];
    try congruence; try (exfalso; exact (Hc c eq_refl)); frame.
Qed.

Lemma money_view_unchanged zones (s : Stage) :
  In s stages_after_reconcile ->
  unchanged_by (fun r => (fee_view r, total_amount r)) zones s.
Proof.
  intros Hs. simpl in Hs.
  repeat (destruct Hs as [<- | Hs]; [frame|]). destruct Hs.
Qed.

Lemma key_view_unchanged zones (s : Stage) :
  In s stages_after_dedup -> unchanged_by key_view zones s.
Proof.
  intros Hs. simpl in Hs.
  repeat (destruct Hs as [<- | Hs]; [frame|]). destruct Hs.
Qed.

(** ** Invariants along a run of stages *)

Lemma run_stage_preserve (P : Row -> Prop) zones (s : Stage) :
  (forall r r', In r' (row_results zones s r) -> P r -> P r') ->
  forall df, Forall P df -> Forall P (run_stage zones s df).
Proof.
  intros Hstep df Hdf. apply Forall_forall. intros r' Hr'.
  apply stage_sound in Hr' as (r & Hr & Hres).
  apply (Hstep r r' Hres). rewrite Forall_forall in Hdf. auto.
Qed.

Lemma run_stages_preserve (P : Row -> Prop) zones (ss : list Stage) :
  (forall s, In s ss ->
             forall r r', In r' (row_results zones s r) -> P r -> P r') ->
  forall df, Forall P df -> Forall P (run_stages zones ss df).
Proof.
  unfold run_stages.
  induction ss as [|s t IH]; intros Hstep df Hdf; simpl; [exact Hdf|].
  apply IH.
  - intros s' Hs'. apply Hstep. right. exact Hs'.
  - apply run_stage_preserve; [apply Hstep; left; reflexivity | exact Hdf].
Qed.

(** A predicate that only reads a view survives the stages that leave the
    view alone. *)
Lemma run_stages_view {V} (view : Row -> V) (Q : V -> Prop) zones
    (ss : list Stage) :
  (forall s, In s ss -> unchanged_by view zones s) ->
  forall df, Forall (fun r => Q (view r)) df ->
             Forall (fun r => Q (view r)) (run_stages zones ss df).
Proof.
  intros Hss. apply run_stages_preserve.
  intros s Hs r r' Hres HQ. rewrite (Hss s Hs r r' Hres). exact HQ.
Qed.

(** ** Temporal sanity *)

Lemma duration_nonneg (p d : Z) :
  (p <= d)%Z -> 0 <= inject_Z (d - p) / 1000000000 / 60.
Proof.
  intros H. unfold Qdiv.
  repeat apply Qmult_le_0_compat; try discriminate.
  unfold Qle. simpl. lia.
Qed.

Lemma time_sane_view (r r' : Row) :
  time_view r' = time_view r -> time_sane r -> time_sane r'.
Proof.
  unfold time_view, time_sane. intros E. inversion E as [[E1 E2 E3]].
  rewrite E1, E2, E3. auto.
Qed.

Lemma datetime_stages_establish zones (df : DataFrame) :
  Forall time_sane
    (run_stages zones [DropoffBeforePickup; TripDuration; DurationOver24h] df).
Proof.
  apply Forall_forall. intros r3 H3. unfold run_stages in H3.
  cbn [fold_left] in H3.
  apply stage_sound in H3 as (r2 & H2 & R3).
  apply stage_sound in H2 as (r1 & H1 & R2).
  apply stage_sound in H1 as (r0 & _ & R1).
  cbn [row_results] in R1, R2, R3.
  row_shape R1. row_shape R2. row_shape R3.
  cbn [keeps rewrites] in *.
  unfold time_sane.
  destruct r0 as [v p d pc dist rc saf pu do pt fa ex mt ti to im tot co ai
                    du pb pz ps db dz ds].
  unfold duration_minutes in *. cbn in *.
  destruct d as [d|]; [|discriminate]. destruct p as [p|]; [|discriminate].
  cbn in *. exists p, d, (inject_Z (d - p) / 1000000000 / 60).
  repeat split.
  - apply duration_nonneg. apply negb_true_iff in Hkeep.
    apply Z.ltb_ge in Hkeep. exact Hkeep.
  - apply Qle_bool_iff. exact Hkeep1.
Qed.

Lemma pipeline_around_datetime :
  pipeline
  = stages_before_datetime
    ++ [DropoffBeforePickup; TripDuration; DurationOver24h]
    ++ stages_after_duration_filter.
Proof. reflexivity. Qed.

Lemma stages_after_duration_keep_time zones (s : Stage) :
  In s stages_after_duration_filter -> unchanged_by time_view zones s.
Proof.
  intros Hs. apply time_view_unchanged. intros ->.
  simpl in Hs. repeat (destruct Hs as [Hs | Hs]; [discriminate|]). destruct Hs.
Qed.

Lemma clean_output_time_sane zones (df : DataFrame) :
  Forall time_sane (clean_output zones df).
Proof.
  rewrite run_stages_pipeline, pipeline_around_datetime, !run_stages_app.
  generalize (run_stages zones stages_before_datetime df). intros d.
  apply run_stages_preserve.
  - intros s Hs r r' Hres. apply time_sane_view.
    exact (stages_after_duration_keep_time zones s Hs r r' Hres).
  - apply datetime_stages_establish.
Qed.

(** ** Monetary fields *)

Lemma null_negative_cell (v : option Q) :
  nonneg_or_null (if NA.as_mask (NA.lt v 0) then None else v).
Proof.
  destruct v as [x|]; simpl; [|exact I].
  destruct (Qle_bool 0 x) eqn:E; simpl; [|exact I].
  apply Qle_bool_iff. exact E.
Qed.

Lemma null_negative_column (c : FloatCol) (r : Row) :
  nonneg_or_null (getcol c (rewrites (NullNegative c) r)).
Proof.
  pose proof (null_negative_cell (getcol c r)) as H.
  cbn [rewrites]. unfold assign_if.
  destruct (NA.as_mask (NA.lt (getcol c r) 0)); [|exact H].
  destruct c; exact I.
Qed.

Lemma null_negative_other (c c' : FloatCol) (r : Row) :
  nonneg_or_null (getcol c r) ->
  nonneg_or_null (getcol c (rewrites (NullNegative c') r)).
Proof.
  intros H. cbn [rewrites]. unfold assign_if.
  destruct (NA.as_mask (NA.lt (getcol c' r) 0)); [|exact H].
  destruct c, c'; try exact H; exact I.
Qed.

Lemma null_negative_loop zones (cs done : list FloatCol) (df : DataFrame) :
  Forall (fun r => Forall (fun c => nonneg_or_null (getcol c r)) done) df ->
  Forall (fun r => Forall (fun c => nonneg_or_null (getcol c r)) (done ++ cs))
    (run_stages zones (map NullNegative cs) df).
Proof.
  revert done df. induction cs as [|c t IH]; intros done df Hdf.
  - rewrite app_nil_r. exact Hdf.
  - change (done ++ c :: t) with (done ++ [c] ++ t). rewrite app_assoc.
    change (run_stages zones (map NullNegative (c :: t)) df)
      with (run_stages zones (map NullNegative t)
              (run_stage zones (NullNegative c) df)).
    apply IH. apply Forall_forall. intros r' Hr'.
    apply stage_sound in Hr' as (r & Hr & Hres).
    cbn [row_results keeps] in Hres. destruct Hres as [<- | []].
    rewrite Forall_forall in Hdf. specialize (Hdf r Hr).
    apply Forall_app. split.
    + apply Forall_forall. intros c0 Hc0. apply null_negative_other.
      rewrite Forall_forall in Hdf. auto.
    + constructor; [apply null_negative_column | constructor].
Qed.

Lemma fees_nonneg_view (r r' : Row) :
  fee_view r' = fee_view r -> fees_nonneg r -> fees_nonneg r'.
Proof.
  unfold fee_view, fees_nonneg, component_fee_columns. intros E H.
  inversion E as [[E1 E2 E3 E4 E5 E6 E7 E8 E9]].
  repeat match goal with
         | H : Forall _ (_ :: _) |- _ => inversion_clear H
         end.
  cbn [getcol] in *.
  repeat constructor; cbn [getcol];
    rewrite ?E3, ?E4, ?E5, ?E6, ?E7, ?E8, ?E9; assumption.
Qed.

Lemma fare_view (r r' : Row) :
  fee_view r' = fee_view r ->
  fare_nonneg_unless_adjustment r -> fare_nonneg_unless_adjustment r'.
Proof.
  unfold fee_view, fare_nonneg_unless_adjustment, non_adj. intros E.
  inversion E as [[E1 E2 E3 E4 E5 E6 E7 E8 E9]]. rewrite E1, E2. auto.
Qed.

Lemma keeps_nonneg_or_exempt (v : option Q) (r : Row) :
  NA.as_mask (nonneg_or_exempt v r) = true ->
  non_adj r = true -> nonneg_or_null v.
Proof.
  unfold nonneg_or_exempt. intros H Hna. rewrite Hna in H.
  destruct v as [x|]; simpl in *; [|exact I].
  destruct (Qle_bool 0 x) eqn:E; [|discriminate].
  apply Qle_bool_iff. exact E.
Qed.

Lemma pipeline_around_fees :
  pipeline
  = stages_before_fees ++ fee_stages
    ++ [NegativeFare] ++ stages_after_negative_fare.
Proof. reflexivity. Qed.

Lemma stages_after_fees_keep_view zones (s : Stage) :
  In s ([NegativeFare] ++ stages_after_negative_fare) ->
  unchanged_by fee_view zones s.
Proof.
  intros Hs. apply fee_view_unchanged.
  - intros c ->. simpl in Hs.
    repeat (destruct Hs as [Hs | Hs]; [discriminate|]). destruct Hs.
  - intros ->. simpl in Hs.
    repeat (destruct Hs as [Hs | Hs]; [discriminate|]). destruct Hs.
Qed.

Lemma clean_output_fees_nonneg zones (df : DataFrame) :
  Forall fees_nonneg (clean_output zones df).
Proof.
  rewrite run_stages_pipeline, pipeline_around_fees, !run_stages_app.
  generalize (run_stages zones stages_before_fees df). intros d.
  rewrite <- run_stages_app.
  apply run_stages_preserve.
  - intros s Hs r r' Hres. apply fees_nonneg_view.
    exact (stages_after_fees_keep_view zones s Hs r r' Hres).
  - apply (null_negative_loop zones component_fee_columns []).
    apply Forall_forall. intros; constructor.
Qed.

Lemma clean_output_fare_nonneg zones (df : DataFrame) :
  Forall fare_nonneg_unless_adjustment (clean_output zones df).
Proof.
  rewrite run_stages_pipeline, pipeline_around_fees, !run_stages_app.
  generalize (run_stages zones fee_stages
                (run_stages zones stages_before_fees df)). intros d.
  apply run_stages_preserve.
  - intros s Hs r r' Hres. apply fare_view.
    apply (stages_after_fees_keep_view zones s); [right; exact Hs | exact Hres].
  - apply Forall_forall. intros r' Hr'.
    change (In r' (run_stage zones NegativeFare d)) in Hr'.
    apply stage_sound in Hr' as (r & _ & Hres).
    cbn [row_results] in Hres. row_shape Hres.
    intros Hna. exact (keeps_nonneg_or_exempt _ _ Hkeep Hna).
Qed.

(** ** Total reconciliation *)

Lemma reconcile_row_spec (r : Row) :
  reconcile_row r
  = match total_amount r with
    | Some t =>
        if Qle_bool (Qabs (NP.sub t (Verifier.comp r))) (NP.float64 (1 # 100))
        then r
        else set_total_amount (Some (Verifier.comp r)) r
    | None => r
    end.
Proof.
  unfold reconcile_row, assign_if, mismatch_cell.
  destruct (total_amount r) as [t|]; [|reflexivity].
  unfold NA.gt, NA.as_mask, NA.fillna, option_map.
  destruct (Qle_bool (Qabs (NP.sub t (Verifier.comp r)))
              (NP.float64 (1 # 100))); reflexivity.
Qed.

Lemma comp_set_total (v : option Q) (r : Row) :
  Verifier.comp (set_total_amount v r) = Verifier.comp r.
Proof.
  unfold Verifier.comp, set_total_amount.
  cbn [fare_amount extra mta_tax tip_amount tolls_amount
       improvement_surcharge congestion_surcharge airport_fee].
  reflexivity.
Qed.

Lemma reconcile_row_reconciled (r : Row) : total_reconciled (reconcile_row r).
Proof.
  rewrite reconcile_row_spec. unfold total_reconciled.
  destruct (total_amount r) as [t|] eqn:Et.
  - destruct (Qle_bool (Qabs (NP.sub t (Verifier.comp r)))
                (NP.float64 (1 # 100))) eqn:E.
    + rewrite Et. apply Qle_bool_iff. exact E.
    + cbn [total_amount set_total_amount].
      rewrite comp_set_total, sub_same. exact tolerance_nonneg.
  - rewrite Et. exact I.
Qed.

Lemma total_reconciled_view (r r' : Row) :
  (fee_view r', total_amount r') = (fee_view r, total_amount r) ->
  total_reconciled r -> total_reconciled r'.
Proof.
  unfold fee_view, total_reconciled, Verifier.comp. intros E.
  inversion E as [[E1 E2 E3 E4 E5 E6 E7 E8 E9 E10]]. 
  rewrite E2, E3, E4, E5, E6, E7, E8, E9, E10. auto.
Qed.

Lemma pipeline_around_reconcile :
  pipeline
  = stages_before_reconcile ++ [ReconcileTotal] ++ stages_after_reconcile.
Proof. reflexivity. Qed.

Lemma clean_output_total_reconciled zones (df : DataFrame) :
  Forall total_reconciled (clean_output zones df).
Proof.
  rewrite run_stages_pipeline, pipeline_around_reconcile, !run_stages_app.
  generalize (run_stages zones stages_before_reconcile df). intros d.
  apply run_stages_preserve.
  - intros s Hs r r' Hres. apply total_reconciled_view.
    exact (money_view_unchanged zones s Hs r r' Hres).
  - apply Forall_forall. intros r' Hr'.
    change (In r' (run_stage zones ReconcileTotal d)) in Hr'.
    apply stage_sound in Hr' as (r & _ & Hres).
    cbn [row_results keeps rewrites] in Hres. destruct Hres as [<- | []].
    apply reconcile_row_reconciled.
Qed.

(** ** Deduplication *)

Lemma duplicated_from_length (df : DataFrame) (seen : list Row) :
  length (duplicated_from seen df) = length df.
Proof.
  revert seen. induction df as [|r t IH]; intros seen; simpl; auto.
Qed.

Lemma duplicated_from_snoc (pre : DataFrame) (r : Row) (seen : list Row) :
  duplicated_from seen (pre ++ [r])
  = duplicated_from seen pre ++ [existsb (fun s => same_key s r) (seen ++ pre)].
Proof.
  revert seen. induction pre as [|a t IH]; intros seen; simpl.
  - rewrite app_nil_r. reflexivity.
  - rewrite IH, <- app_assoc. reflexivity.
Qed.

Lemma boolean_index_app {A} (a b : list A) (ma mb : list bool) :
  length ma = length a ->
  boolean_index (a ++ b) (ma ++ mb) = boolean_index a ma ++ boolean_index b mb.
Proof.
  revert ma. unfold boolean_index.
  induction a as [|x t IH]; intros [|m ma'] H; try discriminate; simpl.
  - reflexivity.
  - injection H as H. specialize (IH ma' H).
    destruct m; simpl; rewrite IH; reflexivity.
Qed.

Lemma drop_duplicates_snoc (pre : DataFrame) (r : Row) :
  drop_duplicates (pre ++ [r])
  = drop_duplicates pre
    ++ (if existsb (fun s => same_key s r) pre then [] else [r]).
Proof.
  unfold drop_duplicates, duplicated.
  rewrite duplicated_from_snoc, map_app, boolean_index_app.
  - simpl. destruct (existsb _ pre); reflexivity.
  - rewrite length_map. apply duplicated_from_length.
Qed.

Lemma dedup_from_spec (df : DataFrame) (seen : list Row) :
  let out := boolean_index df (map negb (duplicated_from seen df)) in
  duplicate_free out
  /\ Forall (fun b => forall s, In s seen -> same_key s b = false) out.
Proof.
  revert seen. induction df as [|r t IH]; intros seen; simpl.
  - split; constructor.
  - specialize (IH (seen ++ [r])). simpl in IH. destruct IH as [IHd IHs].
    unfold boolean_index in *. simpl.
    destruct (existsb (fun s => same_key s r) seen) eqn:E; simpl.
    + split; [exact IHd|].
      eapply Forall_impl; [|exact IHs]. intros b Hb s Hs.
      apply Hb. apply in_or_app. left. exact Hs.
    + split.
      * constructor; [|exact IHd].
        eapply Forall_impl; [|exact IHs]. intros b Hb.
        apply Hb. apply in_or_app. right. left. reflexivity.
      * constructor.
        -- intros s Hs. 
           destruct (same_key s r) eqn:Es; [|reflexivity].
           assert (existsb (fun s0 => same_key s0 r) seen = true) as Ex
             by (apply existsb_exists; eauto).
           congruence.
        -- eapply Forall_impl; [|exact IHs]. intros b Hb s Hs.
           apply Hb. apply in_or_app. left. exact Hs.
Qed.

Lemma drop_duplicates_duplicate_free (df : DataFrame) :
  duplicate_free (drop_duplicates df).
Proof. exact (proj1 (dedup_from_spec df [])). Qed.

(** ** The left joins *)

Lemma same_key_view (a a' b b' : Row) :
  key_view a' = key_view a -> key_view b' = key_view b ->
  same_key a' b' = same_key a b.
Proof.
  unfold key_view, same_key. intros Ea Eb.
  inversion Ea as [[A1 A2 A3 A4 A5 A6 A7 A8]].
  inversion Eb as [[B1 B2 B3 B4 B5 B6 B7 B8]].
  rewrite A1, A2, A3, A4, A5, A6, A7, A8, B1, B2, B3, B4, B5, B6, B7, B8.
  reflexivity.
Qed.

Lemma optZ_eqb_eq (a b : option Z) : optZ_eqb a b = true -> a = b.
Proof.
  destruct a, b; simpl; try discriminate; auto.
  intros H. apply Z.eqb_eq in H. congruence.
Qed.

Lemma unique_key_matches (k : option Z) (right : list ZoneRec) :
  NoDup (map LocationID right) ->
  (length (filter (fun z => optZ_eqb k (LocationID z)) right) <= 1)%nat.
Proof.
  induction right as [|z t IH]; simpl; intros Hnd; [lia|].
  inversion_clear Hnd as [|? ? Hnotin Ht].
  destruct (optZ_eqb k (LocationID z)) eqn:E; [|auto].
  apply optZ_eqb_eq in E. simpl.
  destruct (filter (fun z0 => optZ_eqb k (LocationID z0)) t) as [|z' ms] eqn:F;
    [simpl; lia|].
  exfalso. apply Hnotin.
  assert (In z' (filter (fun z0 => optZ_eqb k (LocationID z0)) t)) as Hin
    by (rewrite F; left; reflexivity).
  apply filter_In in Hin as [Hin Hk]. apply optZ_eqb_eq in Hk.
  rewrite <- E, Hk. apply in_map. exact Hin.
Qed.

Lemma join_row_length key attach (right : list ZoneRec) (r : Row) :
  NoDup (map LocationID right) ->
  length (join_row key attach right r) = 1%nat.
Proof.
  intros Hnd. unfold join_row.
  pose proof (unique_key_matches (key r) right Hnd) as H.
  destruct (filter _ right) as [|z [|z' ms]]; simpl in *; [reflexivity..|lia].
Qed.

Lemma row_results_length zones (s : Stage) (r : Row) :
  (merge_stage s = true -> NoDup (map LocationID zones)) ->
  (length (row_results zones s r) <= 1)%nat.
Proof.
  intros H.
  destruct s; cbn [row_results];
    try (destruct (keeps _ r); simpl; lia);
    rewrite join_row_length; auto.
Qed.

Lemma flat_map_length_le {A B} (f : A -> list B) (l : list A) :
  (forall x, (length (f x) <= 1)%nat) ->
  (length (flat_map f l) <= length l)%nat.
Proof.
  intros H. induction l as [|x t IH]; simpl; [lia|].
  rewrite length_app. specialize (H x). lia.
Qed.

Lemma run_stage_length zones (s : Stage) (df : DataFrame) :
  (merge_stage s = true -> NoDup (map LocationID zones)) ->
  (length (run_stage zones s df) <= length df)%nat.
Proof.
  intros H. destruct (Stage_eq_dedup s) as [-> | Hs].
  - apply boolean_index_length.
  - rewrite run_stage_rowwise by exact Hs.
    apply flat_map_length_le. intros r. apply row_results_length. exact H.
Qed.

Lemma duplicate_free_flat_map (f : Row -> list Row) (df : DataFrame) :
  (forall r, (length (f r) <= 1)%nat) ->
  (forall r r', In r' (f r) -> key_view r' = key_view r) ->
  duplicate_free df -> duplicate_free (flat_map f df).
Proof.
  intros Hlen Hkey Hdf. induction Hdf as [|a t Ha Ht IH]; simpl.
  - constructor.
  - pose proof (Hlen a) as La. pose proof (Hkey a) as Ka.
    destruct (f a) as [|a' [|a'' rest]]; simpl in *; [exact IH| |lia].
    constructor; [|exact IH].
    apply Forall_forall. intros b' Hb'.
    apply in_flat_map in Hb' as (b & Hb & Hfb).
    rewrite (same_key_view a a' b b'); auto.
    rewrite Forall_forall in Ha. auto.
Qed.

Lemma run_stage_duplicate_free zones (s : Stage) (df : DataFrame) :
  In s stages_after_dedup ->
  NoDup (map LocationID zones) ->
  duplicate_free df -> duplicate_free (run_stage zones s df).
Proof.
  intros Hs Hnd Hdf.
  rewrite run_stage_rowwise.
  - apply duplicate_free_flat_map; [| |exact Hdf].
    + intros r. apply row_results_length. auto.
    + exact (key_view_unchanged zones s Hs).
  - intros ->. simpl in Hs.
    repeat (destruct Hs as [Hs | Hs]; [discriminate|]). destruct Hs.
Qed.

Lemma pipeline_around_dedup :
  pipeline = stages_before_dedup ++ [Deduplicate] ++ stages_after_dedup.
Proof. reflexivity. Qed.

Lemma clean_output_duplicate_free zones (df : DataFrame) :
  NoDup (map LocationID zones) -> duplicate_free (clean_output zones df).
Proof.
  intros Hnd.
  rewrite run_stages_pipeline, pipeline_around_dedup, !run_stages_app.
  generalize (run_stages zones stages_before_dedup df). intros d.
  assert (duplicate_free (run_stages zones [Deduplicate] d)) as H0
    by apply drop_duplicates_duplicate_free.
  revert H0. generalize (run_stages zones [Deduplicate] d). intros d0 H0.
  unfold run_stages, stages_after_dedup. cbn [fold_left].
  repeat (apply run_stage_duplicate_free;
          [simpl; tauto | exact Hnd |]).
  exact H0.
Qed.

(** * The properties of the specification *)

(** C9.  In the clean output every row has a pickup timestamp, a dropoff
    timestamp and a trip duration, and the duration lies between 0 and 1440
    minutes: a row without a usable timestamp has no duration and does not
    pass the duration filter. *)
Theorem clean_rows_have_sane_times (zones : list ZoneRec) (df : DataFrame)
    (r : Row) :
  In r (clean_output zones df) ->
  exists p d q,
    tpep_pickup_datetime r = Some p /\ tpep_dropoff_datetime r = Some d /\
    trip_duration_min r = Some q /\ 0 <= q /\ q <= 1440.
Proof.
  intros Hr.
  pose proof (clean_output_time_sane zones df) as H.
  rewrite Forall_forall in H. destruct (H r Hr) as (p & d & q & Hp & Hd & Hq & H0 & H1).
  exists p, d, q.
  split; [exact Hp|]. split; [exact Hd|]. split; [exact Hq|].
  split; [exact H0|].
  apply Qle_trans with (24 * 60); [exact H1 | discriminate].
Qed.

Lemma clean_rows_have_sane_times_witness :
  In sample_trip_clean (clean_output sample_zones [sample_trip])
  /\ exists p d q,
       tpep_pickup_datetime sample_trip_clean = Some p /\
       tpep_dropoff_datetime sample_trip_clean = Some d /\
       trip_duration_min sample_trip_clean = Some q /\ 0 <= q /\ q <= 1440.
Proof.
  assert (In sample_trip_clean (clean_output sample_zones [sample_trip])) as H
    by (vm_compute; left; reflexivity).
  split; [exact H|].
  exact (clean_rows_have_sane_times sample_zones [sample_trip]
           sample_trip_clean H).
Defined.

(** C3, as the code has it.  In the clean output the seven fee columns
    (extra, mta tax, tip, tolls, improvement surcharge, congestion surcharge,
    airport fee) are non-negative or null on every row, and the fare is
    non-negative or null on every row whose payment type is not 4 or 6. *)
Theorem clean_rows_have_nonneg_fees (zones : list ZoneRec) (df : DataFrame)
    (r : Row) :
  In r (clean_output zones df) ->
  (forall c, In c component_fee_columns -> nonneg_or_null (getcol c r))
  /\ (NA.isinZ (payment_type r) [4; 6]%Z = false ->
      nonneg_or_null (fare_amount r)).
Proof.
  intros Hr. split.
  - pose proof (clean_output_fees_nonneg zones df) as H.
    rewrite Forall_forall in H. specialize (H r Hr).
    unfold fees_nonneg in H. rewrite Forall_forall in H. exact H.
  - pose proof (clean_output_fare_nonneg zones df) as H.
    rewrite Forall_forall in H. specialize (H r Hr).
    intros Hp. apply H. unfold non_adj. rewrite Hp. reflexivity.
Qed.

Lemma clean_rows_have_nonneg_fees_witness :
  In sample_trip_clean (clean_output sample_zones [sample_trip])
  /\ (forall c, In c component_fee_columns ->
                nonneg_or_null (getcol c sample_trip_clean))
  /\ (NA.isinZ (payment_type sample_trip_clean) [4; 6]%Z = false ->
      nonneg_or_null (fare_amount sample_trip_clean)).
Proof.
  assert (In sample_trip_clean (clean_output sample_zones [sample_trip])) as H
    by (vm_compute; left; reflexivity).
  split; [exact H|].
  exact (clean_rows_have_nonneg_fees sample_zones [sample_trip]
           sample_trip_clean H).
Defined.

(** C3, as stated, fails: a disputed trip keeps its negative fare. *)
Lemma negative_fare_survives_dispute :
  map fare_amount (clean_output sample_zones [disputed_trip]) = [Some (-10)]
  /\ ~ nonneg_or_null (Some (-10)).
Proof.
  split; [vm_compute; reflexivity | intros H; exact (H eq_refl)].
Qed.

(** C4, as the code has it.  The arithmetic is that of binary64: the sum of
    the components is rounded after each addition, its difference with the
    total is rounded, and 0.01 is the binary64 number nearest to 1/100.  For
    amounts of at most 10^300, where no sum overflows: in the clean output a
    total that is present is within the tolerance of the sum of the eight
    components (nulls as 0).  The reconciliation keeps every row: a present
    total that differs from the sum by more than the tolerance is overwritten
    with the sum, any other row is left as it is, and a null total stays
    null. *)
Theorem clean_totals_match_components (zones : list ZoneRec)
    (df : DataFrame) :
  Forall amounts_in_range df ->
  (forall r t,
      In r (clean_output zones df) -> total_amount r = Some t ->
      Qabs (NP.sub t (Verifier.comp r)) <= NP.float64 (1 # 100))
  /\ replace_mismatched_total df
     = map (fun r =>
              match total_amount r with
              | Some t =>
                  if Qle_bool (Qabs (NP.sub t (Verifier.comp r)))
                       (NP.float64 (1 # 100))
                  then r
                  else set_total_amount (Some (Verifier.comp r)) r
              | None => r
              end) df.
Proof.
  intros _. split.
  - intros r t Hr Ht.
    pose proof (clean_output_total_reconciled zones df) as H.
    rewrite Forall_forall in H. specialize (H r Hr).
    unfold total_reconciled in H. rewrite Ht in H. exact H.
  - rewrite replace_mismatched_total_rowwise.
    apply map_ext. exact reconcile_row_spec.
Qed.

Lemma clean_totals_match_components_witness :
  Forall amounts_in_range [sample_trip]
  /\ In sample_trip_clean (clean_output sample_zones [sample_trip])
  /\ total_amount sample_trip_clean = amount (163 # 10)
  /\ Qabs (NP.sub (NP.float64 (163 # 10)) (Verifier.comp sample_trip_clean))
     <= NP.float64 (1 # 100).
Proof.
  assert (Forall amounts_in_range [sample_trip]) as Hrange
    by (repeat constructor; vm_compute; discriminate).
  assert (In sample_trip_clean (clean_output sample_zones [sample_trip])) as H
    by (vm_compute; left; reflexivity).
  split; [exact Hrange|]. split; [exact H|]. split; [reflexivity|].
  exact (proj1 (clean_totals_match_components sample_zones [sample_trip]
                  Hrange)
           sample_trip_clean (NP.float64 (163 # 10)) H eq_refl).
Defined.

(** The tolerance is applied to binary64 numbers: a stored total of 16.29
    against components that sum to 16.3 differs from the sum by
    0.010000000000001563, which is more than [0.01], and is overwritten,
    although the two decimals are exactly one cent apart. *)
Example cent_off_total_is_overwritten :
  map Verifier.comp [cent_off_trip] = [NP.float64 (163 # 10)]
  /\ Qabs ((1629 # 100) - (163 # 10)) == 1 # 100
  /\ mismatch [cent_off_trip] = [Some true]
  /\ map total_amount (clean_output sample_zones [cent_off_trip])
     = [amount (163 # 10)]
  /\ In ("Replaced mismatched total_amount"%string, 1%Z)
       (snd (clean_frame sample_zones [cent_off_trip])).
Proof.
  split; [vm_compute; reflexivity|].
  split; [vm_compute; reflexivity|].
  split; [vm_compute; reflexivity|].
  split; [vm_compute; reflexivity|].
  vm_compute. tauto.
Qed.

(** C4, as stated, fails: a trip whose stored total is null keeps the null
    total although its components sum to 16.3, and the Verifier's
    comparison (null total read as 0) fails on it. *)
Lemma null_total_is_not_recomputed :
  map total_amount (clean_output sample_zones [null_total_trip]) = [None]
  /\ map Verifier.comp (clean_output sample_zones [null_total_trip])
     = [NP.float64 (163 # 10)]
  /\ Verifier.total_matches_components
       (clean_output sample_zones [null_total_trip]) = false.
Proof. repeat split; vm_compute; reflexivity. Qed.

(** C5, as the code has it.  The recomputed total of every row is the sum
    of the eight components with each null replaced by 0, added from left to
    right in the arithmetic of the columns; it is always a number, and it is
    0 when all eight components are null.  The assertion of [_coalesce_sum]
    cannot fail on the eight columns. *)
Theorem computed_total_is_fillna_sum (df : DataFrame) :
  _coalesce_sum (map (fun c => column c df) money_columns)
  = Some (map (fun r =>
                 Some (NP.add (NP.add (NP.add (NP.add (NP.add (NP.add (NP.add
                         (NA.fillna 0 (fare_amount r))
                         (NA.fillna 0 (extra r)))
                         (NA.fillna 0 (mta_tax r)))
                         (NA.fillna 0 (tip_amount r)))
                         (NA.fillna 0 (tolls_amount r)))
                         (NA.fillna 0 (improvement_surcharge r)))
                         (NA.fillna 0 (congestion_surcharge r)))
                         (NA.fillna 0 (airport_fee r)))) df).
Proof.
  pose proof (computed_total_rowwise df) as H. unfold computed_total in H.
  destruct (coalesce_sum_nonempty (column col_fare_amount df)
              (map (fun c => column c df) (tl money_columns))) as [s Hs].
  change (_coalesce_sum (map (fun c => column c df) money_columns) = Some s)
    in Hs.
  rewrite Hs in *. rewrite H. reflexivity.
Qed.

(** C5, as stated, fails: with all eight components null the recomputed
    total is the number 0, not a missing value. *)
Lemma blank_fees_total_is_zero :
  Forall (fun c => getcol c blank_fees_trip = None) money_columns
  /\ computed_total [blank_fees_trip] = [Some 0]
  /\ computed_total [blank_fees_trip] <> [None].
Proof.
  split; [repeat constructor|]. split; [vm_compute; reflexivity|].
  vm_compute. discriminate.
Qed.

Lemma sample_zones_unique : NoDup (map LocationID sample_zones).
Proof.
  repeat constructor; simpl; intuition discriminate.
Qed.

(** C6, as the code has it.  After the deduplication stage no two rows
    agree on the eight key columns; a row is retained exactly when no
    earlier row of the input has its key, whatever follows it; and the final
    output is still free of duplicates when the zone table lists every
    location id at most once. *)
Theorem dedup_keeps_first_occurrences :
  (forall df, duplicate_free (drop_duplicates df))
  /\ (forall pre r,
         drop_duplicates (pre ++ [r])
         = drop_duplicates pre
           ++ (if existsb (fun s => same_key s r) pre then [] else [r]))
  /\ (forall zones df,
         NoDup (map LocationID zones) ->
         duplicate_free (clean_output zones df)).
Proof.
  split; [exact drop_duplicates_duplicate_free|].
  split; [exact drop_duplicates_snoc|].
  exact clean_output_duplicate_free.
Qed.

Lemma dedup_keeps_first_occurrences_witness :
  NoDup (map LocationID sample_zones)
  /\ duplicate_free
       (clean_output sample_zones [sample_trip; disputed_trip; sample_trip]).
Proof.
  split; [exact sample_zones_unique|].
  exact (proj2 (proj2 dedup_keeps_first_occurrences) sample_zones
           [sample_trip; disputed_trip; sample_trip] sample_zones_unique).
Defined.

(** C6, as stated, fails: when the zone table lists a location twice, the
    join writes the trip twice and the final output holds two rows with one
    key. *)
Lemma join_reintroduces_duplicates :
  ~ duplicate_free (clean_output doubled_zones [sample_trip]).
Proof.
  intros H.
  assert (exists a b, clean_output doubled_zones [sample_trip] = [a; b]
                      /\ same_key a b = true) as (a & b & E & K)
    by (eexists; eexists; split; vm_compute; reflexivity).
  rewrite E in H. inversion_clear H as [|? ? Ha _].
  inversion_clear Ha as [|? ? Hab _]. congruence.
Qed.

(** C7, as the code has it.  No stage of the Rule Engine, nor the drop of
    unmapped rows, nor the type finalizer increases the row count; a left
    join of the Zone Joiner does not increase it when the zone table lists
    every location id at most once. *)
Theorem row_count_never_increases (zones : list ZoneRec) (s : Stage)
    (df : DataFrame) :
  (merge_stage s = true -> NoDup (map LocationID zones)) ->
  (length (run_stage zones s df) <= length df)%nat.
Proof. apply run_stage_length. Qed.

Lemma row_count_never_increases_witness :
  (merge_stage MergePickupZone = true -> NoDup (map LocationID sample_zones))
  /\ (length (run_stage sample_zones MergePickupZone [sample_trip; sample_trip])
      <= length [sample_trip; sample_trip])%nat.
Proof.
  split; [intros _; exact sample_zones_unique|].
  apply (row_count_never_increases sample_zones MergePickupZone).
  intros _. exact sample_zones_unique.
Defined.

(** C7, as stated, fails: joined against a zone table that lists location
    142 twice, one trip becomes two rows. *)
Lemma join_increases_row_count :
  (length [sample_trip]
   < length (run_stage doubled_zones MergePickupZone [sample_trip]))%nat
  /\ (length [sample_trip]
      < length (clean_output doubled_zones [sample_trip]))%nat.
Proof. split; vm_compute; lia. Qed.

(** C10.  A row whose payment type is null is a non-adjustment row: the
    negative-fare stage drops it when its fare is a negative number, and the
    negative-total stage drops it when its total is a negative number,
    exactly as for a payment type outside {4, 6}. *)
Theorem null_payment_is_non_adjustment (df : DataFrame) (r : Row) :
  payment_type r = None ->
  non_adj r = true
  /\ (forall r', NA.isinZ (payment_type r') [4; 6]%Z = false ->
                 non_adj r' = non_adj r)
  /\ (forall f, fare_amount r = Some f -> f < 0 ->
                ~ In r (drop_negative_fare df))
  /\ (forall t, total_amount r = Some t -> t < 0 ->
                ~ In r (drop_negative_total df)).
Proof.
  intros Hp.
  assert (non_adj r = true) as Hna by (unfold non_adj; rewrite Hp; reflexivity).
  split; [exact Hna|]. split.
  { intros r' Hr'. rewrite Hna. unfold non_adj. rewrite Hr'. reflexivity. }
  assert (forall v x, v = Some x -> x < 0 ->
                      NA.as_mask (nonneg_or_exempt v r) = false) as Hdrop.
  { intros v x -> Hx. unfold nonneg_or_exempt. rewrite Hna.
    cbn [NA.isna NA.ge option_map negb].
    destruct (Qle_bool 0 x) eqn:E; [|reflexivity].
    apply Qle_bool_iff in E. lra. }
  split.
  - intros f Hf Hneg Hin. unfold drop_negative_fare in Hin.
    rewrite boolean_index_map in Hin. apply filter_In in Hin as [_ Hk].
    rewrite (Hdrop _ f Hf Hneg) in Hk. discriminate.
  - intros t Ht Hneg Hin. unfold drop_negative_total in Hin.
    rewrite boolean_index_map in Hin. apply filter_In in Hin as [_ Hk].
    rewrite (Hdrop _ t Ht Hneg) in Hk. discriminate.
Qed.

Lemma null_payment_is_non_adjustment_witness :
  payment_type null_payment_trip = None
  /\ fare_amount null_payment_trip = Some (-10)
  /\ -10 < 0
  /\ ~ In null_payment_trip
       (drop_negative_fare [sample_trip; null_payment_trip])
  /\ ~ In null_payment_trip
       (drop_negative_total [sample_trip; null_payment_trip]).
Proof.
  pose proof (null_payment_is_non_adjustment
                [sample_trip; null_payment_trip] null_payment_trip eq_refl)
    as (_ & _ & Hfare & Htotal).
  split; [reflexivity|]. split; [reflexivity|]. split; [reflexivity|].
  split.
  - apply (Hfare (-10)); reflexivity.
  - apply (Htotal (NP.float64 (-37 # 10))); [reflexivity|].
    vm_compute. reflexivity.
Defined.

(** C2, as the code has it.  A row is not dropped by the vendor stage when
    its vendor id is null, by the dropoff-before-pickup stage when a
    timestamp is null, by either distance-range stage when its distance is
    null, by the negative-fare stage when its fare is null, by the
    negative-total stage when its total is null.  The duration stage keeps
    only rows whose duration is a number, so a null duration is dropped; the
    zero-minute stage reads a null distance as 0.  The nulling rules (rate
    code, payment type, passenger count, negative fees) keep every row. *)
Theorem null_cells_and_drop_filters (df : DataFrame) (r : Row) :
  In r df ->
  (VendorID r = None -> In r (drop_invalid_vendor df))
  /\ (tpep_pickup_datetime r = None \/ tpep_dropoff_datetime r = None ->
      In r (drop_bad_order df))
  /\ (trip_distance r = None ->
      In r (drop_negative_distance df) /\ In r (drop_extreme_distance df))
  /\ (fare_amount r = None -> In r (drop_negative_fare df))
  /\ (total_amount r = None -> In r (drop_negative_total df))
  /\ (trip_duration_min r = None -> ~ In r (drop_over_24h df))
  /\ (trip_distance r = None ->
      (In r (drop_zero_minute_zero_distance df) <->
       Qeq_bool (NP.round5 (NA.fillna 0 (trip_duration_min r))) 0 = false))
  /\ length (null_invalid_ratecode df) = length df
  /\ length (null_zero_payment df) = length df
  /\ length (cap_passenger_count df) = length df
  /\ (forall c, length (null_negative c df) = length df).
Proof.
  intros Hr.
  assert (forall p : Row -> bool, p r = true -> In r (filter p df)) as Hkeep
    by (intros p Hp; apply filter_In; auto).
  repeat match goal with |- _ /\ _ => split end.
  - intros H. unfold drop_invalid_vendor, vendor_mask.
    rewrite boolean_index_map. apply Hkeep. rewrite H. reflexivity.
  - intros H. unfold drop_bad_order, bad_order.
    rewrite map_map, boolean_index_map. apply Hkeep.
    destruct H as [H | H]; rewrite H;
      [destruct (tpep_dropoff_datetime r)|]; reflexivity.
  - intros H. split.
    + unfold drop_negative_distance. rewrite boolean_index_map.
      apply Hkeep. rewrite H. reflexivity.
    + unfold drop_extreme_distance. rewrite boolean_index_map.
      apply Hkeep. rewrite H. reflexivity.
  - intros H. unfold drop_negative_fare. rewrite boolean_index_map.
    apply Hkeep. rewrite H. reflexivity.
  - intros H. unfold drop_negative_total. rewrite boolean_index_map.
    apply Hkeep. rewrite H. reflexivity.
  - intros H Hin. unfold drop_over_24h in Hin.
    rewrite boolean_index_map in Hin. apply filter_In in Hin as [_ Hk].
    rewrite H in Hk. discriminate.
  - intros H. rewrite zero_stage_rowwise, filter_In. cbn [keeps]. rewrite H.
    change (Qeq_bool (NP.round5 (NA.fillna 0 None)) 0) with true.
    rewrite andb_true_r, negb_true_iff. tauto.
  - unfold null_invalid_ratecode, loc_assign.
    rewrite length_map, length_combine, length_map. apply Nat.min_id.
  - unfold null_zero_payment, loc_assign.
    rewrite length_map, length_combine, length_map. apply Nat.min_id.
  - rewrite cap_passenger_count_rowwise. apply length_map.
  - intros c. unfold null_negative, neg_mask, loc_assign.
    rewrite length_map, length_combine, length_map. apply Nat.min_id.
Qed.

Lemma null_cells_and_drop_filters_witness :
  In null_vendor_trip [sample_trip; null_vendor_trip]
  /\ VendorID null_vendor_trip = None
  /\ In null_vendor_trip (drop_invalid_vendor [sample_trip; null_vendor_trip]).
Proof.
  assert (In null_vendor_trip [sample_trip; null_vendor_trip]) as H
    by (right; left; reflexivity).
  split; [exact H|]. split; [reflexivity|].
  exact (proj1 (null_cells_and_drop_filters
                  [sample_trip; null_vendor_trip] null_vendor_trip H)
           eq_refl).
Defined.

(** C2, as stated, fails: a trip without pickup time gets a null duration
    and the duration stage drops it; a trip of zero duration with a null
    distance is dropped by the zero-minute stage. *)
Lemma null_duration_is_dropped :
  run_stages sample_zones [DropoffBeforePickup; TripDuration] [null_pickup_trip]
  = [untimed_trip]
  /\ trip_duration_min untimed_trip = None
  /\ drop_over_24h [untimed_trip] = []
  /\ trip_distance instant_trip = None
  /\ drop_zero_minute_zero_distance [instant_trip] = [].
Proof. repeat split; vm_compute; reflexivity. Qed.

(** C1: the Verifier run on the cleaner's output.  The cleaner keeps the
    trip whose vendor id is null, and the Verifier reports FAIL for
    [vendor_valid] on the resulting dataset. *)
Theorem verifier_rejects_kept_null_vendor :
  map VendorID (clean_output sample_zones [null_vendor_trip]) = [None]
  /\ Verifier.vendor_valid (clean_output sample_zones [null_vendor_trip])
     = false
  /\ Verifier.report (clean_output sample_zones [null_vendor_trip])
     = [("vendor_valid", "FAIL"); ("ratecode_valid", "PASS");
        ("payment_valid", "PASS"); ("saf_valid", "PASS");
        ("distance_range", "PASS"); ("drop_ge_pick", "PASS");
        ("dur_le_24h", "PASS"); ("zero_min_distance_positive", "PASS");
        ("fare_nonneg_when_not_adjust", "PASS");
        ("total_nonneg_when_not_adjust", "PASS");
        ("total_matches_components", "PASS");
        ("pu_zone_present", "PASS"); ("do_zone_present", "PASS")]%string.
Proof. repeat split; vm_compute; reflexivity. Qed.

(** The other nulls that the cleaner keeps fail their checks as well. *)
Example verifier_rejects_kept_nulls :
  length (clean_output sample_zones
            [null_distance_trip; null_fare_trip; null_total_trip]) = 3%nat
  /\ map fst
       (filter (fun c => negb (snd c))
          (Verifier.checks
             (clean_output sample_zones
                [null_distance_trip; null_fare_trip; null_total_trip])))
     = ["distance_range"; "fare_nonneg_when_not_adjust";
        "total_nonneg_when_not_adjust"; "total_matches_components"]%string.
Proof. split; vm_compute; reflexivity. Qed.

(** C8, as the code has it.  When the raw file is missing, or its text is
    rejected by the parser, [clean] ends with the exception that the reader
    raised ([FileNotFoundError] for a missing file, the parser's own
    exception otherwise); whatever follows [_read_inputs] is not run, and no
    file is written: the file system is the one [clean] started with. *)
Theorem unreadable_raw_file_aborts
    (parse_trips : string -> Exception + DataFrame)
    (parse_zones : string -> Exception + list ZoneRec)
    (to_csv : DataFrame -> string)
    (render_report : list ReportLine -> Z -> string)
    (fs : FileSystem) (e : Exception) :
  (fs RAW_CSV = None /\ e = Raise "FileNotFoundError" RAW_CSV)
  \/ (exists text, fs RAW_CSV = Some text /\ parse_trips text = inl e) ->
  clean parse_trips parse_zones to_csv render_report fs = (inl e, fs)
  /\ (forall (B : Type) (rest : DataFrame * list ZoneRec -> IO B),
         bind (_read_inputs parse_trips parse_zones) rest fs = (inl e, fs)).
Proof.
  intros H.
  assert (forall (B : Type) (rest : DataFrame * list ZoneRec -> IO B),
             bind (_read_inputs parse_trips parse_zones) rest fs
             = (inl e, fs)) as Habort.
  { intros B rest. unfold bind, _read_inputs, read_csv, bind.
    destruct H as [[Hnone ->] | (text & Hsome & Hparse)].
    - rewrite Hnone. reflexivity.
    - rewrite Hsome, Hparse. reflexivity. }
  split; [apply Habort | exact Habort].
Qed.

Lemma unreadable_raw_file_aborts_witness :
  (empty_disk RAW_CSV = None
   /\ Raise "FileNotFoundError" RAW_CSV = Raise "FileNotFoundError" RAW_CSV)
  /\ clean parse_no_trips parse_no_zones to_csv_blank render_report_blank
       empty_disk
     = (inl (Raise "FileNotFoundError" RAW_CSV), empty_disk).
Proof.
  split; [split; reflexivity|].
  apply (unreadable_raw_file_aborts parse_no_trips parse_no_zones
           to_csv_blank render_report_blank empty_disk).
  left. split; reflexivity.
Defined.

(** C8, as stated, fails: the exception of a missing raw file is
    [FileNotFoundError], and that of a rejected text is the parser's; no
    [DataSourceError] is raised. *)
Lemma missing_raw_file_is_not_DataSourceError :
  (exists e,
      fst (clean parse_no_trips parse_no_zones to_csv_blank
             render_report_blank empty_disk) = inl e
      /\ exception_class e = "FileNotFoundError"%string
      /\ exception_class e <> "DataSourceError"%string)
  /\ (exists e,
         fst (clean parse_garbled parse_no_zones to_csv_blank
                render_report_blank disk_with_inputs) = inl e
         /\ exception_class e = "ParserError"%string
         /\ exception_class e <> "DataSourceError"%string).
Proof.
  split; eexists; (split; [vm_compute; reflexivity|]);
    (split; [reflexivity | discriminate]).
Qed.

(** A run whose inputs load writes both outputs. *)
Example loaded_run_writes_outputs :
  let out := clean parse_sample_trip parse_sample_zones to_csv_blank
               render_report_blank disk_with_inputs in
  fst out = inr tt
  /\ snd out CLEAN_CSV = Some ""%string
  /\ snd out REPORT_MD = Some ""%string.
Proof. repeat split; vm_compute; reflexivity. Qed.

(** * Further properties of the pipeline *)

(** ** Invariants established by one stage and kept by the later ones *)

Lemma pipeline_invariant (P : Row -> Prop) zones (pre post : list Stage)
    (s0 : Stage) :
  pipeline = pre ++ [s0] ++ post ->
  (forall r r', In r' (row_results zones s0 r) -> P r') ->
  (forall s, In s post ->
             forall r r', In r' (row_results zones s r) -> P r -> P r') ->
  forall df, Forall P (clean_output zones df).
Proof.
  intros Hsplit Hest Hkeep df.
  rewrite run_stages_pipeline, Hsplit, !run_stages_app.
  generalize (run_stages zones pre df). intros d.
  apply run_stages_preserve; [exact Hkeep|].
  apply Forall_forall. intros r' Hr'.
  change (In r' (run_stage zones s0 d)) in Hr'.
  apply stage_sound in Hr' as (r & _ & Hres). exact (Hest r r' Hres).
Qed.

Lemma run_stages_trace {V} (view : Row -> V) zones (ss : list Stage) :
  (forall s, In s ss -> unchanged_by view zones s) ->
  forall df r', In r' (run_stages zones ss df) ->
                exists r, In r df /\ view r' = view r.
Proof.
  unfold run_stages.
  induction ss as [|s t IH]; intros Hss df r' Hr'; simpl in Hr'.
  - exists r'. auto.
  - destruct (IH (fun s' Hs' => Hss s' (or_intror Hs')) _ _ Hr')
      as (r1 & Hr1 & E1).
    apply stage_sound in Hr1 as (r & Hr & Hres).
    exists r. split; [exact Hr|].
    rewrite E1. exact (Hss s (or_introl eq_refl) r r1 Hres).
Qed.

(** Enumerates the stages of a concrete list. *)
Ltac each_stage Hs tac :=
  simpl in Hs; repeat (destruct Hs as [<- | Hs]; [tac|]); destruct Hs.

(** ** Provenance *)

Lemma identity_view_unchanged zones (s : Stage) :
  In s pipeline -> unchanged_by identity_view zones s.
Proof. intros Hs. each_stage Hs frame. Qed.

Lemma clean_rows_trace (zones : list ZoneRec) (df : DataFrame) (r' : Row) :
  In r' (clean_output zones df) ->
  exists r, In r df /\ identity_view r' = identity_view r.
Proof.
  intros H. rewrite run_stages_pipeline in H.
  exact (run_stages_trace identity_view zones pipeline
           (identity_view_unchanged zones) df r' H).
Qed.

(** X1.  Cleaning never invents or edits the identifying columns: every row
    of the clean output carries the vendor id, both timestamps, both location
    ids, the distance and the fare of some row of the raw frame. *)
Theorem clean_rows_come_from_raw_rows (zones : list ZoneRec) (df : DataFrame)
    (r' : Row) :
  In r' (clean_output zones df) ->
  exists r,
    In r df /\
    VendorID r' = VendorID r /\
    tpep_pickup_datetime r' = tpep_pickup_datetime r /\
    tpep_dropoff_datetime r' = tpep_dropoff_datetime r /\
    PULocationID r' = PULocationID r /\ DOLocationID r' = DOLocationID r /\
    trip_distance r' = trip_distance r /\ fare_amount r' = fare_amount r.
Proof.
  intros H. destruct (clean_rows_trace zones df r' H) as (r & Hr & E).
  exists r. split; [exact Hr|].
  unfold identity_view in E. inversion E. repeat split; assumption.
Qed.

Lemma clean_rows_come_from_raw_rows_witness :
  In sample_trip_clean (clean_output sample_zones [sample_trip])
  /\ exists r,
       In r [sample_trip] /\
       VendorID sample_trip_clean = VendorID r /\
       tpep_pickup_datetime sample_trip_clean = tpep_pickup_datetime r /\
       tpep_dropoff_datetime sample_trip_clean = tpep_dropoff_datetime r /\
       PULocationID sample_trip_clean = PULocationID r /\
       DOLocationID sample_trip_clean = DOLocationID r /\
       trip_distance sample_trip_clean = trip_distance r /\
       fare_amount sample_trip_clean = fare_amount r.
Proof.
  assert (In sample_trip_clean (clean_output sample_zones [sample_trip])) as H
    by (vm_compute; left; reflexivity).
  split; [exact H|].
  exact (clean_rows_come_from_raw_rows sample_zones [sample_trip]
           sample_trip_clean H).
Defined.

(** ** Domain closure *)

Lemma pipeline_invariant_at (P : Row -> Prop) zones (k : nat) (s0 : Stage) :
  pipeline = firstn k pipeline ++ [s0] ++ skipn (S k) pipeline ->
  (forall r r', In r' (row_results zones s0 r) -> P r') ->
  (forall s, In s (skipn (S k) pipeline) ->
             forall r r', In r' (row_results zones s r) -> P r -> P r') ->
  forall df, Forall P (clean_output zones df).
Proof. apply pipeline_invariant. Qed.

Lemma firstn_split_at {A} (l : list A) (k n : nat) (x : A) :
  nth_error l k = Some x -> (k < n)%nat ->
  firstn n l = firstn k l ++ [x] ++ firstn (n - S k) (skipn (S k) l).
Proof.
  revert k n. induction l as [|a t IH]; intros [|k] [|n] H Hlt;
    simpl in *; try discriminate; try lia.
  - injection H as ->. rewrite Nat.sub_0_r. reflexivity.
  - rewrite (IH k n H) by lia. reflexivity.
Qed.

Lemma in_firstn {A} (n : nat) (l : list A) (x : A) :
  In x (firstn n l) -> In x l.
Proof.
  revert n. induction l as [|a t IH]; intros [|n]; simpl; try tauto.
  intros [H | H]; [left; exact H | right; exact (IH n H)].
Qed.

Lemma in_skipn_list {A} (n : nat) (l : list A) (x : A) :
  In x (skipn n l) -> In x l.
Proof.
  revert n. induction l as [|a t IH]; intros [|n]; simpl; try tauto.
  intros H. right. exact (IH n H).
Qed.

Lemma full_pipeline : firstn 26 pipeline = pipeline.
Proof. reflexivity. Qed.

(** The same, for the frame after the first [n] stages. *)
Lemma prefix_invariant_at (P : Row -> Prop) zones (k n : nat) (s0 : Stage) :
  nth_error pipeline k = Some s0 -> (k < n)%nat ->
  (forall r r', In r' (row_results zones s0 r) -> P r') ->
  (forall s, In s (skipn (S k) pipeline) ->
             forall r r', In r' (row_results zones s r) -> P r -> P r') ->
  forall df, Forall P (run_stages zones (firstn n pipeline) df).
Proof.
  intros Hk Hlt Hest Hkeep df.
  rewrite (firstn_split_at pipeline k n s0 Hk Hlt), !run_stages_app.
  generalize (run_stages zones (firstn k pipeline) df). intros d.
  apply run_stages_preserve.
  - intros s Hs. apply Hkeep. revert Hs. apply in_firstn.
  - apply Forall_forall. intros r' Hr'.
    change (In r' (run_stage zones s0 d)) in Hr'.
    apply stage_sound in Hr' as (r & _ & Hres). exact (Hest r r' Hres).
Qed.

Lemma whole_run (P : Row -> Prop) zones (df : DataFrame) :
  Forall P (run_stages zones (firstn 26 pipeline) df) ->
  Forall P (clean_output zones df).
Proof. rewrite full_pipeline, run_stages_pipeline. auto. Qed.

Lemma kept_by_view {V} (view : Row -> V) (Q : V -> Prop) zones
    (ss : list Stage) :
  (forall s, In s ss -> unchanged_by view zones s) ->
  forall s, In s ss ->
            forall r r', In r' (row_results zones s r) ->
                         Q (view r) -> Q (view r').
Proof.
  intros Hss s Hs r r' Hres HQ. rewrite (Hss s Hs r r' Hres). exact HQ.
Qed.

Lemma vendor_in_domain_upto zones (n : nat) (df : DataFrame) :
  (1 < n)%nat ->
  Forall (fun r => null_or_among [1; 2]%Z (VendorID r))
    (run_stages zones (firstn n pipeline) df).
Proof.
  intros Hn.
  apply (prefix_invariant_at _ zones 1 n VendorDomain); [reflexivity | exact Hn | |].
  - intros r r' H. cbn [row_results] in H. row_shape H.
    cbn [keeps rewrites] in *.
    destruct (VendorID r) as [v|]; [|exact I]. simpl in *.
    rewrite orb_false_r in Hkeep.
    destruct (Z.eqb_spec v 1); [left; auto|].
    destruct (Z.eqb_spec v 2); [right; left; auto|discriminate].
  - apply (kept_by_view VendorID (null_or_among [1; 2]%Z)). intros s Hs. each_stage Hs frame.
Qed.

Lemma vendor_in_domain zones (df : DataFrame) :
  Forall (fun r => null_or_among [1; 2]%Z (VendorID r))
    (clean_output zones df).
Proof. apply whole_run, vendor_in_domain_upto. lia. Qed.

Lemma ratecode_nulling_cell (v : option Q) :
  ratecode_in_domain
    (if NA.as_mask (Some (negb (NA.isinQ v [1; 2; 3; 4; 5; 6]%Z)
                          && NA.notna v))
     then None else v).
Proof.
  destruct v as [q|]; [|exact I].
  unfold NA.isinQ, NA.notna, NA.isna, NA.as_mask, NA.fillna.
  cbn [negb andb existsb].
  rewrite andb_true_r.
  destruct (Qeq_bool q (inject_Z 1)) eqn:E1;
    [exists 1%Z; split; [lia | apply Qeq_bool_iff; exact E1]|].
  destruct (Qeq_bool q (inject_Z 2)) eqn:E2;
    [exists 2%Z; split; [lia | apply Qeq_bool_iff; exact E2]|].
  destruct (Qeq_bool q (inject_Z 3)) eqn:E3;
    [exists 3%Z; split; [lia | apply Qeq_bool_iff; exact E3]|].
  destruct (Qeq_bool q (inject_Z 4)) eqn:E4;
    [exists 4%Z; split; [lia | apply Qeq_bool_iff; exact E4]|].
  destruct (Qeq_bool q (inject_Z 5)) eqn:E5;
    [exists 5%Z; split; [lia | apply Qeq_bool_iff; exact E5]|].
  destruct (Qeq_bool q (inject_Z 6)) eqn:E6;
    [exists 6%Z; split; [lia | apply Qeq_bool_iff; exact E6]|].
  exact I.
Qed.

Lemma ratecode_closed_upto zones (n : nat) (df : DataFrame) :
  (2 < n)%nat ->
  Forall (fun r => ratecode_in_domain (RatecodeID r)) (run_stages zones (firstn n pipeline) df).
Proof.
  intros Hn.
  apply (prefix_invariant_at _ zones 2 n RatecodeDomain); [reflexivity | exact Hn | |].
  - intros r r' H. cbn [row_results] in H. row_shape H.
    cbn [rewrites]. unfold assign_if.
    pose proof (ratecode_nulling_cell (RatecodeID r)) as Hc.
    destruct (NA.as_mask _); exact Hc.
  - apply (kept_by_view RatecodeID ratecode_in_domain). intros s Hs. each_stage Hs frame.
Qed.

Lemma ratecode_closed zones (df : DataFrame) :
  Forall (fun r => ratecode_in_domain (RatecodeID r)) (clean_output zones df).
Proof. apply whole_run, ratecode_closed_upto. lia. Qed.

Lemma payment_never_zero_upto zones (n : nat) (df : DataFrame) :
  (3 < n)%nat ->
  Forall (fun r => payment_type r <> Some 0%Z) (run_stages zones (firstn n pipeline) df).
Proof.
  intros Hn.
  apply (prefix_invariant_at _ zones 3 n PaymentZero); [reflexivity | exact Hn | |].
  - intros r r' H. cbn [row_results] in H. row_shape H.
    cbn [rewrites]. unfold assign_if.
    destruct (payment_type r) as [p|] eqn:Ep; simpl.
    + destruct (Z.eqb_spec p 0); simpl; [discriminate|].
      rewrite Ep. congruence.
    + rewrite Ep. discriminate.
  - apply (kept_by_view payment_type (fun v => v <> Some 0%Z)). intros s Hs. each_stage Hs frame.
Qed.

Lemma payment_never_zero zones (df : DataFrame) :
  Forall (fun r => payment_type r <> Some 0%Z) (clean_output zones df).
Proof. apply whole_run, payment_never_zero_upto. lia. Qed.

Lemma flag_closed_upto zones (n : nat) (df : DataFrame) :
  (0 < n)%nat ->
  Forall (fun r => flag_in_domain (store_and_fwd_flag r))
    (run_stages zones (firstn n pipeline) df).
Proof.
  intros Hn.
  apply (prefix_invariant_at _ zones 0 n NormalizeFlag); [reflexivity | exact Hn | |].
  - intros r r' H. cbn [row_results] in H. row_shape H.
    cbn [rewrites]. unfold normalize_flag_row, assign_if, flag_in_domain.
    cbn [store_and_fwd_flag set_store_and_fwd_flag].
    destruct (option_map str_upper (store_and_fwd_flag r)) as [f|];
      [|left; reflexivity].
    unfold NA.isinS. cbn [existsb NA.as_mask NA.fillna].
    destruct (String.eqb_spec f "Y") as [-> | _];
      [right; left; reflexivity|].
    destruct (String.eqb_spec f "N") as [-> | _];
      [right; right; reflexivity|].
    left. reflexivity.
  - apply (kept_by_view store_and_fwd_flag flag_in_domain). intros s Hs. each_stage Hs frame.
Qed.

Lemma flag_closed zones (df : DataFrame) :
  Forall (fun r => flag_in_domain (store_and_fwd_flag r))
    (clean_output zones df).
Proof. apply whole_run, flag_closed_upto. lia. Qed.

(** X2.  Domain closure of the clean output, as the code enforces it: the
    vendor id is 1, 2 or null; the rate code is one of 1..6 or null; the
    store-and-forward flag is Y, N or null; the payment type is never 0
    (0 is nulled, any other value is left as it is). *)
Theorem clean_rows_are_in_domain (zones : list ZoneRec) (df : DataFrame)
    (r : Row) :
  In r (clean_output zones df) ->
  null_or_among [1; 2]%Z (VendorID r)
  /\ ratecode_in_domain (RatecodeID r)
  /\ flag_in_domain (store_and_fwd_flag r)
  /\ payment_type r <> Some 0%Z.
Proof.
  intros Hr.
  pose proof (vendor_in_domain zones df) as Hv.
  pose proof (ratecode_closed zones df) as Hc.
  pose proof (flag_closed zones df) as Hf.
  pose proof (payment_never_zero zones df) as Hp.
  rewrite Forall_forall in Hv, Hc, Hf, Hp.
  split; [exact (Hv r Hr)|]. split; [exact (Hc r Hr)|].
  split; [exact (Hf r Hr) | exact (Hp r Hr)].
Qed.

Lemma clean_rows_are_in_domain_witness :
  In sample_trip_clean (clean_output sample_zones [sample_trip])
  /\ null_or_among [1; 2]%Z (VendorID sample_trip_clean)
  /\ ratecode_in_domain (RatecodeID sample_trip_clean)
  /\ flag_in_domain (store_and_fwd_flag sample_trip_clean)
  /\ payment_type sample_trip_clean <> Some 0%Z.
Proof.
  assert (In sample_trip_clean (clean_output sample_zones [sample_trip])) as H
    by (vm_compute; left; reflexivity).
  split; [exact H|].
  exact (clean_rows_are_in_domain sample_zones [sample_trip]
           sample_trip_clean H).
Defined.

(** ** Distance, zero-length trips, passenger count *)

Lemma distance_nonneg_upto zones (n : nat) (df : DataFrame) :
  (8 < n)%nat ->
  Forall (fun r => nonneg_or_null (trip_distance r)) (run_stages zones (firstn n pipeline) df).
Proof.
  intros Hn.
  apply (prefix_invariant_at _ zones 8 n NegativeDistance); [reflexivity | exact Hn | |].
  - intros r r' H. cbn [row_results] in H. row_shape H.
    cbn [keeps rewrites] in *.
    destruct (trip_distance r) as [d|]; [|exact I]. simpl in *.
    destruct (Qle_bool 0 d) eqn:E; [|discriminate].
    apply Qle_bool_iff. exact E.
  - apply (kept_by_view trip_distance nonneg_or_null).
    intros s Hs. each_stage Hs frame.
Qed.

Lemma distance_nonneg zones (df : DataFrame) :
  Forall (fun r => nonneg_or_null (trip_distance r)) (clean_output zones df).
Proof. apply whole_run, distance_nonneg_upto. lia. Qed.

Lemma distance_at_most_200_upto zones (n : nat) (df : DataFrame) :
  (9 < n)%nat ->
  Forall (fun r => match trip_distance r with
                   | Some d => d <= 200
                   | None => True
                   end) (run_stages zones (firstn n pipeline) df).
Proof.
  intros Hn.
  apply (prefix_invariant_at _ zones 9 n ExtremeDistance); [reflexivity | exact Hn | |].
  - intros r r' H. cbn [row_results] in H. row_shape H.
    cbn [keeps rewrites] in *.
    destruct (trip_distance r) as [d|]; [|exact I]. simpl in *.
    destruct (Qle_bool d 200) eqn:E; [|discriminate].
    apply Qle_bool_iff. exact E.
  - apply (kept_by_view trip_distance
             (fun v => match v with Some d => d <= 200 | None => True end)).
    intros s Hs. each_stage Hs frame.
Qed.

Lemma distance_at_most_200 zones (df : DataFrame) :
  Forall (fun r => match trip_distance r with
                   | Some d => d <= 200
                   | None => True
                   end) (clean_output zones df).
Proof. apply whole_run, distance_at_most_200_upto. lia. Qed.

Lemma zero_rule_kept_upto zones (n : nat) (df : DataFrame) :
  (7 < n)%nat ->
  Forall (fun r => keeps ZeroMinuteZeroDistance r = true)
    (run_stages zones (firstn n pipeline) df).
Proof.
  intros Hn.
  apply (prefix_invariant_at _ zones 7 n ZeroMinuteZeroDistance); [reflexivity | exact Hn | |].
  - intros r r' H. cbn [row_results] in H. row_shape H.
    cbn [rewrites]. exact Hkeep.
  - apply (kept_by_view (fun r => (trip_duration_min r, trip_distance r))
             (fun v => negb (Qeq_bool (NP.round5 (NA.fillna 0 (fst v))) 0
                             && Qeq_bool (NP.round5 (NA.fillna 0 (snd v))) 0)
                       = true)).
    intros s Hs. each_stage Hs frame.
Qed.

Lemma zero_rule_kept zones (df : DataFrame) :
  Forall (fun r => keeps ZeroMinuteZeroDistance r = true)
    (clean_output zones df).
Proof. apply whole_run, zero_rule_kept_upto. lia. Qed.

Lemma truncation_between (q : Q) :
  0 <= q -> q <= 6 ->
  0 <= inject_Z (Z.quot (Qnum q) (Zpos (Qden q)))
  /\ inject_Z (Z.quot (Qnum q) (Zpos (Qden q))) <= 6.
Proof.
  destruct q as [n d]. unfold Qle, inject_Z. simpl. intros H0 H6.
  assert (0 <= n)%Z as Hn by lia.
  split.
  - rewrite Z.mul_1_r. apply Z.quot_pos; lia.
  - rewrite Z.mul_1_r. apply Z.quot_le_upper_bound; lia.
Qed.

Lemma cap_passenger_cell (r : Row) :
  null_or_between 0 6 (passenger_count (cap_passenger_row r)).
Proof.
  unfold cap_passenger_row, assign_if.
  destruct (passenger_count r) as [q|] eqn:Eq; cbn [NA.lt option_map].
  - unfold NA.as_mask at 2. cbn [NA.fillna].
    destruct (Qle_bool 0 q) eqn:E0; cbn [negb].
    + rewrite Eq. cbn [NA.gt option_map NA.as_mask NA.fillna].
      destruct (Qle_bool q 6) eqn:E6; cbn [negb].
      * cbn [passenger_count set_passenger_count]. rewrite Eq.
        cbn [astype_Int64 option_map null_or_between].
        apply truncation_between; apply Qle_bool_iff; assumption.
      * exact I.
    + exact I.
  - cbn [NA.as_mask NA.fillna]. rewrite Eq.
    cbn [NA.gt option_map NA.as_mask NA.fillna].
    cbn [passenger_count set_passenger_count]. rewrite Eq. exact I.
Qed.

Lemma passenger_capped_upto zones (n : nat) (df : DataFrame) :
  (20 < n)%nat ->
  Forall (fun r => null_or_between 0 6 (passenger_count r))
    (run_stages zones (firstn n pipeline) df).
Proof.
  intros Hn.
  apply (prefix_invariant_at _ zones 20 n PassengerCap); [reflexivity | exact Hn | |].
  - intros r r' H. cbn [row_results] in H. row_shape H.
    cbn [rewrites]. apply cap_passenger_cell.
  - apply (kept_by_view passenger_count (null_or_between 0 6)).
    intros s Hs. each_stage Hs frame.
Qed.

Lemma passenger_capped zones (df : DataFrame) :
  Forall (fun r => null_or_between 0 6 (passenger_count r))
    (clean_output zones df).
Proof. apply whole_run, passenger_capped_upto. lia. Qed.

(** X3.  Ranges in the clean output: the trip distance is null or between 0
    and 200; the passenger count is null or between 0 and 6; and no trip has
    both a duration that rounds to 0 and a distance that is null or rounds
    to 0 (five decimals). *)
Theorem clean_rows_are_in_range (zones : list ZoneRec) (df : DataFrame)
    (r : Row) :
  In r (clean_output zones df) ->
  null_or_between 0 200 (trip_distance r)
  /\ null_or_between 0 6 (passenger_count r)
  /\ (Qeq_bool (NP.round5 (NA.fillna 0 (trip_duration_min r))) 0
      && Qeq_bool (NP.round5 (NA.fillna 0 (trip_distance r))) 0 = false).
Proof.
  intros Hr.
  pose proof (distance_nonneg zones df) as H0.
  pose proof (distance_at_most_200 zones df) as H1.
  pose proof (passenger_capped zones df) as Hp.
  pose proof (zero_rule_kept zones df) as Hz.
  rewrite Forall_forall in H0, H1, Hp, Hz.
  specialize (H0 r Hr). specialize (H1 r Hr). specialize (Hz r Hr).
  split; [|split; [exact (Hp r Hr)|]].
  - unfold null_or_between, nonneg_or_null in *.
    destruct (trip_distance r); [split; assumption | exact I].
  - cbn [keeps] in Hz. apply negb_true_iff in Hz. exact Hz.
Qed.

Lemma clean_rows_are_in_range_witness :
  In sample_trip_clean (clean_output sample_zones [sample_trip])
  /\ null_or_between 0 200 (trip_distance sample_trip_clean)
  /\ null_or_between 0 6 (passenger_count sample_trip_clean)
  /\ (Qeq_bool (NP.round5 (NA.fillna 0 (trip_duration_min sample_trip_clean))) 0
      && Qeq_bool (NP.round5 (NA.fillna 0 (trip_distance sample_trip_clean))) 0
      = false).
Proof.
  assert (In sample_trip_clean (clean_output sample_zones [sample_trip])) as H
    by (vm_compute; left; reflexivity).
  split; [exact H|].
  exact (clean_rows_are_in_range sample_zones [sample_trip]
           sample_trip_clean H).
Defined.

(** ** Zone names *)

Lemma join_row_match key attach (right : list ZoneRec) (r r' : Row) :
  In r' (join_row key attach right r) ->
  r' = attach None None None r
  \/ exists rec,
       In rec right /\ LocationID rec = key r /\
       r' = attach (Borough rec) (Zone rec) (service_zone rec) r.
Proof.
  unfold join_row.
  destruct (filter _ right) as [|z0 ms] eqn:E.
  - intros [<- | []]. left. reflexivity.
  - intros H. apply in_map_iff in H as (rec & <- & Hin).
    rewrite <- E in Hin. apply filter_In in Hin as [Hin Hk].
    apply optZ_eqb_eq in Hk. right. exists rec. auto.
Qed.

Lemma pickup_zone_attached zones (df : DataFrame) :
  Forall (fun r =>
            PU_Zone r = None
            \/ zone_attached zones (PULocationID r)
                 (PU_Borough r) (PU_Zone r) (PU_service_zone r))
    (clean_output zones df).
Proof.
  apply (pipeline_invariant_at _ zones 22 MergePickupZone); [reflexivity| |].
  - intros r r' H. cbn [row_results] in H.
    apply join_row_match in H as [-> | (rec & Hin & Hid & ->)].
    + left. reflexivity.
    + right. exists rec. cbn. auto.
  - apply (kept_by_view
             (fun r => (PULocationID r, PU_Borough r, PU_Zone r,
                        PU_service_zone r))
             (fun v => snd (fst v) = None
                       \/ zone_attached zones (fst (fst (fst v)))
                            (snd (fst (fst v))) (snd (fst v)) (snd v))).
    intros s Hs. each_stage Hs frame.
Qed.

Lemma dropoff_zone_attached zones (df : DataFrame) :
  Forall (fun r =>
            DO_Zone r = None
            \/ zone_attached zones (DOLocationID r)
                 (DO_Borough r) (DO_Zone r) (DO_service_zone r))
    (clean_output zones df).
Proof.
  apply (pipeline_invariant_at _ zones 23 MergeDropoffZone); [reflexivity| |].
  - intros r r' H. cbn [row_results] in H.
    apply join_row_match in H as [-> | (rec & Hin & Hid & ->)].
    + left. reflexivity.
    + right. exists rec. cbn. auto.
  - apply (kept_by_view
             (fun r => (DOLocationID r, DO_Borough r, DO_Zone r,
                        DO_service_zone r))
             (fun v => snd (fst v) = None
                       \/ zone_attached zones (fst (fst (fst v)))
                            (snd (fst (fst v))) (snd (fst v)) (snd v))).
    intros s Hs. each_stage Hs frame.
Qed.

Lemma zones_present zones (df : DataFrame) :
  Forall (fun r => PU_Zone r <> None /\ DO_Zone r <> None)
    (clean_output zones df).
Proof.
  apply (pipeline_invariant_at _ zones 24 DropUnmapped); [reflexivity| |].
  - intros r r' H. cbn [row_results] in H. row_shape H.
    cbn [keeps rewrites] in *.
    destruct (PU_Zone r), (DO_Zone r); try discriminate.
    split; discriminate.
  - apply (kept_by_view (fun r => (PU_Zone r, DO_Zone r))
             (fun v => fst v <> None /\ snd v <> None)).
    intros s Hs. each_stage Hs frame.
Qed.

(** X4.  Zone completeness: every row of the clean output has a pickup and
    a dropoff zone name, and the borough, zone and service zone written on
    each side are those of a record of the zone table whose location id is
    the trip's location id on that side. *)
Theorem clean_rows_carry_zone_names (zones : list ZoneRec) (df : DataFrame)
    (r : Row) :
  In r (clean_output zones df) ->
  PU_Zone r <> None /\ DO_Zone r <> None
  /\ zone_attached zones (PULocationID r)
       (PU_Borough r) (PU_Zone r) (PU_service_zone r)
  /\ zone_attached zones (DOLocationID r)
       (DO_Borough r) (DO_Zone r) (DO_service_zone r).
Proof.
  intros Hr.
  pose proof (pickup_zone_attached zones df) as Hpu.
  pose proof (dropoff_zone_attached zones df) as Hdo.
  pose proof (zones_present zones df) as Hz.
  rewrite Forall_forall in Hpu, Hdo, Hz.
  destruct (Hz r Hr) as [Hp Hd].
  split; [exact Hp|]. split; [exact Hd|]. split.
  - destruct (Hpu r Hr) as [E | H]; [contradiction | exact H].
  - destruct (Hdo r Hr) as [E | H]; [contradiction | exact H].
Qed.

Lemma clean_rows_carry_zone_names_witness :
  In sample_trip_clean (clean_output sample_zones [sample_trip])
  /\ PU_Zone sample_trip_clean <> None /\ DO_Zone sample_trip_clean <> None
  /\ zone_attached sample_zones (PULocationID sample_trip_clean)
       (PU_Borough sample_trip_clean) (PU_Zone sample_trip_clean)
       (PU_service_zone sample_trip_clean)
  /\ zone_attached sample_zones (DOLocationID sample_trip_clean)
       (DO_Borough sample_trip_clean) (DO_Zone sample_trip_clean)
       (DO_service_zone sample_trip_clean).
Proof.
  assert (In sample_trip_clean (clean_output sample_zones [sample_trip])) as H
    by (vm_compute; left; reflexivity).
  split; [exact H|].
  exact (clean_rows_carry_zone_names sample_zones [sample_trip]
           sample_trip_clean H).
Defined.

(** ** The Verifier on the cleaner's output *)

Lemma all_map_true (p : Row -> bool) (df : DataFrame) :
  Forall (fun r => p r = true) df -> Verifier.all (map p df) = true.
Proof.
  intros H. unfold Verifier.all. apply forallb_forall.
  intros b Hb. apply in_map_iff in Hb as (r & <- & Hr).
  rewrite Forall_forall in H. exact (H r Hr).
Qed.

Lemma order_kept_upto zones (n : nat) (df : DataFrame) :
  (4 < n)%nat ->
  Forall (fun r => keeps DropoffBeforePickup r = true) (run_stages zones (firstn n pipeline) df).
Proof.
  intros Hn.
  apply (prefix_invariant_at _ zones 4 n DropoffBeforePickup); [reflexivity | exact Hn | |].
  - intros r r' H. cbn [row_results] in H. row_shape H.
    cbn [rewrites]. exact Hkeep.
  - apply (kept_by_view
             (fun r => (tpep_dropoff_datetime r, tpep_pickup_datetime r))
             (fun v => negb (NP.ltZ (fst v) (snd v)) = true)).
    intros s Hs. each_stage Hs frame.
Qed.

Lemma order_kept zones (df : DataFrame) :
  Forall (fun r => keeps DropoffBeforePickup r = true) (clean_output zones df).
Proof. apply whole_run, order_kept_upto. lia. Qed.

Lemma within_24h_kept_upto zones (n : nat) (df : DataFrame) :
  (6 < n)%nat ->
  Forall (fun r => keeps DurationOver24h r = true) (run_stages zones (firstn n pipeline) df).
Proof.
  intros Hn.
  apply (prefix_invariant_at _ zones 6 n DurationOver24h); [reflexivity | exact Hn | |].
  - intros r r' H. cbn [row_results] in H. row_shape H.
    cbn [rewrites]. exact Hkeep.
  - apply (kept_by_view trip_duration_min
             (fun v => NP.le v (24 * 60) = true)).
    intros s Hs. each_stage Hs frame.
Qed.

Lemma within_24h_kept zones (df : DataFrame) :
  Forall (fun r => keeps DurationOver24h r = true) (clean_output zones df).
Proof. apply whole_run, within_24h_kept_upto. lia. Qed.

Lemma rint_nonneg (x : Q) : 0 <= x -> (0 <= NP.rint x)%Z.
Proof.
  intros Hx. unfold NP.rint.
  assert (0 <= Qfloor x)%Z as Hf
    by (change 0%Z with (Qfloor 0); apply Qfloor_resp_le; exact Hx).
  destruct (Qcompare (x - inject_Z (Qfloor x)) (1 # 2)); try lia.
  destruct (Z.even (Qfloor x)); lia.
Qed.

Lemma round5_positive (d : Q) :
  0 <= d -> Qeq_bool (NP.round5 d) 0 = false ->
  negb (Qle_bool (NP.round5 d) 0) = true.
Proof.
  intros Hd Hne. unfold NP.round5 in *.
  assert (0 <= NP.rint (d * 100000))%Z as Hn
    by (apply rint_nonneg; apply Qmult_le_0_compat; [exact Hd|discriminate]).
  revert Hne Hn. generalize (NP.rint (d * 100000)). intros n Hne Hn.
  apply negb_true_iff. destruct (Qle_bool (inject_Z n / 100000) 0) eqn:E;
    [|reflexivity].
  apply Qle_bool_iff in E.
  assert (Qeq_bool (inject_Z n / 100000) 0 = true) as Hz; [|congruence].
  apply Qeq_bool_iff. revert E.
  unfold Qle, Qeq, Qdiv, Qmult, Qinv, inject_Z. simpl. lia.
Qed.

Lemma round5_zero : Qeq_bool (NP.round5 0) 0 = true.
Proof. reflexivity. Qed.

Lemma unconditional_checks_pass (zones : list ZoneRec) (df : DataFrame) :
  let out := clean_output zones df in
  Verifier.ratecode_valid out = true
  /\ Verifier.saf_valid out = true
  /\ Verifier.drop_ge_pick out = true
  /\ Verifier.dur_le_24h out = true
  /\ Verifier.zero_min_distance_positive out = true
  /\ Verifier.pu_zone_present out = true
  /\ Verifier.do_zone_present out = true.
Proof.
  intros out. subst out.
  pose proof (ratecode_closed zones df) as Hrc.
  pose proof (flag_closed zones df) as Hfl.
  pose proof (order_kept zones df) as Hord.
  pose proof (within_24h_kept zones df) as H24.
  pose proof (clean_output_time_sane zones df) as Hts.
  pose proof (zero_rule_kept zones df) as Hzr.
  pose proof (distance_nonneg zones df) as Hdn.
  pose proof (zones_present zones df) as Hzp.
  rewrite Forall_forall in *.
  repeat match goal with |- _ /\ _ => split end;
    apply all_map_true; apply Forall_forall; intros r Hr.
  - specialize (Hrc r Hr). unfold ratecode_in_domain in Hrc.
    destruct (RatecodeID r) as [q|]; [|reflexivity].
    destruct Hrc as (k & Hk & Eq). cbn [NA.isna orb NA.isinQ].
    apply existsb_exists. exists k. split.
    + simpl. lia.
    + apply Qeq_bool_iff. exact Eq.
  - destruct (Hfl r Hr) as [E | [E | E]]; rewrite E; reflexivity.
  - specialize (Hord r Hr). cbn [keeps] in Hord.
    destruct (Hts r Hr) as (p & d & q & Ep & Ed & _).
    rewrite Ep, Ed in *. cbn [NP.ltZ NP.geZ] in *.
    apply negb_true_iff in Hord. apply Z.ltb_ge in Hord.
    apply Z.leb_le. exact Hord.
  - exact (H24 r Hr).
  - specialize (Hzr r Hr). cbn [keeps] in Hzr.
    destruct (Hts r Hr) as (p & d & q & _ & _ & Eq & _).
    unfold Verifier.zero_minute, Verifier.distance_rounds_positive.
    rewrite Eq in *. cbn [NA.fillna] in Hzr.
    destruct (Qeq_bool (NP.round5 q) 0); [|reflexivity].
    cbn [negb orb andb] in *.
    specialize (Hdn r Hr). unfold nonneg_or_null in Hdn.
    destruct (trip_distance r) as [x|].
    + cbn [NA.fillna NP.gt] in *. apply round5_positive; [exact Hdn|].
      apply negb_true_iff. exact Hzr.
    + cbn [NA.fillna] in Hzr. rewrite round5_zero in Hzr.
      cbn [negb andb] in Hzr. discriminate Hzr.
  - destruct (Hzp r Hr) as [Hp _]. destruct (PU_Zone r); [reflexivity|].
    contradiction.
  - destruct (Hzp r Hr) as [_ Hd]. destruct (DO_Zone r); [reflexivity|].
    contradiction.
Qed.

(** X5.  On the clean output of every run, seven of the Verifier's checks
    always PASS: the rate code and flag domains, dropoff not before pickup,
    duration at most 24 hours, a positive distance for zero-minute trips, and
    the presence of both zone names. *)
Theorem verifier_checks_that_always_pass (zones : list ZoneRec)
    (df : DataFrame) :
  let out := clean_output zones df in
  Verifier.ratecode_valid out = true
  /\ Verifier.saf_valid out = true
  /\ Verifier.drop_ge_pick out = true
  /\ Verifier.dur_le_24h out = true
  /\ Verifier.zero_min_distance_positive out = true
  /\ Verifier.pu_zone_present out = true
  /\ Verifier.do_zone_present out = true.
Proof. exact (unconditional_checks_pass zones df). Qed.

(** *** Totals of non-adjustment rows *)

Lemma pow2_pos (e : Z) : 0 < NP.pow2 e.
Proof.
  destruct e as [|p|p]; unfold NP.pow2; [reflexivity| |reflexivity].
  change 0 with (inject_Z 0). rewrite <- Zlt_Qlt.
  apply Z.pow_pos_nonneg; lia.
Qed.

(** Rounding keeps the sign. *)
Lemma float64_nonneg (x : Q) : 0 <= x -> 0 <= NP.float64 x.
Proof.
  intros Hx. unfold NP.float64.
  destruct (Qeq_bool x 0); [apply Qle_refl|].
  cbv zeta. apply Qle_bool_iff in Hx as Hb. rewrite Hb.
  rewrite Qred_correct. apply Qmult_le_0_compat.
  - change 0 with (inject_Z 0). rewrite <- Zle_Qle. apply rint_nonneg.
    unfold Qdiv. apply Qmult_le_0_compat; [apply Qabs_nonneg|].
    apply Qlt_le_weak, Qinv_lt_0_compat, pow2_pos.
  - apply Qlt_le_weak, pow2_pos.
Qed.

Lemma add_nonneg (x y : Q) : 0 <= x -> 0 <= y -> 0 <= NP.add x y.
Proof.
  intros Hx Hy. unfold NP.add. apply float64_nonneg.
  change 0 with (0 + 0). apply Qplus_le_compat; assumption.
Qed.

Lemma fillna_nonneg (v : option Q) : nonneg_or_null v -> 0 <= NA.fillna 0 v.
Proof. destruct v; simpl; [tauto | intros _; discriminate]. Qed.

Lemma comp_nonneg (r : Row) :
  fees_nonneg r -> nonneg_or_null (fare_amount r) -> 0 <= Verifier.comp r.
Proof.
  unfold fees_nonneg, component_fee_columns. intros H Hf.
  repeat match goal with
         | H : Forall _ (_ :: _) |- _ => inversion_clear H
         end.
  cbn [getcol] in *.
  repeat match goal with
         | H : nonneg_or_null _ |- _ => apply fillna_nonneg in H
         end.
  unfold Verifier.comp. repeat apply add_nonneg; assumption.
Qed.

Lemma money_sane_view (r r' : Row) :
  (fee_view r', total_amount r') = (fee_view r, total_amount r) ->
  money_sane r -> money_sane r'.
Proof.
  intros E (Hfees & Hfare & Htot).
  pose proof (f_equal fst E) as Ef. pose proof (f_equal snd E) as Et.
  cbn [fst snd] in Ef, Et.
  split; [exact (fees_nonneg_view r r' Ef Hfees)|].
  split; [exact (fare_view r r' Ef Hfare)|].
  unfold total_nonneg_unless_adjustment, non_adj in *.
  unfold fee_view in Ef. inversion Ef as [[E1 E2 E3 E4 E5 E6 E7 E8 E9]].
  rewrite Et, E1. exact Htot.
Qed.

Lemma money_sane_before_reconcile zones (df : DataFrame) :
  Forall money_sane (run_stages zones stages_before_reconcile df).
Proof.
  unfold stages_before_reconcile. rewrite !run_stages_app.
  generalize (run_stages zones stages_before_fees df). intros d.
  pose proof (null_negative_loop zones component_fee_columns [] d) as Hloop.
  change (run_stages zones (map NullNegative component_fee_columns) d)
    with (run_stages zones fee_stages d) in Hloop.
  revert Hloop. generalize (run_stages zones fee_stages d). intros d1 Hloop.
  assert (Forall fees_nonneg d1) as Hfees
    by (apply Hloop; apply Forall_forall; intros; constructor).
  clear Hloop.
  change (run_stages zones [NegativeFare; NegativeTotal] d1)
    with (drop_negative_total (drop_negative_fare d1)).
  unfold drop_negative_total, drop_negative_fare.
  rewrite !boolean_index_map.
  apply Forall_forall. intros r Hr.
  apply filter_In in Hr as [Hr Htot]. apply filter_In in Hr as [Hr Hfare].
  rewrite Forall_forall in Hfees.
  split; [exact (Hfees r Hr)|]. split.
  - intros Hna. exact (keeps_nonneg_or_exempt _ _ Hfare Hna).
  - intros Hna. exact (keeps_nonneg_or_exempt _ _ Htot Hna).
Qed.

Lemma reconcile_keeps_money_sane (r : Row) :
  money_sane r -> money_sane (reconcile_row r).
Proof.
  intros (Hfees & Hfare & Htot).
  assert (fee_view (reconcile_row r) = fee_view r) as Ef.
  { unfold reconcile_row, assign_if. destruct (NA.as_mask _); reflexivity. }
  split; [exact (fees_nonneg_view _ _ Ef Hfees)|].
  split; [exact (fare_view _ _ Ef Hfare)|].
  unfold total_nonneg_unless_adjustment.
  assert (non_adj (reconcile_row r) = non_adj r) as ->.
  { unfold reconcile_row, assign_if. destruct (NA.as_mask _); reflexivity. }
  intros Hna. rewrite reconcile_row_spec.
  destruct (total_amount r) as [t|] eqn:Et.
  - destruct (Qle_bool _ _).
    + exact (Htot Hna).
    + cbn [total_amount set_total_amount nonneg_or_null].
      apply comp_nonneg; [exact Hfees | exact (Hfare Hna)].
  - exact (Htot Hna).
Qed.

Lemma clean_output_money_sane zones (df : DataFrame) :
  Forall money_sane (clean_output zones df).
Proof.
  rewrite run_stages_pipeline, pipeline_around_reconcile, !run_stages_app.
  pose proof (money_sane_before_reconcile zones df) as H0.
  revert H0. generalize (run_stages zones stages_before_reconcile df).
  intros d H0.
  apply run_stages_preserve.
  - intros s Hs r r' Hres. apply money_sane_view.
    exact (money_view_unchanged zones s Hs r r' Hres).
  - apply Forall_forall. intros r' Hr'.
    change (In r' (run_stage zones ReconcileTotal d)) in Hr'.
    apply stage_sound in Hr' as (r & Hr & Hres).
    cbn [row_results keeps rewrites] in Hres. destruct Hres as [<- | []].
    apply reconcile_keeps_money_sane.
    rewrite Forall_forall in H0. exact (H0 r Hr).
Qed.

(** *** What survives from a well-recorded raw frame *)

Lemma total_stays_recorded zones (ss : list Stage) (df : DataFrame) :
  (forall s, In s ss -> In s pipeline) ->
  Forall (fun r => total_amount r <> None) df ->
  Forall (fun r => total_amount r <> None) (run_stages zones ss df).
Proof.
  intros Hss. apply run_stages_preserve.
  intros s Hs. specialize (Hss s Hs). clear Hs.
  each_stage Hss
    ltac:(intros r r' H HP; cbn [row_results] in H; row_shape H;
          cbn [rewrites];
          unfold normalize_flag_row, cap_passenger_row, reconcile_row,
            assign_if;
          split_masks;
          first [exact HP
                | cbn [total_amount set_total_amount]; discriminate]).
Qed.

Lemma payment_stays_in_domain zones (values : list Z) (ss : list Stage)
    (df : DataFrame) :
  (forall s, In s ss -> In s pipeline) ->
  Forall (fun r => null_or_among values (payment_type r)) df ->
  Forall (fun r => null_or_among values (payment_type r))
    (run_stages zones ss df).
Proof.
  intros Hss. apply run_stages_preserve.
  intros s Hs. specialize (Hss s Hs). clear Hs.
  each_stage Hss
    ltac:(intros r r' H HP; cbn [row_results] in H; row_shape H;
          cbn [rewrites];
          unfold normalize_flag_row, cap_passenger_row, reconcile_row,
            assign_if;
          split_masks;
          first [exact HP | exact I]).
Qed.

Section WellRecorded.

Variable zones : list ZoneRec.
Variable df : DataFrame.
Hypothesis Hraw : Forall well_recorded df.

Lemma recorded_cells_survive (r : Row) :
  In r (clean_output zones df) ->
  VendorID r <> None /\ trip_distance r <> None /\ fare_amount r <> None
  /\ total_amount r <> None
  /\ null_or_among [0; 1; 2; 3; 4; 5; 6]%Z (payment_type r).
Proof.
  intros Hr.
  destruct (clean_rows_trace zones df r Hr) as (r0 & Hr0 & E).
  unfold identity_view in E. inversion E as [[Ev E2 E3 E4 E5 Ed Ef]].
  clear E E2 E3 E4 E5.
  pose proof Hraw as Hraw'. rewrite Forall_forall in Hraw'.
  destruct (Hraw' r0 Hr0) as (Hv0 & Hd & Hf & _).
  rewrite Ev, Ed, Ef.
  split; [exact Hv0|]. split; [exact Hd|]. split; [exact Hf|]. split.
  - assert (Forall (fun r => total_amount r <> None) (clean_output zones df))
      as Htot.
    { rewrite run_stages_pipeline.
      apply total_stays_recorded; [intros s Hs; exact Hs|].
      eapply Forall_impl; [|exact Hraw]. intros x H. apply H. }
    rewrite Forall_forall in Htot. exact (Htot r Hr).
  - assert (Forall (fun r => null_or_among [0; 1; 2; 3; 4; 5; 6]%Z
                               (payment_type r)) (clean_output zones df))
      as Hpd.
    { rewrite run_stages_pipeline.
      apply payment_stays_in_domain; [intros s Hs; exact Hs|].
      eapply Forall_impl; [|exact Hraw]. intros x H. apply H. }
    rewrite Forall_forall in Hpd. exact (Hpd r Hr).
Qed.

Lemma vendor_check_passes :
  Verifier.vendor_valid (clean_output zones df) = true.
Proof.
  apply all_map_true, Forall_forall. intros r Hr.
  pose proof (vendor_in_domain zones df) as Hv.
  rewrite Forall_forall in Hv. specialize (Hv r Hr).
  destruct (recorded_cells_survive r Hr) as (Hn & _).
  destruct (VendorID r) as [v|]; [|contradiction].
  destruct Hv as [<- | [<- | []]]; reflexivity.
Qed.

Lemma payment_check_passes :
  Verifier.payment_valid (clean_output zones df) = true.
Proof.
  apply all_map_true, Forall_forall. intros r Hr.
  pose proof (payment_never_zero zones df) as Hp0.
  rewrite Forall_forall in Hp0. specialize (Hp0 r Hr).
  destruct (recorded_cells_survive r Hr) as (_ & _ & _ & _ & Hpd).
  destruct (payment_type r) as [p|]; [|reflexivity].
  destruct Hpd as [<- | [<- | [<- | [<- | [<- | [<- | [<- | []]]]]]]];
    try reflexivity.
  contradiction Hp0. reflexivity.
Qed.

Lemma distance_check_passes :
  Verifier.distance_range (clean_output zones df) = true.
Proof.
  apply all_map_true, Forall_forall. intros r Hr.
  pose proof (distance_nonneg zones df) as Hd0.
  pose proof (distance_at_most_200 zones df) as Hd1.
  rewrite Forall_forall in Hd0, Hd1.
  specialize (Hd0 r Hr). specialize (Hd1 r Hr).
  destruct (recorded_cells_survive r Hr) as (_ & Hn & _).
  destruct (trip_distance r) as [d|]; [|contradiction].
  cbn [NP.ge NP.le nonneg_or_null] in *.
  apply andb_true_iff. split; apply Qle_bool_iff; assumption.
Qed.

Lemma fare_check_passes :
  Verifier.fare_nonneg_when_not_adjust (clean_output zones df) = true.
Proof.
  unfold Verifier.fare_nonneg_when_not_adjust. rewrite boolean_index_map.
  apply all_map_true, Forall_forall. intros r Hr.
  apply filter_In in Hr as [Hr Hna].
  pose proof (clean_output_money_sane zones df) as Hms.
  rewrite Forall_forall in Hms.
  destruct (Hms r Hr) as (_ & Hfare & _).
  destruct (recorded_cells_survive r Hr) as (_ & _ & Hn & _).
  specialize (Hfare Hna).
  destruct (fare_amount r) as [f|]; [|contradiction].
  apply Qle_bool_iff. exact Hfare.
Qed.

Lemma total_sign_check_passes :
  Verifier.total_nonneg_when_not_adjust (clean_output zones df) = true.
Proof.
  unfold Verifier.total_nonneg_when_not_adjust. rewrite boolean_index_map.
  apply all_map_true, Forall_forall. intros r Hr.
  apply filter_In in Hr as [Hr Hna].
  pose proof (clean_output_money_sane zones df) as Hms.
  rewrite Forall_forall in Hms.
  destruct (Hms r Hr) as (_ & _ & Htn).
  destruct (recorded_cells_survive r Hr) as (_ & _ & _ & Hn & _).
  specialize (Htn Hna).
  destruct (total_amount r) as [t|]; [|contradiction].
  apply Qle_bool_iff. exact Htn.
Qed.

Lemma total_match_check_passes :
  Verifier.total_matches_components (clean_output zones df) = true.
Proof.
  apply all_map_true, Forall_forall. intros r Hr.
  pose proof (clean_output_total_reconciled zones df) as Htr.
  rewrite Forall_forall in Htr. specialize (Htr r Hr).
  destruct (recorded_cells_survive r Hr) as (_ & _ & _ & Hn & _).
  unfold total_reconciled in Htr.
  destruct (total_amount r) as [t|]; [|contradiction].
  apply Qle_bool_iff. exact Htr.
Qed.

End WellRecorded.

(** X6.  When every raw row records its vendor id, distance, fare and total,
    has a payment type that is null or one of 0..6, and holds amounts of at
    most 10^300 (so that no binary64 sum overflows), the Verifier reports
    PASS for all thirteen checks on the cleaner's output. *)
Theorem verifier_passes_on_well_recorded_input (zones : list ZoneRec)
    (df : DataFrame) :
  Forall well_recorded df -> Forall amounts_in_range df ->
  Verifier.all_pass (clean_output zones df) = true.
Proof.
  intros Hraw _.
  destruct (unconditional_checks_pass zones df)
    as (C2 & C4 & C6 & C7 & C8 & C12 & C13).
  pose proof (vendor_check_passes zones df Hraw) as V.
  pose proof (payment_check_passes zones df Hraw) as P.
  pose proof (distance_check_passes zones df Hraw) as D.
  pose proof (fare_check_passes zones df Hraw) as F.
  pose proof (total_sign_check_passes zones df Hraw) as T.
  pose proof (total_match_check_passes zones df Hraw) as M.
  revert C2 C4 C6 C7 C8 C12 C13 V P D F T M.
  generalize (clean_output zones df). intros out.
  intros C2 C4 C6 C7 C8 C12 C13 V P D F T M.
  unfold Verifier.all_pass, Verifier.checks. cbn [forallb snd].
  rewrite C2, C4, C6, C7, C8, C12, C13, V, P, D, F, T, M. reflexivity.
Qed.

Lemma sample_trip_well_recorded : Forall well_recorded [sample_trip].
Proof.
  constructor; [|constructor].
  unfold well_recorded. cbn.
  repeat split; try discriminate. tauto.
Qed.

Lemma sample_trip_in_range : Forall amounts_in_range [sample_trip].
Proof. repeat constructor; vm_compute; discriminate. Qed.

Lemma verifier_passes_on_well_recorded_input_witness :
  Forall well_recorded [sample_trip]
  /\ Forall amounts_in_range [sample_trip]
  /\ Verifier.all_pass (clean_output sample_zones [sample_trip]) = true.
Proof.
  split; [exact sample_trip_well_recorded|].
  split; [exact sample_trip_in_range|].
  exact (verifier_passes_on_well_recorded_input sample_zones [sample_trip]
           sample_trip_well_recorded sample_trip_in_range).
Defined.

(** ** The audit trail *)

Lemma dropped_rows_app (a b : list ReportLine) :
  dropped_rows (a ++ b) = (dropped_rows a + dropped_rows b)%Z.
Proof.
  unfold dropped_rows. induction a as [|l t IH]; simpl; [reflexivity|].
  rewrite IH. destruct (String.prefix "Dropped" (fst l)); lia.
Qed.

Lemma dropped_rows_log (report : list ReportLine) (d : string) (c : Z) :
  dropped_rows (_log report d c)
  = (dropped_rows report + if String.prefix "Dropped" d then c else 0)%Z.
Proof.
  unfold _log. rewrite dropped_rows_app. unfold dropped_rows. simpl.
  destruct (String.prefix "Dropped" d); lia.
Qed.

Lemma dropped_rows_log_if_nonzero (report : list ReportLine) (d : string)
    (c : Z) :
  String.prefix "Dropped" d = true ->
  dropped_rows (log_if_nonzero report d c) = (dropped_rows report + c)%Z.
Proof.
  intros H. unfold log_if_nonzero.
  destruct (Z.eqb_spec c 0) as [-> | _]; [lia|].
  rewrite dropped_rows_log, H. reflexivity.
Qed.

Lemma null_negative_steps_report (cols : list FloatCol)
    (st : DataFrame * list ReportLine) :
  dropped_rows (snd (fold_left null_negative_step cols st))
  = dropped_rows (snd st).
Proof.
  revert st. induction cols as [|c t IH]; intros st; simpl; [reflexivity|].
  rewrite IH. unfold null_negative_step. cbn [snd].
  destruct (Z.eqb _ 0); [reflexivity|].
  rewrite dropped_rows_log.
  change (String.prefix "Dropped"
            ("Set negatives to NA for " ++ column_label c)) with false.
  apply Z.add_0_r.
Qed.

Lemma len_loc_assign (df : DataFrame) (m : Row -> option bool)
    (f : Row -> Row) :
  len (loc_assign df (map m df) f) = len df.
Proof. unfold len. rewrite loc_assign_map, length_map. reflexivity. Qed.

Lemma len_null_negative_steps (cols : list FloatCol)
    (st : DataFrame * list ReportLine) :
  len (fst (fold_left null_negative_step cols st)) = len (fst st).
Proof.
  revert st. induction cols as [|c t IH]; intros st; simpl; [reflexivity|].
  rewrite IH. unfold null_negative_step. cbn [fst].
  unfold null_negative, neg_mask. apply len_loc_assign.
Qed.

Lemma len_value_stage zones (s : Stage) (df : DataFrame) :
  drop_stage s = false ->
  (merge_stage s = true -> NoDup (map LocationID zones)) ->
  len (run_stage zones s df) = len df.
Proof.
  intros Hd Hm. unfold len. f_equal.
  rewrite run_stage_rowwise by (intros ->; discriminate).
  assert (forall r, length (row_results zones s r) = 1%nat) as H1.
  { intros r. destruct s; try discriminate; cbn [row_results keeps];
      try reflexivity; apply join_row_length; apply Hm; reflexivity. }
  induction df as [|r t IH]; simpl; [reflexivity|].
  rewrite length_app, IH, H1. reflexivity.
Qed.

Lemma hd_error_log (report : list ReportLine) (d : string) (c : Z)
    (first : ReportLine) :
  hd_error report = Some first -> hd_error (_log report d c) = Some first.
Proof. destruct report; simpl; [discriminate | auto]. Qed.

Lemma hd_error_log_if_nonzero (report : list ReportLine) (d : string) (c : Z)
    (first : ReportLine) :
  hd_error report = Some first ->
  hd_error (log_if_nonzero report d c) = Some first.
Proof.
  intros H. unfold log_if_nonzero. destruct (Z.eqb c 0); [exact H|].
  apply hd_error_log. exact H.
Qed.

Lemma hd_error_null_negative_steps (cols : list FloatCol)
    (st : DataFrame * list ReportLine) (first : ReportLine) :
  hd_error (snd st) = Some first ->
  hd_error (snd (fold_left null_negative_step cols st)) = Some first.
Proof.
  revert st. induction cols as [|c t IH]; intros st H; simpl; [exact H|].
  apply IH. unfold null_negative_step. cbn [snd].
  destruct (Z.eqb _ 0); [exact H|]. apply hd_error_log. exact H.
Qed.

Section AuditTrail.

Variable zones : list ZoneRec.
Hypothesis zones_unique : NoDup (map LocationID zones).

Lemma no_merge (s : Stage) :
  merge_stage s = false ->
  merge_stage s = true -> NoDup (map LocationID zones).
Proof. intros E H. congruence. Qed.

Lemma len_normalize (df : DataFrame) :
  len (normalize_store_and_fwd_flag df) = len df.
Proof.
  exact (len_value_stage zones NormalizeFlag df eq_refl (no_merge NormalizeFlag eq_refl)).
Qed.

Lemma len_ratecode (df : DataFrame) : len (null_invalid_ratecode df) = len df.
Proof.
  exact (len_value_stage zones RatecodeDomain df eq_refl (no_merge RatecodeDomain eq_refl)).
Qed.

Lemma len_payment (df : DataFrame) : len (null_zero_payment df) = len df.
Proof.
  exact (len_value_stage zones PaymentZero df eq_refl (no_merge PaymentZero eq_refl)).
Qed.

Lemma len_duration (df : DataFrame) : len (add_trip_duration df) = len df.
Proof.
  exact (len_value_stage zones TripDuration df eq_refl (no_merge TripDuration eq_refl)).
Qed.

Lemma len_reconcile (df : DataFrame) :
  len (replace_mismatched_total df) = len df.
Proof.
  exact (len_value_stage zones ReconcileTotal df eq_refl (no_merge ReconcileTotal eq_refl)).
Qed.

Lemma len_passenger (df : DataFrame) : len (cap_passenger_count df) = len df.
Proof.
  exact (len_value_stage zones PassengerCap df eq_refl (no_merge PassengerCap eq_refl)).
Qed.

Lemma len_merge_PU (df : DataFrame) : len (merge_PU zones df) = len df.
Proof.
  exact (len_value_stage zones MergePickupZone df eq_refl
           (fun _ => zones_unique)).
Qed.

Lemma len_merge_DO (df : DataFrame) : len (merge_DO zones df) = len df.
Proof.
  exact (len_value_stage zones MergeDropoffZone df eq_refl
           (fun _ => zones_unique)).
Qed.

Lemma report_accounts_for_rows (df : DataFrame) :
  (len df - dropped_rows (snd (clean_frame zones df)))%Z
  = len (fst (clean_frame zones df)).
Proof.
  unfold clean_frame. cbv zeta. cbn [fst snd].
  repeat first
    [ rewrite dropped_rows_log
    | rewrite dropped_rows_log_if_nonzero by reflexivity
    | rewrite null_negative_steps_report; cbn [snd] ].
  repeat match goal with
         | |- context [String.prefix ?a ?b] =>
             let v := eval vm_compute in (String.prefix a b) in
             change (String.prefix a b) with v
         end.
  cbv iota.
  unfold final_types.
  repeat first
    [ rewrite len_normalize | rewrite len_ratecode | rewrite len_payment
    | rewrite len_duration | rewrite len_reconcile | rewrite len_passenger
    | rewrite len_merge_PU | rewrite len_merge_DO
    | rewrite len_null_negative_steps; cbn [fst] ].
  change (dropped_rows []) with 0%Z.
  lia.
Qed.

Lemma report_starts_with_loaded_rows (df : DataFrame) :
  hd_error (snd (clean_frame zones df))
  = Some ("Loaded raw rows"%string, len df).
Proof.
  unfold clean_frame. cbv zeta. cbn [fst snd].
  repeat match goal with
         | |- hd_error (_log [] _ _) = _ => reflexivity
         | |- hd_error (_log _ _ _) = _ => apply hd_error_log
         | |- hd_error (log_if_nonzero _ _ _) = _ =>
             apply hd_error_log_if_nonzero
         | |- hd_error (snd (fold_left _ _ _)) = _ =>
             apply hd_error_null_negative_steps; cbn [snd]
         end.
Qed.

End AuditTrail.

(** X7.  The cleaning report accounts for every row: its first line is the
    number of raw rows loaded, and when the zone table lists every location
    id at most once, the rows loaded minus the counts of all "Dropped ..."
    lines is the number of rows of the clean dataset. *)
Theorem cleaning_report_accounts_for_every_row (zones : list ZoneRec)
    (df : DataFrame) :
  NoDup (map LocationID zones) ->
  hd_error (snd (clean_frame zones df))
  = Some ("Loaded raw rows"%string, len df)
  /\ (len df - dropped_rows (snd (clean_frame zones df)))%Z
     = len (clean_output zones df).
Proof.
  intros Hnd. split.
  - apply report_starts_with_loaded_rows.
  - apply report_accounts_for_rows. exact Hnd.
Qed.

Lemma cleaning_report_accounts_for_every_row_witness :
  NoDup (map LocationID sample_zones)
  /\ (len [sample_trip; null_pickup_trip; sample_trip]
      - dropped_rows
          (snd (clean_frame sample_zones
                  [sample_trip; null_pickup_trip; sample_trip])))%Z
     = len (clean_output sample_zones
              [sample_trip; null_pickup_trip; sample_trip]).
Proof.
  split; [exact sample_zones_unique|].
  exact (proj2 (cleaning_report_accounts_for_every_row sample_zones
                  [sample_trip; null_pickup_trip; sample_trip]
                  sample_zones_unique)).
Defined.

(** With a repeated location id the join adds rows that no line of the
    report mentions. *)
Example report_misses_joined_rows :
  dropped_rows (snd (clean_frame doubled_zones [sample_trip])) = 0%Z
  /\ len [sample_trip] = 1%Z
  /\ len (clean_output doubled_zones [sample_trip]) = 2%Z.
Proof. repeat split; vm_compute; reflexivity. Qed.

(** ** [_coalesce_sum] in general *)

Lemma coalesce_fold (df : DataFrame) (cs : list FloatCol) (acc : Row -> Q) :
  fold_left
    (fun result s =>
       match result with
       | None => Some s
       | Some a => Some (series_add_fill 0 a (series_fillna 0 s))
       end)
    (map (fun c => column c df) cs)
    (Some (map (fun r => Some (acc r)) df))
  = Some (map (fun r =>
                 Some (fold_left NP.add
                         (map (fun c => NA.fillna 0 (getcol c r)) cs)
                         (acc r))) df).
Proof.
  revert acc. induction cs as [|c t IH]; intros acc; cbn [map fold_left];
    [reflexivity|].
  change (column c df) with (map (getcol c) df).
  rewrite (series_add_fill_map (fun r => Some (acc r)) (getcol c) df).
  cbn [add_fill].
  exact (IH (fun r => NP.add (acc r) (NA.fillna 0 (getcol c r)))).
Qed.

(** X8.  [_coalesce_sum]: on no series the assertion fails; a single series
    is returned as it is, nulls included; on two or more columns of a frame
    the result has no null, and each row holds the first column (null as 0)
    plus the other columns (null as 0) added from left to right, with the
    addition of the columns. *)
Theorem coalesce_sum_cases :
  _coalesce_sum [] = None
  /\ (forall s, _coalesce_sum [s] = Some s)
  /\ (forall df c0 c1 cs,
         _coalesce_sum (map (fun c => column c df) (c0 :: c1 :: cs))
         = Some (map (fun r =>
                        Some (fold_left NP.add
                                (map (fun c => NA.fillna 0 (getcol c r))
                                     (c1 :: cs))
                                (NA.fillna 0 (getcol c0 r)))) df)).
Proof.
  split; [reflexivity|]. split; [reflexivity|].
  intros df c0 c1 cs. unfold _coalesce_sum. cbn [map fold_left].
  change (column c0 df) with (map (getcol c0) df).
  change (column c1 df) with (map (getcol c1) df).
  rewrite (series_add_fill_map (getcol c0) (getcol c1) df).
  rewrite (map_ext
             (fun r => add_fill 0 (getcol c0 r)
                         (Some (NA.fillna 0 (getcol c1 r))))
             (fun r => Some (NP.add (NA.fillna 0 (getcol c0 r))
                               (NA.fillna 0 (getcol c1 r)))))
    by (intros r; destruct (getcol c0 r); reflexivity).
  exact (coalesce_fold df cs
           (fun r => NP.add (NA.fillna 0 (getcol c0 r))
                       (NA.fillna 0 (getcol c1 r)))).
Qed.

(** ** The run of [clean], continued *)

(** X9.  When the raw file loads but the zone table is missing, or its text
    is rejected by the parser, [clean] ends with the reader's exception
    before any stage runs and writes no file. *)
Theorem unreadable_zone_file_aborts
    (parse_trips : string -> Exception + DataFrame)
    (parse_zones : string -> Exception + list ZoneRec)
    (to_csv : DataFrame -> string)
    (render_report : list ReportLine -> Z -> string)
    (fs : FileSystem) (text : string) (df : DataFrame) (e : Exception) :
  fs RAW_CSV = Some text -> parse_trips text = inr df ->
  (fs ZONES_CSV = None /\ e = Raise "FileNotFoundError" ZONES_CSV)
  \/ (exists ztext, fs ZONES_CSV = Some ztext /\ parse_zones ztext = inl e) ->
  clean parse_trips parse_zones to_csv render_report fs = (inl e, fs).
Proof.
  intros Hraw Hparse H.
  unfold clean, bind, _read_inputs, read_csv, bind.
  rewrite Hraw, Hparse.
  destruct H as [[Hnone ->] | (ztext & Hsome & Hz)].
  - rewrite Hnone. reflexivity.
  - rewrite Hsome, Hz. reflexivity.
Qed.

Lemma unreadable_zone_file_aborts_witness :
  clean parse_no_trips parse_no_zones to_csv_blank render_report_blank
    (fun p => if String.eqb p RAW_CSV then Some "VendorID"%string else None)
  = (inl (Raise "FileNotFoundError" ZONES_CSV),
     fun p => if String.eqb p RAW_CSV then Some "VendorID"%string else None).
Proof.
  apply (unreadable_zone_file_aborts parse_no_trips parse_no_zones
           to_csv_blank render_report_blank _ "VendorID"%string []).
  - reflexivity.
  - reflexivity.
  - left. split; reflexivity.
Defined.





(** ** Empty input *)

(** X11.  A raw file without data rows.  When both inputs load and the raw
    frame has no row, [clean] ends with the [AttributeError] of the [.dt]
    accessor of the duration stage; neither the clean dataset nor the report
    is written, and every file is left as it was. *)
Theorem empty_raw_frame_aborts
    (parse_trips : string -> Exception + DataFrame)
    (parse_zones : string -> Exception + list ZoneRec)
    (to_csv : DataFrame -> string)
    (render_report : list ReportLine -> Z -> string)
    (fs : FileSystem) (text ztext : string) (zones : list ZoneRec) :
  fs RAW_CSV = Some text -> parse_trips text = inr [] ->
  fs ZONES_CSV = Some ztext -> parse_zones ztext = inr zones ->
  exists e,
    clean parse_trips parse_zones to_csv render_report fs = (inl e, fs)
    /\ exception_class e = "AttributeError"%string.
Proof.
  intros Hraw Hparse Hz Hzparse. eexists. split.
  - unfold clean, bind, _read_inputs, read_csv, bind.
    rewrite Hraw, Hparse, Hz, Hzparse.
    unfold ret, clean_and_write, bind. cbn [fst snd dt_accessor].
    unfold raise. reflexivity.
  - reflexivity.
Qed.

Lemma empty_raw_frame_aborts_witness :
  exists e,
    clean parse_no_trips parse_no_zones to_csv_blank render_report_blank
      disk_with_inputs
    = (inl e, disk_with_inputs)
    /\ exception_class e = "AttributeError"%string.
Proof.
  exact (empty_raw_frame_aborts parse_no_trips parse_no_zones to_csv_blank
           render_report_blank disk_with_inputs
           "VendorID"%string "LocationID"%string []
           eq_refl eq_refl eq_refl eq_refl).
Defined.

(** ** Training data prepared from the clean dataset *)

Lemma hour_of_range (t : Z) : (0 <= Modeling.hour_of t <= 23)%Z.
Proof.
  unfold Modeling.hour_of.
  pose proof (Z.mod_pos_bound (t / 3600000000000) 24 ltac:(lia)). lia.
Qed.

(** X12.  [load_and_prepare_data] returns aligned, complete data for any
    frame: [X], [y_fare] and [y_tip] have one entry per retained row, no
    feature and no fare is null, and every tip class is 0 or 1. *)
Theorem prepared_data_is_aligned_and_complete (df : DataFrame) :
  let X := fst (fst (Modeling.load_and_prepare_data df)) in
  let y_fare := snd (fst (Modeling.load_and_prepare_data df)) in
  let y_tip := snd (Modeling.load_and_prepare_data df) in
  length X = length y_fare /\ length y_fare = length y_tip
  /\ (length X <= length df)%nat
  /\ Forall (fun x =>
               Modeling.x_trip_distance x <> None
               /\ Modeling.x_passenger_count x <> None
               /\ Modeling.x_trip_duration_min x <> None
               /\ Modeling.x_pickup_hour x <> None) X
  /\ Forall (fun y => y <> None) y_fare
  /\ Forall (fun c => c = 0%Z \/ c = 1%Z) y_tip.
Proof.
  unfold Modeling.load_and_prepare_data. cbn [fst snd].
  rewrite !length_map.
  split; [reflexivity|]. split; [reflexivity|].
  split; [apply filter_length_le|].
  assert (forall r, In r (Modeling.dropna df) ->
                    Modeling.has_all_values r = true) as Hall
    by (intros r Hr; apply filter_In in Hr; apply Hr).
  split; [|split]; apply Forall_forall.
  - intros x Hx. apply in_map_iff in Hx as (r & <- & Hr).
    specialize (Hall r Hr). unfold Modeling.has_all_values in Hall.
    cbn [Modeling.features_of Modeling.x_trip_distance
           Modeling.x_passenger_count Modeling.x_trip_duration_min
           Modeling.x_pickup_hour].
    destruct (trip_distance r), (passenger_count r), (trip_duration_min r),
      (Modeling.pickup_hour r); try discriminate.
    repeat split; discriminate.
  - intros y Hy. apply in_map_iff in Hy as (r & <- & Hr).
    specialize (Hall r Hr). unfold Modeling.has_all_values in Hall.
    destruct (fare_amount r); [discriminate|].
    rewrite andb_false_r in Hall. discriminate.
  - intros c Hc. apply in_map_iff in Hc as (r & <- & _).
    unfold Modeling.tip_class. destruct (NP.gt _ _); [right | left];
      reflexivity.
Qed.

(** X13.  On a clean dataset the pickup hour and the duration are never
    null, so [load_and_prepare_data] drops exactly the rows without
    distance, passenger count, fare or tip; every feature row it returns has
    a distance in [0, 200], a passenger count in [0, 6], a duration in
    [0, 1440] and a pickup hour in [0, 23]. *)
Theorem training_features_are_in_range (zones : list ZoneRec)
    (df : DataFrame) :
  let out := clean_output zones df in
  let X := fst (fst (Modeling.load_and_prepare_data out)) in
  X = map Modeling.features_of
        (filter (fun r => NA.notna (trip_distance r)
                          && NA.notna (passenger_count r)
                          && NA.notna (fare_amount r)
                          && NA.notna (tip_amount r)) out)
  /\ Forall Modeling.in_training_range X.
Proof.
  intros out X. subst X.
  pose proof (clean_output_time_sane zones df) as Hts.
  pose proof (distance_nonneg zones df) as Hd0.
  pose proof (distance_at_most_200 zones df) as Hd1.
  pose proof (passenger_capped zones df) as Hpc.
  fold out in Hts, Hd0, Hd1, Hpc. clearbody out.
  rewrite Forall_forall in Hts, Hd0, Hd1, Hpc.
  unfold Modeling.load_and_prepare_data, Modeling.dropna. cbn [fst snd].
  split.
  - f_equal. apply filter_ext_in. intros r Hr.
    destruct (Hts r Hr) as (p & d & q & Ep & _ & Eq & _).
    unfold Modeling.has_all_values, Modeling.pickup_hour.
    rewrite Ep, Eq. cbn [option_map NA.notna NA.isna negb].
    rewrite !andb_true_r. reflexivity.
  - apply Forall_forall. intros x Hx.
    apply in_map_iff in Hx as (r & <- & Hr).
    apply filter_In in Hr as [Hr Hall].
    destruct (Hts r Hr) as (p & d & q & Ep & _ & Eq & Hq0 & Hq1).
    specialize (Hd0 r Hr). specialize (Hd1 r Hr). specialize (Hpc r Hr).
    unfold Modeling.has_all_values in Hall.
    unfold Modeling.in_training_range, Modeling.features_of,
      Modeling.pickup_hour.
    cbn [Modeling.x_trip_distance Modeling.x_passenger_count
           Modeling.x_trip_duration_min Modeling.x_pickup_hour].
    rewrite Ep, Eq.
    destruct (trip_distance r) as [dist|]; [|discriminate].
    destruct (passenger_count r) as [pc|]; [|discriminate].
    cbn [nonneg_or_null null_or_between] in *.
    exists dist, pc, q, (Modeling.hour_of p).
    split; [reflexivity|]. split; [reflexivity|]. split; [reflexivity|].
    split; [reflexivity|].
    split; [exact Hd0|]. split; [exact Hd1|].
    split; [exact (proj1 Hpc)|]. split; [exact (proj2 Hpc)|].
    split; [exact Hq0|].
    split; [apply Qle_trans with (24 * 60); [exact Hq1 | discriminate]|].
    apply hour_of_range.
Qed.

Example sample_training_row :
  Modeling.load_and_prepare_data (clean_output sample_zones [sample_trip])
  = ([Modeling.mkFeatures (Some (5 # 2)) (Some 1)
        (duration_minutes sample_trip) (Some 22%Z)],
     [Some 10], [0%Z]).
Proof. vm_compute. reflexivity. Qed.

(** ** The Verifier's run *)


Lemma verification_path_differs :
  String.eqb CLEAN_CSV VERIFICATION_REPORT_MD = false
  /\ String.eqb RAW_CSV VERIFICATION_REPORT_MD = false
  /\ String.eqb ZONES_CSV VERIFICATION_REPORT_MD = false
  /\ String.eqb REPORT_MD VERIFICATION_REPORT_MD = false.
Proof. repeat split; vm_compute; reflexivity. Qed.

(** X14.  The Verifier's [main] reads the clean file and writes one file.
    If the clean file is missing or rejected by the parser it ends with the
    reader's exception and writes nothing; otherwise it writes the
    verification report computed from the parsed frame and leaves every
    other file, the clean dataset included, as it was. *)
Theorem verifier_run_only_writes_its_report
    (parse_clean : string -> Exception + DataFrame)
    (format_count : Z -> string) (fs : FileSystem) :
  (forall e,
      (fs CLEAN_CSV = None /\ e = Raise "FileNotFoundError" CLEAN_CSV)
      \/ (exists text, fs CLEAN_CSV = Some text /\ parse_clean text = inl e) ->
      verify_main parse_clean format_count fs = (inl e, fs))
  /\ (forall text df,
         fs CLEAN_CSV = Some text -> parse_clean text = inr df ->
         let run := verify_main parse_clean format_count fs in
         fst run = inr tt
         /\ snd run VERIFICATION_REPORT_MD
            = Some (verification_text format_count df)
         /\ snd run CLEAN_CSV = fs CLEAN_CSV
         /\ (forall p, p <> VERIFICATION_REPORT_MD -> snd run p = fs p)).
Proof.
  split.
  - intros e H. unfold verify_main, bind, read_csv.
    destruct H as [[Hnone ->] | (text & Hsome & Hparse)].
    + rewrite Hnone. reflexivity.
    + rewrite Hsome, Hparse. reflexivity.
  - intros text df Hsome Hparse run. subst run.
    unfold verify_main, bind, read_csv. rewrite Hsome, Hparse.
    unfold write_file. cbn [fst snd].
    destruct verification_path_differs as (E1 & _).
    split; [reflexivity|].
    split; [rewrite String.eqb_refl; reflexivity|].
    split; [rewrite E1; exact Hsome|].
    intros p Hp. apply String.eqb_neq in Hp. rewrite Hp. reflexivity.
Qed.

Lemma verifier_run_only_writes_its_report_witness :
  verify_main parse_no_trips (fun _ => "0"%string) empty_disk
  = (inl (Raise "FileNotFoundError" CLEAN_CSV), empty_disk).
Proof.
  apply (proj1 (verifier_run_only_writes_its_report parse_no_trips
                  (fun _ => "0"%string) empty_disk)).
  left. split; reflexivity.
Defined.



(** ** Cleaning a cleaned frame *)

Lemma duration_recorded_upto zones (n : nat) (df : DataFrame) :
  (5 < n)%nat ->
  Forall (fun r => trip_duration_min r = duration_minutes r)
    (run_stages zones (firstn n pipeline) df).
Proof.
  intros Hn.
  apply (prefix_invariant_at _ zones 5 n TripDuration);
    [reflexivity | exact Hn | |].
  - intros r r' H. cbn [row_results] in H. row_shape H.
    cbn [rewrites]. destruct r; reflexivity.
  - apply (kept_by_view time_view
             (fun v => snd v
                       = match snd (fst v), fst (fst v) with
                         | Some d, Some p =>
                             Some (inject_Z (d - p) / 1000000000 / 60)
                         | _, _ => None
                         end)).
    intros s Hs. each_stage Hs frame.
Qed.

Lemma fee_nonneg_upto zones (c : FloatCol) (k n : nat) (df : DataFrame) :
  nth_error pipeline k = Some (NullNegative c) -> (k < n)%nat ->
  In c component_fee_columns ->
  Forall (fun r => nonneg_or_null (getcol c r))
    (run_stages zones (firstn n pipeline) df).
Proof.
  intros Hk Hn Hc.
  apply (prefix_invariant_at _ zones k n (NullNegative c));
    [exact Hk | exact Hn | |].
  - intros r r' H. cbn [row_results keeps] in H. destruct H as [<- | []].
    apply null_negative_column.
  - intros s Hs r r' Hres HP.
    apply in_skipn_list in Hs.
    assert (getcol c r' = getcol c r \/ getcol c r' = None) as [-> | ->];
      [|exact HP|exact I].
    clear HP. revert r r' Hres.
    simpl in Hc.
    repeat (destruct Hc as [<- | Hc];
            [each_stage Hs
               ltac:(intros r r' H; cbn [row_results] in H; row_shape H;
                     cbn [rewrites];
                     unfold normalize_flag_row, cap_passenger_row,
                       reconcile_row, assign_if;
                     split_masks; first [left; reflexivity
                                        | right; reflexivity])|]).
    destruct Hc.
Qed.

Lemma fees_nonneg_upto zones (n : nat) (df : DataFrame) :
  (16 < n)%nat ->
  Forall fees_nonneg (run_stages zones (firstn n pipeline) df).
Proof.
  intros Hn. unfold fees_nonneg, component_fee_columns.
  pose proof (fee_nonneg_upto zones col_extra 10 n df eq_refl) as H1.
  pose proof (fee_nonneg_upto zones col_mta_tax 11 n df eq_refl) as H2.
  pose proof (fee_nonneg_upto zones col_tip_amount 12 n df eq_refl) as H3.
  pose proof (fee_nonneg_upto zones col_tolls_amount 13 n df eq_refl) as H4.
  pose proof (fee_nonneg_upto zones col_improvement_surcharge 14 n df eq_refl)
    as H5.
  pose proof (fee_nonneg_upto zones col_congestion_surcharge 15 n df eq_refl)
    as H6.
  pose proof (fee_nonneg_upto zones col_airport_fee 16 n df eq_refl) as H7.
  specialize (H1 ltac:(lia) ltac:(simpl; tauto)).
  specialize (H2 ltac:(lia) ltac:(simpl; tauto)).
  specialize (H3 ltac:(lia) ltac:(simpl; tauto)).
  specialize (H4 ltac:(lia) ltac:(simpl; tauto)).
  specialize (H5 ltac:(lia) ltac:(simpl; tauto)).
  specialize (H6 ltac:(lia) ltac:(simpl; tauto)).
  specialize (H7 ltac:(lia) ltac:(simpl; tauto)).
  rewrite Forall_forall in *. intros r Hr.
  repeat constructor; auto.
Qed.

Lemma fare_filter_kept_upto zones (n : nat) (df : DataFrame) :
  (17 < n)%nat ->
  Forall (fun r => keeps NegativeFare r = true)
    (run_stages zones (firstn n pipeline) df).
Proof.
  intros Hn.
  apply (prefix_invariant_at _ zones 17 n NegativeFare);
    [reflexivity | exact Hn | |].
  - intros r r' H. cbn [row_results] in H. row_shape H.
    cbn [rewrites]. exact Hkeep.
  - apply (kept_by_view (fun r => (fare_amount r, payment_type r))
             (fun v =>
                NA.as_mask
                  (NA.or (NA.or (Some (NA.isna (fst v))) (NA.ge (fst v) 0))
                     (Some (negb (NA.fillna false
                                    (NA.not (Some (NA.isinZ (snd v)
                                                     [4; 6]%Z)))))))
                = true)).
    intros s Hs. each_stage Hs frame.
Qed.

Lemma cap_passenger_whole (r : Row) :
  whole_passenger_count (passenger_count (cap_passenger_row r)).
Proof.
  unfold cap_passenger_row, assign_if.
  destruct (passenger_count r) as [q|] eqn:Eq; cbn [NA.lt option_map].
  - unfold NA.as_mask at 2. cbn [NA.fillna].
    destruct (Qle_bool 0 q) eqn:E0; cbn [negb].
    + rewrite Eq. cbn [NA.gt option_map NA.as_mask NA.fillna].
      destruct (Qle_bool q 6) eqn:E6; cbn [negb].
      * cbn [passenger_count set_passenger_count]. rewrite Eq.
        cbn [astype_Int64 option_map whole_passenger_count].
        exists (Z.quot (Qnum q) (Zpos (Qden q))). split; [|reflexivity].
        apply Qle_bool_iff in E0, E6.
        destruct (truncation_between q E0 E6) as [H0 H6].
        unfold Qle, inject_Z in H0, H6. simpl in H0, H6. lia.
      * exact I.
    + exact I.
  - cbn [NA.as_mask NA.fillna]. rewrite Eq.
    cbn [NA.gt option_map NA.as_mask NA.fillna].
    cbn [passenger_count set_passenger_count]. rewrite Eq. exact I.
Qed.

Lemma whole_passenger_upto zones (n : nat) (df : DataFrame) :
  (20 < n)%nat ->
  Forall (fun r => whole_passenger_count (passenger_count r))
    (run_stages zones (firstn n pipeline) df).
Proof.
  intros Hn.
  apply (prefix_invariant_at _ zones 20 n PassengerCap);
    [reflexivity | exact Hn | |].
  - intros r r' H. cbn [row_results] in H. row_shape H.
    cbn [rewrites]. apply cap_passenger_whole.
  - apply (kept_by_view passenger_count whole_passenger_count).
    intros s Hs. each_stage Hs frame.
Qed.

Lemma rule_engine_is_prefix : rule_engine_stages = firstn 22 pipeline.
Proof. reflexivity. Qed.

Lemma money_settled_after_rule_engine zones (df : DataFrame) :
  Forall (fun r => money_sane r /\ total_reconciled r)
    (run_stages zones rule_engine_stages df).
Proof.
  change rule_engine_stages
    with (stages_before_reconcile ++ [ReconcileTotal]
          ++ [PassengerCap; Deduplicate]).
  rewrite !run_stages_app.
  pose proof (money_sane_before_reconcile zones df) as H0.
  revert H0. generalize (run_stages zones stages_before_reconcile df).
  intros d H0.
  apply run_stages_preserve.
  - intros s Hs r r' Hres [Hm Ht].
    assert (In s stages_after_reconcile) as Hs'
      by (simpl in Hs |- *; tauto).
    pose proof (money_view_unchanged zones s Hs' r r' Hres) as E.
    split; [exact (money_sane_view r r' E Hm)|].
    exact (total_reconciled_view r r' E Ht).
  - apply Forall_forall. intros r' Hr'.
    change (In r' (run_stage zones ReconcileTotal d)) in Hr'.
    apply stage_sound in Hr' as (r & Hr & Hres).
    cbn [row_results keeps rewrites] in Hres. destruct Hres as [<- | []].
    rewrite Forall_forall in H0.
    split; [apply reconcile_keeps_money_sane; exact (H0 r Hr)|].
    apply reconcile_row_reconciled.
Qed.

Lemma same_key_vs_seen (df : DataFrame) (seen : list Row) :
  Forall (fun b => forall s, In s seen -> same_key s b = false) df ->
  duplicate_free df ->
  boolean_index df (map negb (duplicated_from seen df)) = df.
Proof.
  revert seen. induction df as [|r t IH]; intros seen Hseen Hdf;
    [reflexivity|].
  inversion_clear Hseen as [|? ? Hr Ht].
  inversion_clear Hdf as [|? ? Hrt Hfree].
  cbn [duplicated_from map]. unfold boolean_index in *. cbn [combine].
  assert (existsb (fun s => same_key s r) seen = false) as ->.
  { destruct (existsb _ seen) eqn:E; [|reflexivity].
    apply existsb_exists in E as (s & Hs & Hk). rewrite (Hr s Hs) in Hk.
    discriminate. }
  cbn. f_equal. apply IH; [|exact Hfree].
  rewrite Forall_forall in *. intros b Hb s Hs.
  apply in_app_or in Hs as [Hs | [<- | []]]; [exact (Ht b Hb s Hs)|].
  exact (Hrt b Hb).
Qed.

Lemma drop_duplicates_fixed (df : DataFrame) :
  duplicate_free df -> drop_duplicates df = df.
Proof.
  intros H. apply same_key_vs_seen; [|exact H].
  apply Forall_forall. intros b _ s [].
Qed.

Lemma flat_map_fixed {A} (f : A -> list A) (l : list A) :
  (forall x, In x l -> f x = [x]) -> flat_map f l = l.
Proof.
  induction l as [|x t IH]; intros H; simpl; [reflexivity|].
  rewrite (H x) by (left; reflexivity). simpl. f_equal.
  apply IH. intros y Hy. apply H. right. exact Hy.
Qed.

Lemma run_stages_fixed zones (ss : list Stage) (d : DataFrame) :
  ~ In Deduplicate ss ->
  (forall s, In s ss -> forall r, In r d -> row_results zones s r = [r]) ->
  run_stages zones ss d = d.
Proof.
  unfold run_stages. induction ss as [|s t IH]; intros Hnd Hfix;
    [reflexivity|].
  cbn [fold_left].
  assert (run_stage zones s d = d) as ->.
  { rewrite run_stage_rowwise by (intros ->; apply Hnd; left; reflexivity).
    apply flat_map_fixed. apply Hfix. left. reflexivity. }
  apply IH.
  - intros H. apply Hnd. right. exact H.
  - intros s' Hs'. apply Hfix. right. exact Hs'.
Qed.

Lemma set_flag_same (r : Row) :
  set_store_and_fwd_flag (store_and_fwd_flag r) r = r.
Proof. destruct r; reflexivity. Qed.

Lemma set_duration_same (r : Row) :
  set_trip_duration_min (trip_duration_min r) r = r.
Proof. destruct r; reflexivity. Qed.

Lemma set_passenger_same (r : Row) :
  set_passenger_count (passenger_count r) r = r.
Proof. destruct r; reflexivity. Qed.

Lemma normalize_flag_fixed (r : Row) :
  flag_in_domain (store_and_fwd_flag r) -> normalize_flag_row r = r.
Proof.
  intros H. rewrite <- (set_flag_same r) at 2.
  unfold normalize_flag_row, assign_if.
  destruct H as [E | [E | E]]; rewrite E; reflexivity.
Qed.

Lemma ratecode_mask_false (v : option Q) :
  ratecode_in_domain v ->
  NA.as_mask (Some (negb (NA.isinQ v [1; 2; 3; 4; 5; 6]%Z) && NA.notna v))
  = false.
Proof.
  destruct v as [q|]; [|reflexivity].
  intros (k & Hk & E). cbn [NA.as_mask NA.fillna].
  assert (NA.isinQ (Some q) [1; 2; 3; 4; 5; 6]%Z = true) as ->;
    [|reflexivity].
  apply existsb_exists. exists k. split; [simpl; lia|].
  apply Qeq_bool_iff. exact E.
Qed.

Lemma nonneg_mask_false (v : option Q) :
  nonneg_or_null v -> NA.as_mask (NA.lt v 0) = false.
Proof.
  destruct v as [x|]; [|reflexivity]. intros H.
  cbn [NA.lt option_map NA.as_mask NA.fillna].
  apply Qle_bool_iff in H. rewrite H. reflexivity.
Qed.

Lemma total_filter_keeps (r : Row) :
  total_nonneg_unless_adjustment r -> keeps NegativeTotal r = true.
Proof.
  unfold total_nonneg_unless_adjustment. intros H. cbn [keeps].
  unfold nonneg_or_exempt.
  destruct (non_adj r);
    [|cbn [negb];
      destruct (NA.or (Some (NA.isna (total_amount r)))
                      (NA.ge (total_amount r) 0)) as [[|]|]; reflexivity].
  specialize (H eq_refl).
  destruct (total_amount r) as [t|]; [|reflexivity].
  cbn [nonneg_or_null NA.isna NA.ge option_map] in *.
  apply Qle_bool_iff in H. rewrite H. reflexivity.
Qed.

Lemma reconcile_fixed (r : Row) : total_reconciled r -> reconcile_row r = r.
Proof.
  intros H. rewrite reconcile_row_spec. unfold total_reconciled in H.
  destruct (total_amount r) as [t|]; [|reflexivity].
  apply Qle_bool_iff in H. rewrite H. reflexivity.
Qed.

Lemma cap_passenger_fixed (r : Row) :
  whole_passenger_count (passenger_count r) -> cap_passenger_row r = r.
Proof.
  intros H. rewrite <- (set_passenger_same r) at 2.
  unfold cap_passenger_row, assign_if, whole_passenger_count in *.
  destruct (passenger_count r) as [q|] eqn:Eq.
  - destruct H as (k & Hk & ->).
    assert (Qle_bool 0 (inject_Z k) = true) as E0
      by (apply Qle_bool_iff; unfold Qle, inject_Z; simpl; lia).
    assert (Qle_bool (inject_Z k) 6 = true) as E6
      by (apply Qle_bool_iff; unfold Qle, inject_Z; simpl; lia).
    cbn [NA.lt option_map NA.as_mask NA.fillna]. rewrite E0. cbn [negb].
    rewrite Eq. cbn [NA.gt option_map NA.as_mask NA.fillna].
    rewrite E6. cbn [negb]. rewrite Eq.
    cbn [astype_Int64 option_map inject_Z Qnum Qden].
    rewrite Z.quot_1_r. reflexivity.
  - cbn [NA.lt option_map NA.as_mask NA.fillna]. rewrite Eq.
    cbn [NA.gt option_map NA.as_mask NA.fillna]. rewrite Eq. reflexivity.
Qed.

Section SettledRow.

Variable zones : list ZoneRec.
Variable r : Row.
Hypothesis Hflag : flag_in_domain (store_and_fwd_flag r).
Hypothesis Hvendor : null_or_among [1; 2]%Z (VendorID r).
Hypothesis Hrate : ratecode_in_domain (RatecodeID r).
Hypothesis Hpay : payment_type r <> Some 0%Z.
Hypothesis Horder : keeps DropoffBeforePickup r = true.
Hypothesis Hdur : trip_duration_min r = duration_minutes r.
Hypothesis H24 : keeps DurationOver24h r = true.
Hypothesis Hzero : keeps ZeroMinuteZeroDistance r = true.
Hypothesis Hd0 : nonneg_or_null (trip_distance r).
Hypothesis Hd1 : match trip_distance r with
                 | Some d => d <= 200
                 | None => True
                 end.
Hypothesis Hfees : fees_nonneg r.
Hypothesis Hfare : keeps NegativeFare r = true.
Hypothesis Hmoney : money_sane r.
Hypothesis Htotal : total_reconciled r.
Hypothesis Hpass : whole_passenger_count (passenger_count r).

Lemma kept_row (s : Stage) :
  merge_stage s = false ->
  keeps s r = true -> rewrites s r = r -> row_results zones s r = [r].
Proof.
  intros Hm Hk Hw. destruct s; cbn [row_results] in *;
    try (rewrite Hk, Hw; reflexivity); discriminate.
Qed.

Lemma fee_column_fixed (c : FloatCol) :
  In c component_fee_columns ->
  row_results zones (NullNegative c) r = [r].
Proof.
  intros Hc. apply kept_row; [reflexivity | reflexivity|].
  cbn [rewrites]. unfold assign_if.
  rewrite nonneg_mask_false; [reflexivity|].
  unfold fees_nonneg in Hfees. rewrite Forall_forall in Hfees. auto.
Qed.

Lemma settled_row_fixed (s : Stage) :
  In s stages_before_dedup -> row_results zones s r = [r].
Proof.
  intros Hs. simpl in Hs.
  destruct Hs as [<- | Hs].
  { apply kept_row; [reflexivity | reflexivity|].
    exact (normalize_flag_fixed r Hflag). }
  destruct Hs as [<- | Hs].
  { apply kept_row; [reflexivity | |reflexivity]. cbn [keeps].
    destruct (VendorID r) as [v|]; [|reflexivity].
    destruct Hvendor as [<- | [<- | []]]; reflexivity. }
  destruct Hs as [<- | Hs].
  { apply kept_row; [reflexivity | reflexivity|].
    cbn [rewrites]. unfold assign_if.
    rewrite (ratecode_mask_false _ Hrate). reflexivity. }
  destruct Hs as [<- | Hs].
  { apply kept_row; [reflexivity | reflexivity|].
    cbn [rewrites]. unfold assign_if.
    destruct (payment_type r) as [p|]; [|reflexivity].
    cbn [NA.eqZ option_map NA.as_mask NA.fillna].
    destruct (Z.eqb_spec p 0) as [-> | _]; [|reflexivity].
    contradiction Hpay. reflexivity. }
  destruct Hs as [<- | Hs].
  { apply kept_row; [reflexivity | exact Horder | reflexivity]. }
  destruct Hs as [<- | Hs].
  { apply kept_row; [reflexivity | reflexivity|].
    cbn [rewrites]. rewrite <- Hdur.
    apply set_duration_same. }
  destruct Hs as [<- | Hs].
  { apply kept_row; [reflexivity | exact H24 | reflexivity]. }
  destruct Hs as [<- | Hs].
  { apply kept_row; [reflexivity | exact Hzero | reflexivity]. }
  destruct Hs as [<- | Hs].
  { apply kept_row; [reflexivity | |reflexivity]. cbn [keeps].
    destruct (trip_distance r) as [d|]; [|reflexivity].
    cbn [nonneg_or_null NA.isna NA.ge option_map] in *.
    apply Qle_bool_iff in Hd0. rewrite Hd0. reflexivity. }
  destruct Hs as [<- | Hs].
  { apply kept_row; [reflexivity | |reflexivity]. cbn [keeps].
    destruct (trip_distance r) as [d|]; [|reflexivity].
    cbn [NA.isna NA.le option_map] in *.
    apply Qle_bool_iff in Hd1. rewrite Hd1. reflexivity. }
  do 7 (destruct Hs as [<- | Hs];
        [apply fee_column_fixed; simpl; tauto|]).
  destruct Hs as [<- | Hs].
  { apply kept_row; [reflexivity | exact Hfare | reflexivity]. }
  destruct Hs as [<- | Hs].
  { apply kept_row; [reflexivity | |reflexivity]. apply total_filter_keeps.
    apply Hmoney. }
  destruct Hs as [<- | Hs].
  { apply kept_row; [reflexivity | reflexivity|].
    exact (reconcile_fixed r Htotal). }
  destruct Hs as [<- | Hs].
  { apply kept_row; [reflexivity | reflexivity|].
    exact (cap_passenger_fixed r Hpass). }
  destruct Hs.
Qed.

End SettledRow.

(** X16.  The Rule Engine is idempotent: applying the stages of [clean] up
    to the deduplication to a frame that they produced returns that frame
    unchanged, row for row. *)
Theorem rule_engine_is_idempotent (df : DataFrame) :
  rule_engine (rule_engine df) = rule_engine df.
Proof.
  unfold rule_engine.
  pose proof (flag_closed_upto [] 22 df ltac:(lia)) as I1.
  pose proof (vendor_in_domain_upto [] 22 df ltac:(lia)) as I2.
  pose proof (ratecode_closed_upto [] 22 df ltac:(lia)) as I3.
  pose proof (payment_never_zero_upto [] 22 df ltac:(lia)) as I4.
  pose proof (order_kept_upto [] 22 df ltac:(lia)) as I5.
  pose proof (duration_recorded_upto [] 22 df ltac:(lia)) as I6.
  pose proof (within_24h_kept_upto [] 22 df ltac:(lia)) as I7.
  pose proof (zero_rule_kept_upto [] 22 df ltac:(lia)) as I8.
  pose proof (distance_nonneg_upto [] 22 df ltac:(lia)) as I9.
  pose proof (distance_at_most_200_upto [] 22 df ltac:(lia)) as I10.
  pose proof (fees_nonneg_upto [] 22 df ltac:(lia)) as I11.
  pose proof (fare_filter_kept_upto [] 22 df ltac:(lia)) as I12.
  pose proof (whole_passenger_upto [] 22 df ltac:(lia)) as I13.
  pose proof (money_settled_after_rule_engine [] df) as I14.
  rewrite <- rule_engine_is_prefix in *.
  assert (duplicate_free (run_stages [] rule_engine_stages df)) as Hfree.
  { unfold rule_engine_stages. rewrite run_stages_app.
    apply drop_duplicates_duplicate_free. }
  revert I1 I2 I3 I4 I5 I6 I7 I8 I9 I10 I11 I12 I13 I14 Hfree.
  generalize (run_stages [] rule_engine_stages df). intros d.
  intros I1 I2 I3 I4 I5 I6 I7 I8 I9 I10 I11 I12 I13 I14 Hfree.
  rewrite Forall_forall in *.
  unfold rule_engine_stages. rewrite run_stages_app.
  rewrite (run_stages_fixed [] stages_before_dedup d).
  - exact (drop_duplicates_fixed d Hfree).
  - intros H. simpl in H.
    repeat (destruct H as [H | H]; [discriminate H|]). exact H.
  - intros s Hs r Hr.
    destruct (I14 r Hr) as [Hm Ht].
    exact (settled_row_fixed [] r (I1 r Hr) (I2 r Hr) (I3 r Hr) (I4 r Hr)
             (I5 r Hr) (I6 r Hr) (I7 r Hr) (I8 r Hr) (I9 r Hr) (I10 r Hr)
             (I11 r Hr) (I12 r Hr) Hm Ht (I13 r Hr) s Hs).
Qed.

Example rule_engine_twice :
  rule_engine (rule_engine [sample_trip; null_pickup_trip; sample_trip])
  = [set_trip_duration_min (duration_minutes sample_trip)
       (set_passenger_count (Some (inject_Z 1)) sample_trip)].
Proof. vm_compute. reflexivity. Qed.

(** ** Deduplication keeps a representative of every key *)

Lemma optZ_eqb_refl (a : option Z) : optZ_eqb a a = true.
Proof. destruct a; simpl; [apply Z.eqb_refl | reflexivity]. Qed.

Lemma optQ_eqb_refl (a : option Q) : optQ_eqb a a = true.
Proof. destruct a; simpl; [apply Qeq_bool_refl | reflexivity]. Qed.

Lemma optZ_eqb_trans (a b c : option Z) :
  optZ_eqb a b = true -> optZ_eqb b c = true -> optZ_eqb a c = true.
Proof.
  intros H1 H2. apply optZ_eqb_eq in H1. apply optZ_eqb_eq in H2.
  subst. apply optZ_eqb_refl.
Qed.

Lemma optQ_eqb_trans (a b c : option Q) :
  optQ_eqb a b = true -> optQ_eqb b c = true -> optQ_eqb a c = true.
Proof.
  destruct a, b, c; simpl; try discriminate; try reflexivity.
  apply Qeq_bool_trans.
Qed.

Lemma same_key_refl (a : Row) : same_key a a = true.
Proof.
  unfold same_key. rewrite !optZ_eqb_refl, !optQ_eqb_refl. reflexivity.
Qed.

Lemma same_key_trans (a b c : Row) :
  same_key a b = true -> same_key b c = true -> same_key a c = true.
Proof.
  unfold same_key. intros H1 H2.
  repeat match goal with
         | H : _ && _ = true |- _ => apply andb_true_iff in H; destruct H
         end.
  repeat (apply andb_true_iff; split);
    first [eapply optZ_eqb_trans; eassumption
          | eapply optQ_eqb_trans; eassumption].
Qed.

Lemma drop_duplicates_prefix (pre : DataFrame) (r x : Row) :
  In x (drop_duplicates pre) -> In x (drop_duplicates (pre ++ [r])).
Proof.
  intros H. rewrite drop_duplicates_snoc. apply in_or_app. left. exact H.
Qed.

(** X17.  Deduplication loses no key: every row of the frame has the same
    eight key columns as some retained row, and a retained row is a row of
    the frame. *)
Theorem every_key_keeps_a_representative (df : DataFrame) (r : Row) :
  In r df ->
  exists r', In r' (drop_duplicates df) /\ In r' df /\ same_key r' r = true.
Proof.
  revert r. induction df as [|x pre IH] using rev_ind; intros r Hr;
    [destruct Hr|].
  assert (forall y, In y pre ->
                    exists r', In r' (drop_duplicates (pre ++ [x]))
                               /\ In r' (pre ++ [x])
                               /\ same_key r' y = true) as Hpre.
  { intros y Hy. destruct (IH y Hy) as (r' & H1 & H2 & H3).
    exists r'. split; [apply drop_duplicates_prefix; exact H1|].
    split; [apply in_or_app; left; exact H2 | exact H3]. }
  apply in_app_or in Hr as [Hr | [<- | []]]; [exact (Hpre r Hr)|].
  destruct (existsb (fun s => same_key s x) pre) eqn:E.
  - apply existsb_exists in E as (s & Hs & Hk).
    destruct (Hpre s Hs) as (r' & H1 & H2 & H3).
    exists r'. split; [exact H1|]. split; [exact H2|].
    exact (same_key_trans r' s x H3 Hk).
  - exists x. split.
    + rewrite drop_duplicates_snoc, E. apply in_or_app. right. left.
      reflexivity.
    + split; [apply in_or_app; right; left; reflexivity|].
      apply same_key_refl.
Qed.

Lemma every_key_keeps_a_representative_witness :
  In sample_trip [sample_trip; null_vendor_trip; sample_trip]
  /\ exists r',
       In r' (drop_duplicates [sample_trip; null_vendor_trip; sample_trip])
       /\ In r' [sample_trip; null_vendor_trip; sample_trip]
       /\ same_key r' sample_trip = true.
Proof.
  assert (In sample_trip [sample_trip; null_vendor_trip; sample_trip]) as H
    by (left; reflexivity).
  split; [exact H|].
  exact (every_key_keeps_a_representative
           [sample_trip; null_vendor_trip; sample_trip] sample_trip H).
Defined.

(** ** Row order *)

Lemma boolean_index_cons {A} (a : A) (l : list A) (b : bool)
    (mask : list bool) :
  boolean_index (a :: l) (b :: mask)
  = if b then a :: boolean_index l mask else boolean_index l mask.
Proof. unfold boolean_index. destruct b; reflexivity. Qed.

Lemma boolean_index_no_mask {A} (l : list A) : boolean_index l [] = [].
Proof. unfold boolean_index. destruct l; reflexivity. Qed.

Lemma boolean_index_compose {A} (l : list A) (outer inner : list bool) :
  boolean_index (boolean_index l outer) inner
  = boolean_index l (compose_masks outer inner).
Proof.
  revert outer inner.
  induction l as [|a t IH]; intros outer inner.
  - destruct outer as [|[|] outer]; reflexivity.
  - destruct outer as [|[|] outer].
    + reflexivity.
    + rewrite boolean_index_cons. destruct inner as [|b inner].
      * cbn [compose_masks]. rewrite !boolean_index_no_mask. reflexivity.
      * cbn [compose_masks]. rewrite !boolean_index_cons, IH. reflexivity.
    + cbn [compose_masks]. rewrite !boolean_index_cons. apply IH.
Qed.

Lemma boolean_index_views {A B} (f : A -> B) (l : list A)
    (mask : list bool) :
  map f (boolean_index l mask) = boolean_index (map f l) mask.
Proof.
  unfold boolean_index. revert mask.
  induction l as [|a t IH]; intros [|b mask]; simpl; try reflexivity.
  destruct b; simpl; rewrite IH; reflexivity.
Qed.

Lemma flat_map_views {V} (view : Row -> V) (f : Row -> list Row)
    (d : DataFrame) :
  (forall r, (length (f r) <= 1)%nat) ->
  (forall r r', In r' (f r) -> view r' = view r) ->
  map view (flat_map f d)
  = boolean_index (map view d)
      (map (fun r => match f r with [] => false | _ => true end) d).
Proof.
  intros Hlen Hview. unfold boolean_index.
  induction d as [|r t IH]; simpl; [reflexivity|].
  rewrite map_app, IH.
  pose proof (Hlen r) as L. pose proof (Hview r) as W.
  destruct (f r) as [|r' [|r'' rest]]; simpl in *; [reflexivity| |lia].
  rewrite (W r') by (left; reflexivity). reflexivity.
Qed.

Lemma run_stage_order zones (s : Stage) (d : DataFrame) :
  In s pipeline -> NoDup (map LocationID zones) ->
  exists mask,
    map identity_view (run_stage zones s d)
    = boolean_index (map identity_view d) mask.
Proof.
  intros Hs Hnd. destruct (Stage_eq_dedup s) as [-> | Hne].
  - eexists. apply boolean_index_views.
  - rewrite run_stage_rowwise by exact Hne. eexists.
    apply flat_map_views.
    + intros r. apply row_results_length. intros _. exact Hnd.
    + exact (identity_view_unchanged zones s Hs).
Qed.

Lemma run_stages_order zones (ss : list Stage) (d : DataFrame) :
  (forall s, In s ss -> In s pipeline) -> NoDup (map LocationID zones) ->
  exists mask,
    map identity_view (run_stages zones ss d)
    = boolean_index (map identity_view d) mask.
Proof.
  intros Hss Hnd. revert d. unfold run_stages.
  induction ss as [|s t IH]; intros d; cbn [fold_left].
  - exists (map (fun _ => true) (map identity_view d)).
    generalize (map identity_view d). intros l.
    induction l as [|a t IHl]; [reflexivity|].
    cbn [map]. rewrite boolean_index_cons, <- IHl. reflexivity.
  - destruct (IH (fun s' Hs' => Hss s' (or_intror Hs'))
                (run_stage zones s d)) as (m2 & E2).
    destruct (run_stage_order zones s d (Hss s (or_introl eq_refl)) Hnd)
      as (m1 & E1).
    exists (compose_masks m1 m2).
    rewrite E2, E1. apply boolean_index_compose.
Qed.

(** X18.  Cleaning never reorders rows: when the zone table lists every
    location id at most once, the identifying columns of the clean output
    (vendor, timestamps, location ids, distance, fare), read top to bottom,
    are those of the raw frame with some rows left out. *)
Theorem cleaning_preserves_row_order (zones : list ZoneRec)
    (df : DataFrame) :
  NoDup (map LocationID zones) ->
  exists mask,
    map identity_view (clean_output zones df)
    = boolean_index (map identity_view df) mask.
Proof.
  intros Hnd. rewrite run_stages_pipeline.
  apply run_stages_order; [intros s Hs; exact Hs | exact Hnd].
Qed.

Lemma cleaning_preserves_row_order_witness :
  NoDup (map LocationID sample_zones)
  /\ exists mask,
       map identity_view
         (clean_output sample_zones [null_pickup_trip; sample_trip])
       = boolean_index (map identity_view [null_pickup_trip; sample_trip])
           mask.
Proof.
  split; [exact sample_zones_unique|].
  exact (cleaning_preserves_row_order sample_zones
           [null_pickup_trip; sample_trip] sample_zones_unique).
Defined.
